(** * PatientPy: sample alignment, matrix assembly and model selection

    A shallow embedding of the list- and dictionary-manipulating parts of
    [InstantiateExperimentDriver.py] and [assemble_feature_matrix.py],
    followed by the properties proved about them.

    Conventions.
    - A Python [str] is a [string] whose characters are code points
      below 256.
    - A text file is the list of lines iterating over it yields, each
      line still carrying its newline.
    - A raised exception is the [Raise] branch of [result]; state that a
      raising call leaves behind is dropped, since no caller catches.
    - A [dict] that is only read or written by key is a [gmap]. *)

From Stdlib Require Import ZArith QArith Ascii String List Lia ZifyNat.
From stdpp Require Import base tactics option list strings pretty gmap fin_maps.

(** ** Exceptions *)

Inductive exn : Set :=
  | NameError | ValueError | IndexError | KeyError
  | AttributeError | FileNotFoundError | TypeError.

Inductive result (A : Type) : Type :=
  | Ok (a : A)
  | Raise (e : exn).
Arguments Ok {A} a.
Arguments Raise {A} e.

Global Instance result_ret : MRet result := λ A a, Ok a.
Global Instance result_bind : MBind result := λ A B f m,
  match m with Ok a => f a | Raise e => Raise e end.

Global Instance result_fmap : FMap result := λ A B f m,
  match m with Ok a => Ok (f a) | Raise e => Raise e end.

Global Arguments result_bind _ _ _ !_ / : assert.
Global Arguments result_fmap _ _ _ !_ / : assert.

Definition of_option {A} (e : exn) (o : option A) : result A :=
  match o with Some a => Ok a | None => Raise e end.

(** [for x in l: st = body(st, x)] with exceptions. *)
Fixpoint for_each {St A} (body : St → A → result St) (l : list A) (st : St)
  : result St :=
  match l with
  | [] => Ok st
  | x :: l' => st' ← body st x; for_each body l' st'
  end.

(** [for i, x in enumerate(l)], counting from [i]. *)
Fixpoint for_enumerate {St A} (body : St → nat → A → result St)
    (i : nat) (l : list A) (st : St) : result St :=
  match l with
  | [] => Ok st
  | x :: l' => st' ← body st i x; for_enumerate body (S i) l' st'
  end.

(** ** Python built-ins used by the drivers *)

Module Py.

(** [str.isspace] on code points below 256. *)
Definition isspace (c : ascii) : bool :=
  let n := N_of_ascii c in
  ((9 <=? n) && (n <=? 13) || (28 <=? n) && (n <=? 32)
   || (n =? 133) || (n =? 160))%N.

(** Removal of the trailing, resp. leading, characters satisfying [p]. *)
Fixpoint rstrip_by (p : ascii → bool) (s : string) : string :=
  match s with
  | "" => ""
  | String a s' =>
      match rstrip_by p s' with
      | "" => if p a then "" else String a ""
      | r => String a r
      end
  end.

Fixpoint lstrip_by (p : ascii → bool) (s : string) : string :=
  match s with
  | "" => ""
  | String a s' => if p a then lstrip_by p s' else s
  end.

(** [s.rstrip()] *)
Definition rstrip (s : string) : string := rstrip_by isspace s.

(** [s.split(sep)] for a one-character separator. *)
Fixpoint split (sep : ascii) (s : string) : list string :=
  match s with
  | "" => [""]
  | String a s' =>
      if Ascii.eqb a sep then "" :: split sep s'
      else match split sep s' with
           | [] => [String a ""]
           | w :: ws => String a w :: ws
           end
  end.

(** [sep.join(l)] *)
Fixpoint join (sep : string) (l : list string) : string :=
  match l with
  | [] => ""
  | [x] => x
  | x :: l' => x +:+ sep +:+ join sep l'
  end.

(** [sub in s] on strings. *)
Fixpoint contains (sub s : string) : bool :=
  String.prefix sub s ||
  match s with
  | "" => false
  | String _ s' => contains sub s'
  end.

(** [l.index(x)]: the first position of [x], or [ValueError]. *)
Fixpoint index `{EqDecision A} (x : A) (l : list A) : result nat :=
  match l with
  | [] => Raise ValueError
  | y :: l' =>
      if decide (y = x) then Ok 0
      else match index x l' with Ok i => Ok (S i) | Raise e => Raise e end
  end.

(** [s[:-n]] *)
Definition drop_end (n : nat) (s : string) : string :=
  String.substring 0 (String.length s - n) s.

(** [str(n)] for a non-negative integer. *)
Definition str (n : nat) : string := pretty n.

(** [int(s)] in base ten: blanks around the literal are dropped, a sign
    may come first, and single underscores may sit between digits.
    The blanks [int] accepts are those of the C locale together with
    the two non-ASCII spaces below 256. *)
Definition int_space (c : ascii) : bool :=
  let n := N_of_ascii c in
  ((9 <=? n) && (n <=? 13) || (n =? 32) || (n =? 133) || (n =? 160))%N.

Fixpoint int_digits (after_underscore : bool) (acc : Z) (s : string)
  : option Z :=
  match s with
  | "" => if after_underscore then None else Some acc
  | String a s' =>
      match Ascii.is_nat a with
      | Some d => int_digits false (acc * 10 + Z.of_nat d) s'
      | None =>
          if Ascii.eqb a "_" then
            if after_underscore then None else int_digits true acc s'
          else None
      end
  end.

Definition int_unsigned (s : string) : option Z :=
  match s with
  | "" => None
  | String a s' =>
      match Ascii.is_nat a with
      | Some d => int_digits false (Z.of_nat d) s'
      | None => None
      end
  end.

Definition int (s : string) : result Z :=
  let t := rstrip_by int_space (lstrip_by int_space s) in
  of_option ValueError
    match t with
    | String "-" r => Z.opp <$> int_unsigned r
    | String "+" r => int_unsigned r
    | _ => int_unsigned t
    end.

End Py.

(** ** Files and parameter dictionaries *)

(** The part of the file system the drivers touch: path to lines. *)
Abbreviation files := (gmap string (list string)).
(** A [params] dictionary: every value the drivers read is a path or name. *)
Abbreviation pydict := (gmap string string).

(** [d[k]] *)
Definition getitem {V} (d : gmap string V) (k : string) : result V :=
  of_option KeyError (d !! k).

(** [open(path, 'r')] followed by iteration. *)
Definition open_read (fs : files) (path : string) : result (list string) :=
  of_option FileNotFoundError (fs !! path).

(** [load_list], InstantiateExperimentDriver.py lines 58-65. *)
Definition load_list (f : list string) : list string :=
  foldl (λ loaded_list full_line,
           let line := Py.rstrip full_line in
           if decide (line = "") then loaded_list
           else loaded_list ++ [line])
        [] f.

(** ** Sample Indexer: [determine_feature_matrix_and_target_matrix_rows] *)

(** The loop of [load_target_present_rows] (lines 163-172).  [first_line]
    and [target_name_file_column_idx] are the loop's two flags and
    [target_present_rows] its accumulator; [break] returns at once. *)
Fixpoint scan_item_present (target_name : string) (first_line : bool)
    (target_name_file_column_idx : nat) (target_present_rows : list string)
    (f : list string) : result (list string) :=
  match f with
  | [] => Ok target_present_rows
  | full_line :: f' =>
      let line := Py.rstrip full_line in
      if decide (line = "") then Ok target_present_rows
      else
        let split_line := Py.split "," (Py.rstrip full_line) in
        if first_line then
          idx ← Py.index target_name split_line;
          scan_item_present target_name false idx target_present_rows f'
        else
          cell ← of_option IndexError (split_line !! target_name_file_column_idx);
          flag ← Py.int cell;
          if decide (flag ≠ 0%Z) then
            case_id ← of_option IndexError (split_line !! 1);
            scan_item_present target_name false target_name_file_column_idx
              (target_present_rows ++ [case_id]) f'
          else
            scan_item_present target_name false target_name_file_column_idx
              target_present_rows f'
  end.

(** [load_target_present_rows], lines 155-173, on the opened file. *)
Definition load_target_present_rows (item_present_file : list string)
    (target_name : string) : result (list string) :=
  scan_item_present target_name true 0 [] item_present_file.

(** The local state of one pass of the loop over targets (lines 188-194). *)
Record index_state : Type := IndexState {
  samples_full_fold_type : list string;
  target_full_fold_type : list string;
  feat_targ_full_fold_type : list string;
  sam_folds : list (list string);
  tar_folds : list (list string);
  feat_folds : list (list string);
  count : nat
}.

Definition index_init : index_state :=
  {| samples_full_fold_type := [];
     target_full_fold_type := [];
     feat_targ_full_fold_type := [];
     sam_folds := replicate 5 [];
     tar_folds := replicate 5 [];
     feat_folds := replicate 5 [];
     count := 0 |}.

(** [folds[i].append(x)] *)
Definition append_at (i : nat) (x : string) (folds : list (list string))
  : list (list string) :=
  alter (λ l, l ++ [x]) i folds.

(** The body of the loop over [case_order_rows] (lines 196-203). *)
Definition index_case (target_case_rows target_present_rows : list string)
    (st : index_state) (idx : nat) (case_id : string) : result index_state :=
  if bool_decide (case_id ∈ target_present_rows) then
    t ← Py.index case_id target_case_rows;
    t' ← Py.index case_id target_case_rows;
    Ok {| samples_full_fold_type := samples_full_fold_type st ++ [Py.str idx];
          target_full_fold_type := target_full_fold_type st ++ [Py.str t];
          feat_targ_full_fold_type := feat_targ_full_fold_type st ++ [case_id];
          sam_folds := append_at (count st mod 5) (Py.str idx) (sam_folds st);
          tar_folds := append_at (count st mod 5) (Py.str t') (tar_folds st);
          feat_folds := append_at (count st mod 5) case_id (feat_folds st);
          count := S (count st) |}
  else Ok st.

(** Lines 188-203: the state after walking the feature-matrix case order. *)
Definition index_cases (case_order_rows target_case_rows
    target_present_rows : list string) : result index_state :=
  for_enumerate (index_case target_case_rows target_present_rows)
    0 case_order_rows index_init.

(** One line of a sample-index file, before it is joined with tabs. *)
Record sample_record : Type := SampleRecord {
  matrix_name : string;
  target_id : nat;
  target_name : string;
  fold_type : string;
  row_indices : list string
}.

Definition tab : string := String "009" "".
Definition newline : string := String "010" "".

(** The string handed to [write] at lines 206-214. *)
Definition render (r : sample_record) : string :=
  matrix_name r +:+ tab +:+ Py.str (target_id r) +:+ tab +:+ target_name r
  +:+ tab +:+ fold_type r +:+ tab +:+ Py.join tab (row_indices r) +:+ newline.

(** The six records one target adds to one file: "full", then folds 0-4. *)
Definition records_of (name : string) (t_idx : nat) (target_name : string)
    (full : list string) (folds : list (list string)) : list sample_record :=
  SampleRecord name t_idx target_name "full" full ::
  ((λ f_idx, SampleRecord name t_idx target_name (Py.str f_idx) (folds !!! f_idx))
     <$> seq 0 5).

(** The three files being written, as the records written so far. *)
Record index_output : Type := IndexOutput {
  feature_samples : list sample_record;
  target_samples : list sample_record;
  feat_targ_samples : list sample_record
}.

(** Lines 205-214: what one target adds to the three files. *)
Definition target_records (feature_matrix_name target_matrix_name : string)
    (t_idx : nat) (target_name : string) (st : index_state) : index_output :=
  {| feature_samples :=
       records_of feature_matrix_name t_idx target_name
         (samples_full_fold_type st) (sam_folds st);
     target_samples :=
       records_of target_matrix_name t_idx target_name
         (target_full_fold_type st) (tar_folds st);
     feat_targ_samples :=
       records_of target_matrix_name t_idx target_name
         (feat_targ_full_fold_type st) (feat_folds st) |}.

Definition output_app (o1 o2 : index_output) : index_output :=
  {| feature_samples := feature_samples o1 ++ feature_samples o2;
     target_samples := target_samples o1 ++ target_samples o2;
     feat_targ_samples := feat_targ_samples o1 ++ feat_targ_samples o2 |}.

Definition feature_samples_header : string :=
  "#feature_matrix_name, target_id, target_name, fold_type, row_indices" +:+ newline.
Definition target_samples_header : string :=
  "#target_matrix_name, target_id, target_name, fold_type, row_indices" +:+ newline.
Definition feat_targ_samples_header : string :=
  "#target_matrix_name, target_id, target_name, fold_type, case_ids" +:+ newline.

(** The loop over the targets, lines 186-214: the records written to
    the three files.  [params] is the enclosing function's argument;
    any other name is looked up among the module's globals, of which
    [globals] holds those bound to dictionaries.  [fs] is the file
    system as the loop sees it. *)
Definition index_targets (globals : gmap string pydict) (params : pydict)
    (fs : files) (case_order_rows target_case_rows
    target_feature_columns : list string) : result index_output :=
  for_enumerate
    (λ out t_idx target_name,
       parmas ← of_option NameError (globals !! "parmas");
       item_present_file ← getitem parmas "item_present_file";
       f ← open_read fs item_present_file;
       target_present_rows ← load_target_present_rows f target_name;
       st ← index_cases case_order_rows target_case_rows target_present_rows;
       feature_matrix_name ← getitem params "feature_matrix_name";
       target_matrix_name ← getitem params "target_matrix_name";
       Ok (output_app out
             (target_records feature_matrix_name target_matrix_name
                t_idx target_name st)))
    0 target_feature_columns (IndexOutput [] [] []).

(** [determine_feature_matrix_and_target_matrix_rows], lines 141-220.
    The three output files are opened for writing before the loop
    starts, so they read as empty while it runs. *)
Definition determine_feature_matrix_and_target_matrix_rows
    (globals : gmap string pydict) (params : pydict) (fs : files)
  : result files :=
  case_order_rows ←
    (p ← getitem params "case_order_rows_file"; load_list <$> open_read fs p);
  target_case_rows ←
    (p ← getitem params "target_case_rows_file"; load_list <$> open_read fs p);
  target_feature_columns ←
    (p ← getitem params "target_feature_columns_file";
     load_list <$> open_read fs p);
  feature_samples_outfile ← getitem params "feature_samples_outfile";
  target_samples_outfile ← getitem params "target_samples_outfile";
  feat_and_targ_samples_outfile ← getitem params "feat_targ_samples_outfile";
  let fs_open :=
    <[feat_and_targ_samples_outfile := []]>
      (<[target_samples_outfile := []]>
         (<[feature_samples_outfile := []]> fs)) in
  out ← index_targets globals params fs_open
          case_order_rows target_case_rows target_feature_columns;
  Ok (<[feat_and_targ_samples_outfile :=
          feat_targ_samples_header :: (render <$> feat_targ_samples out)]>
        (<[target_samples_outfile :=
             target_samples_header :: (render <$> target_samples out)]>
           (<[feature_samples_outfile :=
                feature_samples_header :: (render <$> feature_samples out)]>
              fs))).

(** The globals bound to dictionaries when the module runs as a script
    (lines 532-548): only [params]. *)
Definition script_globals (params : pydict) : gmap string pydict :=
  {[ "params" := params ]}.

(** *** The walk, described by what it keeps

    The definitions below are not in the source: they say what the loop
    of lines 195-203 computes, and the loop is proved equal to them. *)

(** A case kept for a target: its row in the feature matrix, its row in
    the target matrix, and its identifier. *)
Record kept_case : Type := KeptCase {
  feature_row : nat;
  target_row : nat;
  kept_id : string
}.

(** The cases of [case_order_rows] (numbered from [i]) that are present
    for the target, each with its first position in [target_case_rows]. *)
Fixpoint kept_cases (target_case_rows target_present_rows : list string)
    (i : nat) (case_order_rows : list string) : result (list kept_case) :=
  match case_order_rows with
  | [] => Ok []
  | case_id :: rest =>
      if bool_decide (case_id ∈ target_present_rows) then
        t ← Py.index case_id target_case_rows;
        ks ← kept_cases target_case_rows target_present_rows (S i) rest;
        Ok (KeptCase i t case_id :: ks)
      else kept_cases target_case_rows target_present_rows (S i) rest
  end.


(** Dealing [xs] into five folds, the [n]-th arrival going to fold
    [n mod 5]. *)
Fixpoint deal {A} (n : nat) (folds : list (list A)) (xs : list A)
  : list (list A) :=
  match xs with
  | [] => folds
  | x :: xs' => deal (S n) (alter (λ l, l ++ [x]) (n mod 5) folds) xs'
  end.

(** With [n] arrivals dealt so far, fold [k] holds those numbered
    [k], [k + 5], ...: there are five folds, of these lengths. *)
Definition dealt {A} (n : nat) (folds : list (list A)) : Prop :=
  length folds = 5 ∧
  ∀ k fold, folds !! k = Some fold → length fold = (n + 4 - k) / 5.

Definition feature_entry (k : kept_case) : string := Py.str (feature_row k).
Definition target_entry (k : kept_case) : string := Py.str (target_row k).

(** The state reached from [st] after keeping the cases [ks]. *)
Definition walked (st : index_state) (ks : list kept_case) : index_state :=
  {| samples_full_fold_type := samples_full_fold_type st ++ (feature_entry <$> ks);
     target_full_fold_type := target_full_fold_type st ++ (target_entry <$> ks);
     feat_targ_full_fold_type := feat_targ_full_fold_type st ++ (kept_id <$> ks);
     sam_folds := deal (count st) (sam_folds st) (feature_entry <$> ks);
     tar_folds := deal (count st) (tar_folds st) (target_entry <$> ks);
     feat_folds := deal (count st) (feat_folds st) (kept_id <$> ks);
     count := count st + length ks |}.

(** [folds] holds the elements of [full], each arrival exactly once,
    the [j]-th arrival sitting in fold [j mod 5] at position [j / 5]. *)
Definition round_robin {A} (full : list A) (folds : list (list A)) : Prop :=
  length folds = 5 ∧
  concat folds ≡ₚ full ∧
  ∀ j x, full !! j = Some x →
    ∃ fold, folds !! (j mod 5) = Some fold ∧ fold !! (j / 5) = Some x.

(** The three entries written for one case agree: the feature-matrix
    row holds the case, and the target-matrix row is the first one
    holding it. *)
Definition same_case (case_order_rows target_case_rows : list string)
    (feature_index target_index case_id : string) : Prop :=
  ∃ idx t,
    feature_index = Py.str idx ∧ target_index = Py.str t ∧
    case_order_rows !! idx = Some case_id ∧
    target_case_rows !! t = Some case_id ∧
    ∀ j, j < t → target_case_rows !! j ≠ Some case_id.

(** Three records with the same key whose lists agree entry by entry. *)
Definition aligned_records (case_order_rows target_case_rows : list string)
    (rf rt rc : sample_record) : Prop :=
  target_id rf = target_id rt ∧ target_id rt = target_id rc ∧
  target_name rf = target_name rt ∧ target_name rt = target_name rc ∧
  fold_type rf = fold_type rt ∧ fold_type rt = fold_type rc ∧
  Forall3 (same_case case_order_rows target_case_rows)
    (row_indices rf) (row_indices rt) (row_indices rc).

(** *** The scenario of the specification

    Target "fever" is present for cases A, C and D; the feature matrix
    lists the cases as A..E and the target matrix lists them in reverse. *)

Definition fever_table : list string :=
  [ "row,case_id,fever" +:+ newline;
    "0,A,1" +:+ newline;
    "1,B,0" +:+ newline;
    "2,C,1" +:+ newline;
    "3,D,1" +:+ newline;
    "4,E,0" +:+ newline ].

Definition fever_files : files :=
  list_to_map
    [ ("case_order_rows.txt", (λ c, c +:+ newline) <$> ["A"; "B"; "C"; "D"; "E"]);
      ("target_case_rows.txt", (λ c, c +:+ newline) <$> ["E"; "D"; "C"; "B"; "A"]);
      ("target_feature_columns.txt", ["fever" +:+ newline]);
      ("items_present-labeling.txt", fever_table) ].

Definition fever_params : pydict :=
  list_to_map
    [ ("case_order_rows_file", "case_order_rows.txt");
      ("target_case_rows_file", "target_case_rows.txt");
      ("target_feature_columns_file", "target_feature_columns.txt");
      ("feature_samples_outfile", "feature_samples_out.txt");
      ("target_samples_outfile", "target_samples_out.txt");
      ("feat_targ_samples_outfile", "feat_targ_samples_out.txt");
      ("item_present_file", "items_present-labeling.txt");
      ("feature_matrix_name", "full_labeling_");
      ("target_matrix_name", "target_full_matrix") ].


(** ** Feature selection driver: the inverse sample sets *)

(** A loaded sample-index file: key [target_fold] to row indices. *)
Abbreviation samples_dict := (gmap string (list Z)).

(** [model_key.split('_')[0] + '_full'] *)
Definition full_key_of (model_key : string) : string :=
  hd "" (Py.split "_" model_key) +:+ "_full".

(** Lines 273-275 (and 276-278): the elements of [curr_all] that are not
    in [samples[model_key]], which is looked up once per element. *)
Definition not_in_fold (samples : samples_dict) (model_key : string)
    (curr_all : list Z) : result (list Z) :=
  for_each
    (λ inverse x,
       fold ← getitem samples model_key;
       Ok (if bool_decide (x ∈ fold) then inverse else inverse ++ [x]))
    curr_all [].

(** The body of the loop at lines 264-278. *)
Definition inverse_step (feature_samples target_samples : samples_dict)
    (inverse : samples_dict * samples_dict) (model_key : string)
  : result (samples_dict * samples_dict) :=
  if Py.contains "_full" model_key then
    f ← getitem feature_samples model_key;
    t ← getitem target_samples model_key;
    Ok (<[model_key := f]> inverse.1, <[model_key := t]> inverse.2)
  else
    curr_all_feature_samples ← getitem feature_samples (full_key_of model_key);
    curr_all_target_samples ← getitem target_samples (full_key_of model_key);
    f ← not_in_fold feature_samples model_key curr_all_feature_samples;
    t ← not_in_fold target_samples model_key curr_all_target_samples;
    Ok (<[model_key := f]> inverse.1, <[model_key := t]> inverse.2).

(** Lines 262-278 of [run_feature_selection]: the pair
    [(inverse_feature_samples, inverse_target_samples)]. *)
Definition inverse_samples (feature_samples target_samples : samples_dict)
    (model_keys : list string) : result (samples_dict * samples_dict) :=
  for_each (inverse_step feature_samples target_samples) model_keys (∅, ∅).


(** A small sample dictionary: one target, its "full" list and two of
    its folds. *)
Definition example_samples : samples_dict :=
  list_to_map
    [ ("0_full", [1; 4; 6; 9; 11; 20]%Z);
      ("0_0", [1; 20]%Z);
      ("0_1", [4]%Z) ].

Definition example_keys : list string := ["0_full"; "0_0"; "0_1"].

(** ** Model trainer *)

(** A mean cross-validation score.  Finite floats are ordered as the
    rationals they denote, and two of them are [==] when they denote the
    same rational. *)
Abbreviation score := Q.

(** One step of [max]: the running maximum is replaced only by a
    strictly greater item. *)
Definition keep_max (maxval item : score) : score :=
  if Qlt_le_dec maxval item then item else maxval.

(** [max(scores)] *)
Definition py_max (scores : list score) : result score :=
  match scores with
  | [] => Raise ValueError
  | x :: rest => Ok (foldl keep_max x rest)
  end.

(** [scores.index(x)] *)
Fixpoint score_index (x : score) (scores : list score) : result nat :=
  match scores with
  | [] => Raise ValueError
  | y :: rest =>
      if Qeq_bool y x then Ok 0 else S <$> score_index x rest
  end.

(** Lines 406-447 of [run_three_model_training], the part that picks
    [model_type].  The final [else] leaves [model_type] unbound. *)
Definition select_model (lr_m sv_m rf_m lr_r sv_r rf_r : score)
  : result (nat * string * score) :=
  let scores := [lr_m; sv_m; rf_m; lr_r; sv_r; rf_r] in
  max_score ← py_max scores;
  best_score ← score_index max_score scores;
  model_type ←
    match best_score with
    | 0 => Ok "lr-m"
    | 1 => Ok "sv-m"
    | 2 => Ok "rf-m"
    | 3 => Ok "lr-r"
    | 4 => Ok "sv-r"
    | 5 => Ok "rf-r"
    | _ => Raise NameError
    end;
  Ok (best_score, model_type, max_score).

(** [[f(x) for x in l]] when [f] may raise. *)
Fixpoint map_result {A B} (f : A → result B) (l : list A) : result (list B) :=
  match l with
  | [] => Ok []
  | x :: l' => y ← f x; ys ← map_result f l'; Ok (y :: ys)
  end.

(** Lines 336-340 (and 343-347) up to the store: a row is unpacked at
    its colon into exactly two parts, and the second is read as a list
    of integers, or stands for the single column 0 when it is empty. *)
Definition selection_entry (row : string) : result (string * list Z) :=
  match Py.split ":" row with
  | [model_type; str_indices] =>
      if decide (String.length str_indices ≠ 0) then
        l ← map_result Py.int (Py.split "," str_indices);
        Ok (model_type, l)
      else Ok (model_type, [0%Z])
  | _ => Raise ValueError
  end.

(** One of the two loops of [load_feature_selection_files] (lines
    335-340 and 342-347); [suffix] is ["-m"] or ["-r"]. *)
Definition load_selection_rows (suffix : string) (file_rows : list string)
    (feature_dir : gmap string (list Z)) : result (gmap string (list Z)) :=
  for_each
    (λ feature_dir row,
       '(model_type, l) ← selection_entry row;
       Ok (<[model_type +:+ suffix := l]> feature_dir))
    file_rows feature_dir.

(** [load_feature_selection_files], lines 332-348. *)
Definition load_feature_selection_files (fs : files) (prefilename : string)
  : result (gmap string (list Z)) :=
  m_rows ← load_list <$> open_read fs (prefilename +:+ "-mImp.txt");
  feature_dir ← load_selection_rows "-m" m_rows ∅;
  r_rows ← load_list <$> open_read fs (prefilename +:+ "-rImp.txt");
  load_selection_rows "-r" r_rows feature_dir.

(** Feature-selection result files for the key ["0_full"]. *)
Definition example_m_file : list string :=
  ["lr:1,2,3" +:+ newline; "sv:" +:+ newline; "rf:7" +:+ newline].
Definition example_r_file : list string :=
  ["lr:0" +:+ newline; "sv:4,5" +:+ newline; "rf:" +:+ newline].
Definition example_selection_files : files :=
  list_to_map
    [ ("fs/0_full-mImp.txt", example_m_file);
      ("fs/0_full-rImp.txt", example_r_file) ].

(** ** Matrix Assembler: [assemble_feature_matrix] *)

(** A numpy array of dimension at most two.  [Arr2 k rows] has shape
    [(length rows, k)]. *)
Inductive ndarray (A : Type) : Type :=
  | Arr0 (x : A)
  | Arr1 (xs : list A)
  | Arr2 (ncols : nat) (rows : list (list A)).
Arguments Arr0 {A} x.
Arguments Arr1 {A} xs.
Arguments Arr2 {A} ncols rows.

Definition shape {A} (a : ndarray A) : list nat :=
  match a with
  | Arr0 _ => []
  | Arr1 xs => [length xs]
  | Arr2 k rows => [length rows; k]
  end.

Definition ndim {A} (a : ndarray A) : nat := length (shape a).

(** What [full_data] and [all_data] hold: an array, or the [0] or [None]
    they start from. *)
Inductive pyvalue (A : Type) : Type :=
  | NotArray
  | Array (a : ndarray A).
Arguments NotArray {A}.
Arguments Array {A} a.

(** [v.shape], as the progress prints evaluate it. *)
Definition the_array {A} (v : pyvalue A) : result (ndarray A) :=
  match v with
  | Array a => Ok a
  | NotArray => Raise AttributeError
  end.

(** The cells of a delimited file, row by row. *)
Abbreviation table A := (list (list A)).

(** [np.genfromtxt(file, delimiter=',')]: the rows read must agree in
    their number of fields, and the array returned is squeezed. *)
Definition genfromtxt {A} (t : table A) : result (ndarray A) :=
  match t with
  | [] => Ok (Arr1 [])
  | r :: rest =>
      if forallb (λ r', length r' =? length r) rest then
        match rest, r with
        | [], [x] => Ok (Arr0 x)
        | [], _ => Ok (Arr1 r)
        | _, [_] => Ok (Arr1 (concat t))
        | _, _ => Ok (Arr2 (length r) t)
        end
      else Raise ValueError
  end.

(** [np.concatenate((a, b), axis)] for [axis] 0 or 1. *)
Definition concatenate {A} (a : pyvalue A) (b : ndarray A) (axis : nat)
  : result (ndarray A) :=
  match a, b, axis with
  | Array (Arr1 xs), Arr1 ys, 0 => Ok (Arr1 (xs ++ ys))
  | Array (Arr2 k1 r1), Arr2 k2 r2, 0 =>
      if decide (k1 = k2) then Ok (Arr2 k1 (r1 ++ r2)) else Raise ValueError
  | Array (Arr2 k1 r1), Arr2 k2 r2, 1 =>
      if decide (length r1 = length r2)
      then Ok (Arr2 (k1 + k2) (zip_with app r1 r2))
      else Raise ValueError
  | _, _, _ => Raise ValueError
  end.

(** The name vector is only ever built from one-dimensional arrays, so it
    is kept as a list; [None] is the [0] or [None] it starts from.
    [np.concatenate((f_names, l_names), axis=0)]: *)
Definition concatenate_names (f_names : option (list string))
    (l_names : list string) : result (list string) :=
  match f_names with
  | Some f => Ok (f ++ l_names)
  | None => Raise ValueError
  end.

(** The inner function [concat], assemble_feature_matrix.py lines 48-62. *)
Definition concat_arrays {A} (c_idx : nat) (f_data : pyvalue A)
    (f_names : option (list string)) (l_data : ndarray A)
    (l_names : list string) : result (ndarray A * list string) :=
  if decide (c_idx = 0) then Ok (l_data, l_names)
  else if decide (ndim l_data = 2) then
    d ← concatenate f_data l_data 1;
    n ← concatenate_names f_names l_names;
    Ok (d, n)
  else
    d ← concatenate f_data l_data 0;
    n ← concatenate_names f_names l_names;
    Ok (d, n).

(** A feature type as it sits in the feature directory: the data files
    in the order [load_file_list] returns them, each with its cells, and
    the lines of the column-name file as [load_list] returns them. *)
Record feature_type (A : Type) : Type := FeatureType {
  feature_files : list (string * table A);
  feature_columns : list string
}.
Arguments FeatureType {A} _ _.
Arguments feature_files {A} _.
Arguments feature_columns {A} _.

(** An additional feature: its name, its column names, its cells. *)
Record additional_feature (A : Type) : Type := AdditionalFeature {
  additional_name : string;
  additional_columns : list string;
  additional_cells : table A
}.
Arguments AdditionalFeature {A} _ _ _.
Arguments additional_name {A} _.
Arguments additional_columns {A} _.
Arguments additional_cells {A} _.

(** The inner function [load_dir], lines 64-76. *)
Definition load_dir {A} (ty : feature_type A)
  : result (pyvalue A * option (list string)) :=
  for_enumerate
    (λ '(all_data, all_names) idx2 '(filename, cells),
       curr_data ← genfromtxt cells;
       let curr_names :=
         (λ x, x +:+ "_" +:+ Py.drop_end 4 filename) <$> feature_columns ty in
       '(d, n) ← concat_arrays idx2 all_data all_names curr_data curr_names;
       Ok (Array d, Some n))
    0 (feature_files ty) (NotArray, None).

(** [a.reshape(a.shape[0], 1)] *)
Definition reshape_column {A} (a : ndarray A) : result (ndarray A) :=
  match a with
  | Arr0 _ => Raise IndexError
  | Arr1 xs => Ok (Arr2 1 ((λ x, [x]) <$> xs))
  | Arr2 k rows =>
      if decide (length rows * k = length rows)
      then Ok (Arr2 1 ((λ x, [x]) <$> concat rows))
      else Raise ValueError
  end.

(** [np.where(full_names == name)]: a tuple with one index array per
    dimension of the name vector, hence a 1-tuple. *)
Definition where_name (full_names : option (list string)) (name : string)
  : list (list nat) :=
  match full_names with
  | Some names =>
      [ (fst <$> filter (λ p, p.2 = name) (imap (λ i x, (i, x)) names)) ]
  | None => [ [] ]
  end.

(** Lines 113-121.  After the loop, line 119 indexes the data with the
    last [np.where] tuple and line 120 does the same on the
    one-dimensional name vector, which has no second axis. *)
Definition match_columns {A} (full_data : pyvalue A)
    (full_names : option (list string)) (feature_columns_to_match : list string)
  : result (pyvalue A * option (list string)) :=
  if decide (length feature_columns_to_match = 0) then Ok (full_data, full_names)
  else
    _ ← for_each
      (λ '(new_indicies, _) curr_feature_name,
         let column_index_result := where_name full_names curr_feature_name in
         cols ← of_option IndexError (column_index_result !! 1);
         if decide (length cols ≠ 0) then
           c ← of_option IndexError (cols !! 0);
           Ok (new_indicies ++ [c], column_index_result)
         else Ok (new_indicies, column_index_result))
      feature_columns_to_match ([], []);
    _ ← match full_data with
        | NotArray => Raise TypeError
        | Array (Arr2 _ _) => Ok ()
        | Array _ => Raise IndexError
        end;
    match full_names with
    | None => Raise TypeError
    | Some _ => Raise IndexError
    end.

(** [assemble_feature_matrix], lines 78-131: the matrix and the name
    vector handed to [np.save]. *)
Definition assemble_feature_matrix {A} (feature_types_to_include : list (feature_type A))
    (additional_features : list (additional_feature A))
    (feature_columns_to_match : list string)
  : result (ndarray A * ndarray string) :=
  '(full_data, full_names) ←
    for_enumerate
      (λ '(full_data, full_names) idx curr_type,
         '(loaded_data, loaded_names) ← load_dir curr_type;
         loaded_data ← the_array loaded_data;
         loaded_names ← of_option AttributeError loaded_names;
         '(d, n) ← concat_arrays idx full_data full_names loaded_data loaded_names;
         Ok (Array d, Some n))
      0 feature_types_to_include (NotArray, None);
  '(full_data, full_names) ←
    for_enumerate
      (λ '(full_data, full_names) idx curr_file,
         curr_data ← genfromtxt (additional_cells curr_file);
         curr_data ← reshape_column curr_data;
         let curr_names :=
           (λ x, x +:+ "_" +:+ additional_name curr_file)
             <$> additional_columns curr_file in
         '(d, n) ← concat_arrays (idx + 1) full_data full_names curr_data curr_names;
         Ok (Array d, Some n))
      0 additional_features (full_data, full_names);
  '(full_data, full_names) ←
    match_columns full_data full_names feature_columns_to_match;
  full_data ← the_array full_data;
  full_names ← of_option AttributeError full_names;
  Ok (full_data, Arr2 1 ((λ x, [x]) <$> full_names)).

(** The shape the assembled pair is meant to have for [cases] cases: a
    matrix with [cases] rows whose rows all have [cols] entries, and a
    name vector of [cols] names, saved as a column. *)
Definition assembled_for {A} (cases : nat) (out : ndarray A * ndarray string)
  : Prop :=
  ∃ cols rows names,
    out = (Arr2 cols rows, Arr2 1 ((λ x, [x]) <$> names)) ∧
    length rows = cases ∧
    Forall (λ r, length r = cols) rows ∧
    length names = cols.

(** Files whose cells form [cases] rows of [cols] fields each. *)
Definition cells_shape {A} (cases cols : nat) (cells : table A) : Prop :=
  length cells = cases ∧ Forall (λ r, length r = cols) cells.

(** What the assembler holds once payloads over [cases] cases have been
    put side by side: a matrix and as many names as it has columns. *)
Definition loaded {A} (cases : nat) (v : pyvalue A * option (list string))
  : Prop :=
  ∃ cols rows names,
    v = (Array (Arr2 cols rows), Some names) ∧
    cells_shape cases cols rows ∧ length names = cols.

(** A feature type all of whose files hold [cases] rows with one field
    per column name, there being at least one file and two names. *)
Definition matrix_type {A} (cases : nat) (ty : feature_type A) : Prop :=
  feature_files ty ≠ [] ∧
  2 ≤ length (feature_columns ty) ∧
  Forall (λ f, cells_shape cases (length (feature_columns ty)) f.2)
    (feature_files ty).

(** An additional feature holding one value per case under one name. *)
Definition column_feature {A} (cases : nat) (af : additional_feature A) : Prop :=
  length (additional_columns af) = 1 ∧
  cells_shape cases 1 (additional_cells af).

(** *** Example feature directories *)

(** Feature type "demo": two single-column files over three cases. *)
Definition example_demo : feature_type Z :=
  FeatureType
    [ ("age.csv", [[61]; [47]; [70]]%Z);
      ("sex.csv", [[0]; [1]; [1]]%Z) ]
    ["value"].

(** Feature type "labs": two files of two columns over three cases. *)
Definition example_labs : feature_type Z :=
  FeatureType
    [ ("day1.csv", [[1; 2]; [3; 4]; [5; 6]]%Z);
      ("day2.csv", [[7; 8]; [9; 10]; [11; 12]]%Z) ]
    ["hb"; "wbc"].

(** An additional feature over the same three cases. *)
Definition example_additional : additional_feature Z :=
  AdditionalFeature "smoker_features" ["smoker"] [[0]; [1]; [0]]%Z.

(** ** Further parts of the drivers *)

(** [all(p(c) for c in s)] *)
Fixpoint string_forall (p : ascii → bool) (s : string) : bool :=
  match s with
  | "" => true
  | String a s' => p a && string_forall p s'
  end.

Definition is_digit (c : ascii) : bool :=
  match Ascii.is_nat c with Some _ => true | None => false end.

(** [sep not in s] for a character. *)
Definition no_char (sep : ascii) (s : string) : bool :=
  string_forall (λ c, negb (Ascii.eqb c sep)) s.

(** [c in chars] for a character. *)
Fixpoint char_in (chars : string) (c : ascii) : bool :=
  match chars with
  | "" => false
  | String a chars' => Ascii.eqb c a || char_in chars' c
  end.

(** [s.rstrip(chars)]: trailing characters that occur in [chars] go. *)
Definition rstrip_chars (chars s : string) : string :=
  Py.rstrip_by (char_in chars) s.

(** [l[i]] for a list and a Python integer: a negative index counts
    from the end. *)
Definition list_getitem {A} (l : list A) (i : Z) : result A :=
  if (0 <=? i)%Z then of_option IndexError (l !! Z.to_nat i)
  else if (0 <=? Z.of_nat (length l) + i)%Z
       then of_option IndexError (l !! Z.to_nat (Z.of_nat (length l) + i))
       else Raise IndexError.

(** The body of the loop of [load_samples], lines 230-236 (and
    323-329).  The right-hand side of the assignment is evaluated
    before the key. *)
Definition load_samples_line (samples : samples_dict) (full_line : string)
  : result samples_dict :=
  let line := Py.rstrip full_line in
  match line with
  | "" => Ok samples
  | String c _ =>
      if Ascii.eqb c "#" then Ok samples
      else
        let s_line := Py.split "009" line in
        v ← map_result Py.int (drop 4 s_line);
        target ← of_option IndexError (s_line !! 1);
        fold ← of_option IndexError (s_line !! 3);
        Ok (<[target +:+ "_" +:+ fold := v]> samples)
  end.

(** [load_samples], lines 227-237, on the opened file. *)
Definition load_samples (f : list string) : result samples_dict :=
  for_each load_samples_line f ∅.

(** Lines 251-259 of [run_feature_selection] (and 368-372 of
    [run_three_model_training]): the target column of every model key. *)
Definition target_col_indices (model_keys : list string)
  : result (gmap string Z) :=
  for_each
    (λ (indices : gmap string Z) key,
       match indices !! key with
       | Some _ => Ok indices
       | None =>
           i ← Py.int (hd "" (Py.split "_" key));
           Ok (<[key := i]> indices)
       end)
    model_keys ∅.

(** Lines 289-293 (and 363-366): the keys of the "full" records. *)
Definition full_keys (model_keys : list string) : list string :=
  filter (λ model_key, Py.contains "_full" model_key = true) model_keys.

(** Line 389: [target_feature_columns[int(key.rstrip('_full'))]]. *)
Definition model_name (target_feature_columns : list string) (key : string)
  : result string :=
  i ← Py.int (rstrip_chars "_full" key);
  list_getitem target_feature_columns i.

(** The key under which [load_samples] files a record of the indexer. *)
Definition sample_key (t_idx : nat) (fold : string) : string :=
  Py.str t_idx +:+ "_" +:+ fold.

(** [populate_sample_rows_params], lines 476-494. *)
Definition populate_sample_rows_params (base_dir : string) : pydict :=
  let case_dir := base_dir +:+ "complete_feature_files_labeling_cases/" in
  let out_dir := base_dir +:+ "feature_matrix_storage_labeling_cases/" in
  <["target_matrix_name" := case_dir +:+ "target_full_matrix"]>
  (<["feature_matrix_name" := out_dir +:+ "full_labeling_"]>
  (<["item_present_file" := case_dir +:+ "items_present-labeling.txt"]>
  (<["feat_targ_samples_outfile" := out_dir +:+ "feat_targ_samples_out.txt"]>
  (<["target_samples_outfile" := out_dir +:+ "target_samples_out.txt"]>
  (<["feature_samples_outfile" := out_dir +:+ "feature_samples_out.txt"]>
  (<["target_feature_columns_file" := case_dir +:+ "target_feature_columns.txt"]>
  (<["target_case_rows_file" := case_dir +:+ "target_case_rows.txt"]>
  (<["case_order_rows_file" := case_dir +:+ "case_order_rows.txt"]> ∅)))))))).

(** A value of the selection parameters: a path or name, or the list of
    model families. *)
Inductive param : Type :=
  | Path (s : string)
  | Names (l : list string).

(** [populate_feature_selection_params], lines 497-520. *)
Definition populate_feature_selection_params (base_dir : string)
  : gmap string param :=
  let case_dir := base_dir +:+ "complete_feature_files_labeling_cases/" in
  let out_dir := base_dir +:+ "feature_matrix_storage_labeling_cases/" in
  <["eval_participant_features_file" :=
      Path (base_dir +:+ "complete_feature_files_evaluation_cases/participant_features")]>
  (<["participant_features_file" := Path (case_dir +:+ "participant_features")]>
  (<["result_out_dir" := Path (base_dir +:+ "evaluation_study_models/")]>
  (<["rImp_test_filename" :=
       Path (base_dir +:+ "feature_matrix_storage_evaluation_cases/full_evaluation_rImp")]>
  (<["mImp_test_filename" :=
       Path (base_dir +:+ "feature_matrix_storage_evaluation_cases/full_evaluation_mImp")]>
  (<["models_to_use" := Names ["lr"; "sv"; "rf"]]>
  (<["target_matrix_name" := Path (case_dir +:+ "target_full_matrix")]>
  (<["target_feature_columns_file" := Path (case_dir +:+ "target_feature_columns.txt")]>
  (<["target_samples_outfile" := Path (out_dir +:+ "target_samples_out.txt")]>
  (<["feature_samples_outfile" := Path (out_dir +:+ "feature_samples_out.txt")]>
  (<["rImp_filename" := Path (out_dir +:+ "full_labeling_rImp")]>
  (<["mImp_filename" := Path (out_dir +:+ "full_labeling_mImp")]>
  (<["feature_selection_storage" := Path (out_dir +:+ "feature_selection_storage/")]>
     ∅)))))))))))).

(** The names the assembler gives the columns of one file of a type,
    and of one additional feature (lines 74 and 106). *)
Definition file_names {A} (ty : feature_type A) (f : string * table A)
  : list string :=
  (λ x, x +:+ "_" +:+ Py.drop_end 4 f.1) <$> feature_columns ty.

Definition additional_names {A} (af : additional_feature A) : list string :=
  (λ x, x +:+ "_" +:+ additional_name af) <$> additional_columns af.

(** ** Reading the sample-index files back *)

(** The text of a file to which the given pieces have been written, one
    [write] after the other. *)
Definition written (pieces : list string) : string :=
  foldr String.append "" pieces.

(** The lines a text yields when it is iterated over: each line runs up
    to and including its line feed; the last one may lack it.  (A text
    holding no carriage return is split at its line feeds only.) *)
Fixpoint readlines (text : string) : list string :=
  match text with
  | "" => []
  | String a text' =>
      if Ascii.eqb a "010" then String a "" :: readlines text'
      else match readlines text' with
           | [] => [String a ""]
           | line :: lines => String a line :: lines
           end
  end.

(** A name that can stand in a field of a sample-index file: it holds
    no tab, no line feed and no carriage return. *)
Definition field_name (s : string) : Prop :=
  no_char "009" s = true ∧ no_char "010" s = true ∧ no_char "013" s = true.

(** A record the indexer can write and [load_samples] can read back:
    its matrix name does not open a comment, its names hold no tab and
    no line feed, its fold type is a non-empty word, its entries are
    printed row numbers. *)
Definition readable (r : sample_record) (ns : list nat) : Prop :=
  String.prefix "#" (matrix_name r) = false ∧
  no_char "009" (matrix_name r) = true ∧
  no_char "009" (target_name r) = true ∧
  fold_type r ≠ "" ∧
  string_forall (λ c, negb (Py.isspace c)) (fold_type r) = true ∧
  row_indices r = Py.str <$> ns ∧
  no_char "010" (matrix_name r) = true ∧
  no_char "010" (target_name r) = true.

(** What [load_samples] returns for a file holding the records [recs]:
    each record under its key, as integers, and nothing else. *)
Definition read_back (recs : list sample_record) (d : samples_dict) : Prop :=
  (∀ r, r ∈@{list sample_record} recs →
     ∃ ns : list nat,
       row_indices r = Py.str <$> ns ∧
       d !! sample_key (target_id r) (fold_type r) = Some (Z.of_nat <$> ns)) ∧
  (∀ key, is_Some (d !! key) →
     ∃ r, r ∈@{list sample_record} recs ∧
          key = sample_key (target_id r) (fold_type r)).


(** ** The item-presence table, row by row *)

(** A row of the item-presence table as [load_target_present_rows] reads
    it when the target sits in column [col]: not blank, an integer
    [flag] in that column, and, when the flag is not zero, [case_id] in
    the second column. *)
Definition table_row (col : nat) (line : string) (case_id : string) (flag : Z)
  : Prop :=
  Py.rstrip line ≠ "" ∧
  (∃ cell, Py.split "," (Py.rstrip line) !! col = Some cell ∧
           Py.int cell = Ok flag) ∧
  (flag ≠ 0%Z → Py.split "," (Py.rstrip line) !! 1 = Some case_id).

(** A line [load_samples] reads as data: not blank, not a comment. *)
Definition data_line (full_line : string) : Prop :=
  Py.rstrip full_line ≠ "" ∧ String.prefix "#" (Py.rstrip full_line) = false.

(** The case files of the scenario, with an empty target list. *)
Definition no_target_files : files :=
  <["target_feature_columns.txt" := [newline]]> fever_files.

(** ** What the assembler puts together *)

(** The names of all columns of a feature type, file by file. *)
Definition type_names {A} (ty : feature_type A) : list string :=
  concat (file_names ty <$> feature_files ty).

(** The names of a whole run: the feature types in the order given, then
    the additional features. *)
Definition assembled_names {A} (feature_types_to_include : list (feature_type A))
    (additional_features : list (additional_feature A)) : list string :=
  concat (type_names <$> feature_types_to_include)
  ++ concat (additional_names <$> additional_features).

(** The tables of a whole run, in the same order. *)
Definition assembled_tables {A} (feature_types_to_include : list (feature_type A))
    (additional_features : list (additional_feature A)) : list (table A) :=
  concat ((λ ty, snd <$> feature_files ty) <$> feature_types_to_include)
  ++ (additional_cells <$> additional_features).

(** Row [i] of the tables put side by side. *)
Definition side_by_side {A} (tables : list (table A)) (i : nat) : list A :=
  concat ((λ t, default [] (t !! i)) <$> tables).

(** What the loop over the targets hands on in the scenario of the
    specification, once the present cases A, C and D are read: the
    records of the one target "fever". *)
Definition fever_output : index_output :=
  target_records "full_labeling_" "target_full_matrix" 0 "fever"
    (walked index_init [KeptCase 0 4 "A"; KeptCase 2 2 "C"; KeptCase 3 1 "D"]).

(** ** Rows of the feature-selection result files *)

(** A row that [load_feature_selection_files] can unpack: one colon,
    and after it nothing, or integers separated by commas. *)
Definition unpacks (row : string) : Prop :=
  ∃ model_type str_indices,
    Py.split ":" row = [model_type; str_indices] ∧
    (str_indices ≠ "" →
     ∃ l, map_result Py.int (Py.split "," str_indices) = Ok l).

(** * Properties *)

(** ** The result monad *)

Lemma fmap_Ok {A B} (m : result A) (f : A → B) (b : B) :
  f <$> m = Ok b ↔ ∃ a, m = Ok a ∧ f a = b.
Proof.
  destruct m as [a|e]; simpl.
  - split; [intros [= <-]; eauto | by intros (? & [= <-] & <-)].
  - split; [done | by intros (? & [=] & _)].
Qed.

(** ** Model trainer: choice of the best combination *)

Section Trainer.

Local Open Scope Q_scope.

Lemma keep_max_bounds (x y : score) :
  (keep_max x y = x ∨ keep_max x y = y) ∧ x <= keep_max x y ∧ y <= keep_max x y.
Proof.
  unfold keep_max. destruct (Qlt_le_dec x y) as [Hlt|Hle].
  - split; [by right|]. split; [by apply Qlt_le_weak | apply Qle_refl].
  - split; [by left|]. split; [apply Qle_refl | done].
Qed.

Lemma foldl_keep_max (rest : list score) (x : score) :
  let m := foldl keep_max x rest in
  (m = x ∨ m ∈ rest) ∧ x <= m ∧ ∀ s, s ∈ rest → s <= m.
Proof.
  revert x. induction rest as [|y rest IH]; intros x; simpl.
  - split; [by left|]. split; [apply Qle_refl|]. intros s Hs. by apply elem_of_nil in Hs.
  - destruct (IH (keep_max x y)) as (Hin & Hx & Hall).
    destruct (keep_max_bounds x y) as (Hxy & Hx' & Hy').
    split; [|split].
    + destruct Hin as [->|Hin]; [|right; by apply elem_of_cons; right].
      destruct Hxy as [->| ->]; [by left | right; apply elem_of_cons; by left].
    + by eapply Qle_trans.
    + intros s [->|Hs]%elem_of_cons; [by eapply Qle_trans | by apply Hall].
Qed.

Lemma py_max_spec (scores : list score) :
  scores ≠ [] →
  ∃ m, py_max scores = Ok m ∧ m ∈ scores ∧ ∀ s, s ∈ scores → s <= m.
Proof.
  destruct scores as [|x rest]; [done|]. intros _.
  exists (foldl keep_max x rest). split; [done|].
  destruct (foldl_keep_max rest x) as (Hin & Hx & Hall).
  split.
  - apply elem_of_cons. destruct Hin; auto.
  - intros s [->|Hs]%elem_of_cons; auto.
Qed.

Lemma score_index_spec (x : score) (scores : list score) :
  (∃ s, s ∈ scores ∧ s == x) →
  ∃ i s, score_index x scores = Ok i ∧ scores !! i = Some s ∧ s == x ∧
         ∀ j s', (j < i)%nat → scores !! j = Some s' → ¬ s' == x.
Proof.
  induction scores as [|y rest IH]; intros (s & Hs & Heq).
  - by apply elem_of_nil in Hs.
  - simpl. destruct (Qeq_bool y x) eqn:Hy.
    + exists 0%nat, y. split; [done|]. split; [done|].
      split; [by apply Qeq_bool_iff|]. intros j s' Hj. inversion Hj.
    + assert (¬ y == x) as Hne.
      { intros H%Qeq_bool_iff. congruence. }
      apply elem_of_cons in Hs as [->|Hs]; [done|].
      destruct IH as (i & s0 & Hi & Hl & He & Hbefore); [eauto|].
      exists (S i), s0. rewrite Hi. split; [done|]. split; [done|].
      split; [done|]. intros [|j] s' Hj Hl'; simpl in Hl'.
      * by injection Hl' as <-.
      * eapply Hbefore; [|done]. lia.
Qed.

End Trainer.

(** C8. Whatever the six mean cross-validation scores are, the trainer
    returns a combination [best]; its score is the maximum of the six,
    every combination listed before it scores strictly less, and the
    model type written out is the [best]-th name of the enumeration
    lr-m, sv-m, rf-m, lr-r, sv-r, rf-r. *)
Theorem select_model_highest_first (lr_m sv_m rf_m lr_r sv_r rf_r : score) :
  let scores := [lr_m; sv_m; rf_m; lr_r; sv_r; rf_r] in
  ∃ best model_type max_score s_best,
    select_model lr_m sv_m rf_m lr_r sv_r rf_r = Ok (best, model_type, max_score) ∧
    ["lr-m"; "sv-m"; "rf-m"; "lr-r"; "sv-r"; "rf-r"] !! best = Some model_type ∧
    scores !! best = Some s_best ∧ (s_best == max_score)%Q ∧
    (∀ j s, scores !! j = Some s → (s <= s_best)%Q) ∧
    (∀ j s, j < best → scores !! j = Some s → (s < s_best)%Q).
Proof.
  intros scores.
  destruct (py_max_spec scores) as (m & Hmax & Hin & Hall); [done|].
  destruct (score_index_spec m scores) as (i & s & Hi & Hl & He & Hbefore).
  { exists m. split; [done | apply Qeq_refl]. }
  assert (i < 6) as Hlt.
  { apply lookup_lt_Some in Hl. exact Hl. }
  assert (∃ name, match i with
                  | 0 => Ok "lr-m" | 1 => Ok "sv-m" | 2 => Ok "rf-m"
                  | 3 => Ok "lr-r" | 4 => Ok "sv-r" | 5 => Ok "rf-r"
                  | _ => Raise NameError end = Ok name ∧
                  ["lr-m"; "sv-m"; "rf-m"; "lr-r"; "sv-r"; "rf-r"] !! i = Some name)
    as (name & Hname & Hnth).
  { do 6 (destruct i as [|i]; [eexists; split; reflexivity|]). lia. }
  exists i, name, m, s. split; [|split; [done|split; [done|split; [done|split]]]].
  - unfold select_model. fold scores.
    rewrite Hmax. cbn [mbind result_bind].
    rewrite Hi. cbn [mbind result_bind].
    by rewrite Hname.
  - intros j s' Hj. rewrite He. apply Hall. by eapply list_elem_of_lookup_2.
  - intros j s' Hj Hl'. rewrite He.
    assert (s' <= m)%Q as Hle by (apply Hall; by eapply list_elem_of_lookup_2).
    apply Qle_lteq in Hle as [H|H]; [done|].
    by apply Hbefore in Hl'.
Qed.

(** ** Python built-ins *)

Lemma index_Ok `{EqDecision A} (x : A) (l : list A) (i : nat) :
  Py.index x l = Ok i ↔ l !! i = Some x ∧ ∀ j, j < i → l !! j ≠ Some x.
Proof.
  revert i. induction l as [|y l IH]; intros i; simpl.
  - split; [done | by intros [? _]].
  - destruct (decide (y = x)) as [->|Hne].
    + split.
      * intros [= <-]. split; [done | intros j Hj; lia].
      * intros [Hl Hfirst]. destruct i as [|i]; [done|].
        by destruct (Hfirst 0 ltac:(lia)).
    + destruct (Py.index x l) as [i'|e].
      * split.
        -- intros [= <-]. destruct (proj1 (IH i') eq_refl) as [Hl Hfirst].
           split; [done|].
           intros [|j] Hj; simpl; [congruence | apply Hfirst; lia].
        -- intros [Hl Hfirst]. destruct i as [|i]; simpl in Hl; [congruence|].
           assert (Ok i' = Ok i) as [= ->]; [|done].
           apply IH. split; [done|]. intros j Hj. apply (Hfirst (S j)). lia.
      * split; [done|]. intros [Hl Hfirst].
        destruct i as [|i]; simpl in Hl; [congruence|].
        assert ((Raise e : result nat) = Ok i) as Hi; [|done].
        apply IH. split; [done|]. intros j Hj. apply (Hfirst (S j)). lia.
Qed.

Lemma index_Raise `{EqDecision A} (x : A) (l : list A) (e : exn) :
  Py.index x l = Raise e ↔ (x ∉ l) ∧ e = ValueError.
Proof.
  revert e. induction l as [|y l IH]; intros e; simpl.
  - split; [intros [= <-]; split; [apply not_elem_of_nil | done] | by intros [_ ->]].
  - destruct (decide (y = x)) as [->|Hne].
    + split; [done | intros [Hn _]; destruct Hn; apply elem_of_cons; by left].
    + destruct (Py.index x l) as [i|e'].
      * split; [done|]. intros [Hn ->].
        assert (Ok i = Raise ValueError) as Hbad; [|done].
        apply IH. split; [|done]. intros Hin. apply Hn, elem_of_cons. by right.
      * split.
        -- intros [= <-]. destruct (proj1 (IH e') eq_refl) as [Hn ->]. split; [|done].
           intros [->|Hin]%elem_of_cons; [done | by apply Hn].
        -- intros [Hn ->]. f_equal. apply (proj1 (IH e') eq_refl).
Qed.

(** ** Sample Indexer *)

Local Arguments Nat.modulo : simpl never.
Local Arguments Nat.div : simpl never.

Section Deal.
Context {A : Type}.
Implicit Types (folds : list (list A)) (xs : list A).

Lemma deal_length n folds xs : length (deal n folds xs) = length folds.
Proof.
  revert n folds. induction xs as [|x xs IH]; intros n folds; simpl; [done|].
  by rewrite IH, length_alter.
Qed.

Lemma concat_alter_snoc folds k x :
  k < length folds →
  concat (alter (λ l, l ++ [x]) k folds) ≡ₚ x :: concat folds.
Proof.
  revert k. induction folds as [|f folds IH]; intros k Hk; simpl in *; [lia|].
  destruct k as [|k]; simpl.
  - rewrite <-app_assoc. simpl. symmetry. apply Permutation_middle.
  - etrans; [apply Permutation_app_head, (IH k); lia|].
    symmetry. apply Permutation_middle.
Qed.

Lemma deal_perm n folds xs :
  length folds = 5 → concat (deal n folds xs) ≡ₚ concat folds ++ xs.
Proof.
  revert n folds. induction xs as [|x xs IH]; intros n folds Hlen; simpl.
  - by rewrite app_nil_r.
  - rewrite IH by (by rewrite length_alter).
    rewrite concat_alter_snoc.
    + apply Permutation_middle.
    + rewrite Hlen. apply Nat.mod_upper_bound. lia.
Qed.

(** What is already in a fold stays where it is. *)
Lemma deal_keeps n folds xs k fold i x :
  folds !! k = Some fold → fold !! i = Some x →
  ∃ fold', deal n folds xs !! k = Some fold' ∧ fold' !! i = Some x.
Proof.
  revert n folds fold. induction xs as [|y xs IH]; intros n folds fold Hk Hi; simpl.
  - eauto.
  - destruct (decide (n mod 5 = k)) as [<-|Hne].
    + apply (IH _ _ (fold ++ [y])).
      * by rewrite list_lookup_alter_eq, Hk.
      * apply lookup_app_l_Some. done.
    + apply (IH _ _ fold); [|done]. by rewrite list_lookup_alter_ne.
Qed.

Lemma dealt_step n folds x :
  dealt n folds → dealt (S n) (alter (λ l, l ++ [x]) (n mod 5) folds).
Proof.
  intros [Hlen Hfolds]. split; [by rewrite length_alter|].
  intros k fold. rewrite list_lookup_alter. case_decide as Hk.
  - subst k. destruct (folds !! (n mod 5)) as [f|] eqn:Hf; [|done].
    intros [= <-]. rewrite length_app, (Hfolds _ _ Hf). simpl.
    zify. Z.to_euclidean_division_equations. lia.
  - intros Hf. rewrite (Hfolds _ _ Hf).
    assert (k < 5) as Hk5 by (rewrite <-Hlen; by eapply lookup_lt_Some).
    zify. Z.to_euclidean_division_equations. lia.
Qed.

Lemma dealt_lookup n folds xs j x :
  dealt n folds → xs !! j = Some x →
  ∃ fold, deal n folds xs !! ((n + j) mod 5) = Some fold ∧
          fold !! ((n + j) / 5) = Some x.
Proof.
  revert n folds j. induction xs as [|y xs IH]; intros n folds j Hd Hj; [done|].
  destruct j as [|j]; simpl in *.
  - injection Hj as ->. rewrite Nat.add_0_r.
    destruct Hd as [Hlen Hfolds].
    assert (n mod 5 < length folds) as Hlt.
    { rewrite Hlen. apply Nat.mod_upper_bound. lia. }
    apply lookup_lt_is_Some_2 in Hlt as [f Hf].
    apply (deal_keeps _ _ _ _ (f ++ [x])).
    + by rewrite list_lookup_alter_eq, Hf.
    + rewrite lookup_app_r by (rewrite (Hfolds _ _ Hf);
        zify; Z.to_euclidean_division_equations; lia).
      replace (n / 5 - length f) with 0; [done|].
      rewrite (Hfolds _ _ Hf). zify. Z.to_euclidean_division_equations. lia.
  - replace (n + S j) with (S n + j) by lia.
    apply IH; [by apply dealt_step | done].
Qed.

Lemma dealt_start : dealt 0 (replicate 5 ([] : list A)).
Proof.
  split; [done|]. intros k fold [-> Hk]%lookup_replicate. simpl.
  symmetry. apply Nat.div_small. lia.
Qed.

Lemma deal_round_robin xs : round_robin xs (deal 0 (replicate 5 []) xs).
Proof.
  split; [by rewrite deal_length|]. split.
  - by rewrite deal_perm.
  - intros j x Hj. by apply (dealt_lookup 0 _ _ _ _ dealt_start) in Hj.
Qed.

Lemma deal_fmap {B} (f : A → B) n folds xs :
  deal n (fmap (M:=list) f <$> folds) (f <$> xs)
  = fmap (M:=list) f <$> deal n folds xs.
Proof.
  revert n folds. induction xs as [|x xs IH]; intros n folds; simpl; [done|].
  rewrite <-IH. f_equal. symmetry.
  apply (list_fmap_alter (fmap f) (λ l, l ++ [x]) (λ l, l ++ [f x])).
  apply Forall_forall. intros l _. by rewrite fmap_app.
Qed.

End Deal.

Section Walk.
Variables target_case_rows target_present_rows : list string.
Local Abbreviation tc := target_case_rows.
Local Abbreviation pr := target_present_rows.

Lemma walked_nil st : walked st [] = st.
Proof.
  destruct st. unfold walked. simpl. by rewrite !app_nil_r, Nat.add_0_r.
Qed.

Lemma walked_cons st k ks :
  walked st (k :: ks) =
  walked {| samples_full_fold_type := samples_full_fold_type st ++ [feature_entry k];
            target_full_fold_type := target_full_fold_type st ++ [target_entry k];
            feat_targ_full_fold_type := feat_targ_full_fold_type st ++ [kept_id k];
            sam_folds := append_at (count st mod 5) (feature_entry k) (sam_folds st);
            tar_folds := append_at (count st mod 5) (target_entry k) (tar_folds st);
            feat_folds := append_at (count st mod 5) (kept_id k) (feat_folds st);
            count := S (count st) |} ks.
Proof.
  unfold walked, append_at. simpl.
  rewrite <-!app_assoc. simpl. by rewrite Nat.add_succ_r.
Qed.

Lemma index_case_kept st i c :
  index_case tc pr st i c =
  if bool_decide (c ∈ pr)
  then (λ t, walked st [KeptCase i t c]) <$> Py.index c tc
  else Ok st.
Proof.
  unfold index_case. destruct (bool_decide (c ∈ pr)); [|done].
  destruct (Py.index c tc) as [t|e]; simpl; [|done].
  by rewrite walked_cons, walked_nil.
Qed.

(** The loop of lines 195-203 computes [walked] of [kept_cases]. *)
Lemma for_enumerate_index_case co i st :
  for_enumerate (index_case tc pr) i co st = walked st <$> kept_cases tc pr i co.
Proof.
  revert i st. induction co as [|c co IH]; intros i st; simpl.
  - by rewrite walked_nil.
  - rewrite index_case_kept. destruct (bool_decide (c ∈ pr)); simpl.
    + destruct (Py.index c tc) as [t|e]; simpl; [|done].
      rewrite IH. destruct (kept_cases tc pr (S i) co) as [ks|e]; simpl; [|done].
      by rewrite (walked_cons st), walked_cons, walked_nil.
    + apply IH.
Qed.

Lemma index_cases_walked co st :
  index_cases co tc pr = Ok st ↔
  ∃ ks, kept_cases tc pr 0 co = Ok ks ∧ st = walked index_init ks.
Proof.
  unfold index_cases. rewrite for_enumerate_index_case, fmap_Ok.
  split; intros (ks & Hks & Hst); eauto.
Qed.

(** What is kept: the cases of the case order that are present, each
    with its position, in case order. *)
Lemma kept_cases_rows co i ks :
  kept_cases tc pr i co = Ok ks →
  (λ k, (feature_row k, kept_id k)) <$> ks
  = filter (λ p, p.2 ∈ pr) (zip (seq i (length co)) co).
Proof.
  revert i ks. induction co as [|c co IH]; intros i ks; simpl.
  - by intros [= <-].
  - rewrite filter_cons. simpl. destruct (decide (c ∈ pr)) as [Hin|Hout].
    + rewrite bool_decide_eq_true_2 by done.
      destruct (Py.index c tc) as [t|e]; simpl; [|done].
      destruct (kept_cases tc pr (S i) co) as [ks'|e] eqn:Hks; simpl; [|done].
      intros [= <-]. simpl. f_equal. by apply IH.
    + rewrite bool_decide_eq_false_2 by done. apply IH.
Qed.

Lemma kept_cases_target co i ks :
  kept_cases tc pr i co = Ok ks →
  Forall (λ k, Py.index (kept_id k) tc = Ok (target_row k)) ks.
Proof.
  revert i ks. induction co as [|c co IH]; intros i ks; simpl.
  - intros [= <-]. constructor.
  - destruct (bool_decide (c ∈ pr)); [|apply IH].
    destruct (Py.index c tc) as [t|e] eqn:Ht; simpl; [|done].
    destruct (kept_cases tc pr (S i) co) as [ks'|e] eqn:Hks; simpl; [|done].
    intros [= <-]. constructor; [done | by eapply IH].
Qed.

Lemma kept_cases_valid co ks k :
  kept_cases tc pr 0 co = Ok ks → k ∈ ks →
  co !! feature_row k = Some (kept_id k) ∧ kept_id k ∈ pr ∧
  Py.index (kept_id k) tc = Ok (target_row k).
Proof.
  intros Hks Hk. split; [|split].
  - apply kept_cases_rows in Hks.
    apply (list_elem_of_fmap_2 (λ k, (feature_row k, kept_id k))) in Hk.
    rewrite Hks in Hk. apply list_elem_of_filter in Hk as [_ Hk].
    apply list_elem_of_lookup in Hk as [j Hj].
    apply lookup_zip_with_Some in Hj as (x & y & [= <- <-] & Hx & Hy).
    apply lookup_seq in Hx as [-> _]. done.
  - apply kept_cases_rows in Hks.
    apply (list_elem_of_fmap_2 (λ k, (feature_row k, kept_id k))) in Hk.
    rewrite Hks in Hk. by apply list_elem_of_filter in Hk as [? _].
  - apply kept_cases_target in Hks. by eapply Forall_forall in Hks.
Qed.


End Walk.



Lemma walked_init_fields ks :
  let st := walked index_init ks in
  samples_full_fold_type st = feature_entry <$> ks ∧
  target_full_fold_type st = target_entry <$> ks ∧
  feat_targ_full_fold_type st = kept_id <$> ks ∧
  sam_folds st = fmap (M:=list) feature_entry <$> deal 0 (replicate 5 []) ks ∧
  tar_folds st = fmap (M:=list) target_entry <$> deal 0 (replicate 5 []) ks ∧
  feat_folds st = fmap (M:=list) kept_id <$> deal 0 (replicate 5 []) ks.
Proof.
  simpl. repeat split; try done; by rewrite <-deal_fmap.
Qed.

Global Instance str_inj : Inj (=) (=) Py.str.
Proof. unfold Py.str. apply _. Qed.



Lemma same_case_kept tc pr co ks :
  kept_cases tc pr 0 co = Ok ks →
  ∀ l, l ⊆ ks →
    Forall3 (same_case co tc) (feature_entry <$> l) (target_entry <$> l) (kept_id <$> l).
Proof.
  intros Hks l. induction l as [|k l IH]; intros Hsub; simpl; [constructor|].
  constructor.
  - destruct (kept_cases_valid _ _ _ _ k Hks) as (Hc & _ & Ht).
    { apply Hsub, elem_of_cons. by left. }
    apply index_Ok in Ht as [Ht Hfirst].
    exists (feature_row k), (target_row k). done.
  - apply IH. intros x Hx. apply Hsub, elem_of_cons. by right.
Qed.

Lemma deal_subseteq {A} (xs : list A) k fold :
  deal 0 (replicate 5 []) xs !! k = Some fold → fold ⊆ xs.
Proof.
  intros Hk x Hx.
  destruct (deal_round_robin xs) as (_ & Hperm & _).
  rewrite <-Hperm. apply list_elem_of_In, in_concat. exists fold.
  split; apply list_elem_of_In; [by eapply list_elem_of_lookup_2 | done].
Qed.

Lemma kept_records_aligned
    (case_order_rows target_case_rows target_present_rows : list string)
    (ks : list kept_case) (fm tm : string) (t_idx : nat) (name : string) :
  kept_cases target_case_rows target_present_rows 0 case_order_rows = Ok ks →
  Forall3 (aligned_records case_order_rows target_case_rows)
    (feature_samples (target_records fm tm t_idx name (walked index_init ks)))
    (target_samples (target_records fm tm t_idx name (walked index_init ks)))
    (feat_targ_samples (target_records fm tm t_idx name (walked index_init ks))).
Proof.
  intros Hks.
  destruct (walked_init_fields ks) as (Hf & Ht & Hc & Hff & Htf & Hcf).
  unfold target_records. cbn [feature_samples target_samples feat_targ_samples].
  rewrite Hf, Ht, Hc, Hff, Htf, Hcf.
  pose proof (deal_length 0 (replicate 5 []) ks) as Hlen.
  pose proof (λ k fold, deal_subseteq ks k fold) as Hsub.
  destruct (deal 0 (replicate 5 []) ks)
    as [|f0 [|f1 [|f2 [|f3 [|f4 [|]]]]]]; try discriminate.
  pose proof (same_case_kept _ _ _ _ Hks) as Hsame.
  unfold records_of. simpl.
  repeat constructor; simpl; try done.
  - apply Hsame. done.
  - apply Hsame, (Hsub 0). done.
  - apply Hsame, (Hsub 1). done.
  - apply Hsame, (Hsub 2). done.
  - apply Hsame, (Hsub 3). done.
  - apply Hsame, (Hsub 4). done.
Qed.

(** C5. For one target, the three files receive six records each, with
    the same keys in the same order ("full", then folds 0 to 4); under
    every key the three lists have the same length, and at every
    position the feature index is a row of the feature-matrix case order
    holding the case id written at that position, and the target index
    is the first row of the target-matrix case order holding it. *)
Theorem index_records_aligned
    (case_order_rows target_case_rows target_present_rows : list string)
    (st : index_state) (fm tm : string) (t_idx : nat) (name : string) :
  index_cases case_order_rows target_case_rows target_present_rows = Ok st →
  Forall3 (aligned_records case_order_rows target_case_rows)
    (feature_samples (target_records fm tm t_idx name st))
    (target_samples (target_records fm tm t_idx name st))
    (feat_targ_samples (target_records fm tm t_idx name st)) ∧
  fold_type <$> feature_samples (target_records fm tm t_idx name st)
    = ["full"; "0"; "1"; "2"; "3"; "4"] ∧
  Forall (λ r, target_id r = t_idx ∧ target_name r = name)
    (feature_samples (target_records fm tm t_idx name st)).
Proof.
  intros (ks & Hks & ->)%index_cases_walked.
  split; [by eapply kept_records_aligned|].
  split; [reflexivity|].
  unfold target_records, records_of. simpl. repeat constructor.
Qed.

(** Over all targets: whenever the loop over the targets ends, the three
    files hold the same number of records, with the same keys in the
    same order and lists that agree entry by entry. *)
Lemma index_targets_aligned (globals : gmap string pydict) (params : pydict)
    (fs : files) (case_order_rows target_case_rows targets : list string)
    (out : index_output) :
  index_targets globals params fs case_order_rows target_case_rows targets
    = Ok out →
  Forall3 (aligned_records case_order_rows target_case_rows)
    (feature_samples out) (target_samples out) (feat_targ_samples out).
Proof.
  unfold index_targets.
  match goal with |- for_enumerate ?b _ _ _ = _ → _ => set (body := b) end.
  assert (∀ acc i target out',
            body acc i target = Ok out' →
            Forall3 (aligned_records case_order_rows target_case_rows)
              (feature_samples acc) (target_samples acc) (feat_targ_samples acc) →
            Forall3 (aligned_records case_order_rows target_case_rows)
              (feature_samples out') (target_samples out')
              (feat_targ_samples out')) as Hbody.
  { intros acc i target out'. unfold body.
    destruct (of_option NameError (globals !! "parmas")) as [parmas|e];
      cbn [mbind result_bind]; [|done].
    destruct (getitem parmas "item_present_file") as [path|e];
      cbn [mbind result_bind]; [|done].
    destruct (open_read fs path) as [f|e]; cbn [mbind result_bind]; [|done].
    destruct (load_target_present_rows f target) as [present|e];
      cbn [mbind result_bind]; [|done].
    destruct (index_cases case_order_rows target_case_rows present)
      as [st|e] eqn:Hst; cbn [mbind result_bind]; [|done].
    destruct (getitem params "feature_matrix_name") as [fm|e];
      cbn [mbind result_bind]; [|done].
    destruct (getitem params "target_matrix_name") as [tm|e];
      cbn [mbind result_bind]; [|done].
    intros [= <-] Hacc.
    apply index_cases_walked in Hst as (ks & Hks & ->).
    unfold output_app. cbn [feature_samples target_samples feat_targ_samples].
    apply Forall3_app; [exact Hacc|].
    by eapply (kept_records_aligned _ _ _ ks fm tm i target). }
  clearbody body.
  assert (Forall3 (aligned_records case_order_rows target_case_rows)
            (feature_samples (IndexOutput [] [] []))
            (target_samples (IndexOutput [] [] []))
            (feat_targ_samples (IndexOutput [] [] []))) as Hacc by constructor.
  revert Hacc. generalize (IndexOutput [] [] []) as acc. generalize 0 as i.
  induction targets as [|target targets IH]; intros i acc Hacc; cbn [for_enumerate].
  - by intros [= <-].
  - destruct (body acc i target) as [out'|e] eqn:Hstep;
      cbn [mbind result_bind]; [|done].
    apply IH. by eapply Hbody.
Qed.

(** The loop over the targets writes, target after target, the six
    records of one walk over the present cases that
    [load_target_present_rows] reads for the target: every statement
    about the records of a target whose walk ends holds of each group of
    six of a run that ends, whatever the module's globals are. *)
Lemma index_targets_per_target (globals : gmap string pydict) (params : pydict)
    (fs : files) (case_order_rows target_case_rows targets : list string)
    (out : index_output) :
  index_targets globals params fs case_order_rows target_case_rows targets
    = Ok out →
  let fm := default "" (params !! "feature_matrix_name") in
  let tm := default "" (params !! "target_matrix_name") in
  ∃ sts : list index_state,
    Forall2 (λ target_name st,
               ∃ parmas path f present,
                 globals !! "parmas" = Some parmas ∧
                 parmas !! "item_present_file" = Some path ∧
                 fs !! path = Some f ∧
                 load_target_present_rows f target_name = Ok present ∧
                 index_cases case_order_rows target_case_rows present = Ok st)
      targets sts ∧
    feature_samples out
      = concat (imap (λ i p, feature_samples (target_records fm tm i p.1 p.2))
                  (zip targets sts)) ∧
    target_samples out
      = concat (imap (λ i p, target_samples (target_records fm tm i p.1 p.2))
                  (zip targets sts)) ∧
    feat_targ_samples out
      = concat (imap (λ i p, feat_targ_samples (target_records fm tm i p.1 p.2))
                  (zip targets sts)).
Proof.
  intros Hrun fm tm. revert Hrun. unfold index_targets.
  match goal with |- for_enumerate ?b _ _ _ = _ → _ => set (body := b) end.
  set (walk := λ (target_name : string) (st : index_state),
         ∃ parmas path f present,
           globals !! "parmas" = Some parmas ∧
           parmas !! "item_present_file" = Some path ∧
           fs !! path = Some f ∧
           load_target_present_rows f target_name = Ok present ∧
           index_cases case_order_rows target_case_rows present = Ok st).
  assert (∀ acc i target out',
            body acc i target = Ok out' →
            ∃ st, walk target st ∧
                  out' = output_app acc (target_records fm tm i target st))
    as Hbody.
  { intros acc i target out'. unfold body, walk, fm, tm, getitem, open_read.
    destruct (globals !! "parmas") as [parmas|] eqn:Hparmas;
      cbn [of_option mbind result_bind]; [|done].
    destruct (parmas !! "item_present_file") as [path|] eqn:Hpath;
      cbn [of_option mbind result_bind]; [|done].
    destruct (fs !! path) as [f|] eqn:Hf;
      cbn [of_option mbind result_bind]; [|done].
    destruct (load_target_present_rows f target) as [present|e] eqn:Hpresent;
      cbn [mbind result_bind]; [|done].
    destruct (index_cases case_order_rows target_case_rows present)
      as [st|e] eqn:Hst; cbn [mbind result_bind]; [|done].
    destruct (params !! "feature_matrix_name") as [fm'|];
      cbn [of_option mbind result_bind]; [|done].
    destruct (params !! "target_matrix_name") as [tm'|];
      cbn [of_option mbind result_bind]; [|done].
    intros [= <-]. exists st. split; [|done].
    exists parmas, path, f, present. by repeat split. }
  clearbody body. clearbody walk.
  assert (∀ ts i acc,
            for_enumerate body i ts acc = Ok out →
            ∃ sts,
              Forall2 walk ts sts ∧
              feature_samples out
                = feature_samples acc ++
                  concat (imap (λ j p, feature_samples
                                         (target_records fm tm (i + j) p.1 p.2))
                            (zip ts sts)) ∧
              target_samples out
                = target_samples acc ++
                  concat (imap (λ j p, target_samples
                                         (target_records fm tm (i + j) p.1 p.2))
                            (zip ts sts)) ∧
              feat_targ_samples out
                = feat_targ_samples acc ++
                  concat (imap (λ j p, feat_targ_samples
                                         (target_records fm tm (i + j) p.1 p.2))
                            (zip ts sts))) as Hloop.
  { intros ts. induction ts as [|target ts IH]; intros i acc; cbn [for_enumerate].
    - intros [= <-]. exists []. split; [constructor|]. by rewrite !app_nil_r.
    - destruct (body acc i target) as [out'|e] eqn:Hstep;
        cbn [mbind result_bind]; [|done].
      intros Hrun.
      destruct (Hbody _ _ _ _ Hstep) as (st & Hst & ->).
      destruct (IH _ _ Hrun) as (sts & Hall & Hf & Ht & Hc).
      exists (st :: sts). split; [by constructor|].
      rewrite Hf, Ht, Hc. cbn [zip zip_with imap concat fst snd].
      unfold output_app. cbn [feature_samples target_samples feat_targ_samples].
      rewrite Nat.add_0_r, <-!app_assoc.
      split; [|split]; do 3 f_equal; apply imap_ext; intros j p _; simpl;
        by rewrite Nat.add_succ_r. }
  intros Hrun. destruct (Hloop _ 0 _ Hrun) as (sts & Hall & Hf & Ht & Hc).
  exists sts. split; [done|]. by rewrite Hf, Ht, Hc.
Qed.

(** The same statement at the scenario of the specification. *)
Lemma index_records_aligned_fever :
  ∃ st, index_cases ["A"; "B"; "C"; "D"; "E"] ["E"; "D"; "C"; "B"; "A"] ["A"; "C"; "D"] = Ok st ∧
  (Forall3 (aligned_records ["A"; "B"; "C"; "D"; "E"] ["E"; "D"; "C"; "B"; "A"])
    (feature_samples (target_records "full_labeling_" "target_full_matrix" 0 "fever" st))
    (target_samples (target_records "full_labeling_" "target_full_matrix" 0 "fever" st))
    (feat_targ_samples (target_records "full_labeling_" "target_full_matrix" 0 "fever" st)) ∧
  fold_type <$> feature_samples (target_records "full_labeling_" "target_full_matrix" 0 "fever" st)
    = ["full"; "0"; "1"; "2"; "3"; "4"] ∧
  Forall (λ r, target_id r = 0 ∧ target_name r = "fever")
    (feature_samples (target_records "full_labeling_" "target_full_matrix" 0 "fever" st))).
Proof.
  eexists. split; [vm_compute; reflexivity|].
  apply (index_records_aligned _ _ ["A"; "C"; "D"]). vm_compute. reflexivity.
Defined.





(** The walk ends normally exactly when every present case of the
    feature-matrix case order is listed in the target-matrix case order. *)
Lemma kept_cases_total tc pr co i :
  (∀ c, c ∈ co → c ∈ pr → c ∈ tc) → ∃ ks, kept_cases tc pr i co = Ok ks.
Proof.
  revert i. induction co as [|x co IH]; intros i Hall; simpl; [eauto|].
  destruct (IH (S i)) as [ks Hks].
  { intros c Hc. apply Hall, elem_of_cons. by right. }
  destruct (bool_decide (x ∈ pr)) eqn:Hx; [|eauto].
  apply bool_decide_eq_true in Hx.
  destruct (Py.index x tc) as [t|e] eqn:Ht; simpl.
  - rewrite Hks. simpl. eauto.
  - apply index_Raise in Ht as [Hn _]. destruct Hn.
    apply Hall; [apply elem_of_cons; by left | done].
Qed.

Lemma index_cases_total
    (case_order_rows target_case_rows target_present_rows : list string) :
  (∀ c, c ∈ case_order_rows → c ∈ target_present_rows → c ∈ target_case_rows) →
  ∃ st, index_cases case_order_rows target_case_rows target_present_rows = Ok st.
Proof.
  intros Hall. destruct (kept_cases_total _ _ _ 0 Hall) as [ks Hks].
  exists (walked index_init ks). apply index_cases_walked. eauto.
Qed.


(** The walk looks up the cases of the feature-matrix case order only:
    a present case that is not listed there is not looked up at all. *)
Example walk_visits_case_order_only :
  ∃ st, index_cases ["A"] ["A"] ["A"; "Z"] = Ok st ∧
        feat_targ_full_fold_type st = ["A"] ∧
        samples_full_fold_type st = ["0"] ∧
        target_full_fold_type st = ["0"].
Proof. eexists. split; [vm_compute; reflexivity|]. done. Qed.




(** With the present cases in hand, the "full" lists are the rows, and
    the identifiers, of the cases of the case order that are present, in
    case order. *)
Lemma index_cases_full_rows
    (case_order_rows target_case_rows target_present_rows : list string)
    (st : index_state) :
  index_cases case_order_rows target_case_rows target_present_rows = Ok st →
  let present :=
    filter (λ p, p.2 ∈ target_present_rows)
      (zip (seq 0 (length case_order_rows)) case_order_rows) in
  samples_full_fold_type st = (λ p, Py.str p.1) <$> present ∧
  feat_targ_full_fold_type st = snd <$> present.
Proof.
  intros (ks & Hks & ->)%index_cases_walked present.
  destruct (walked_init_fields ks) as (Hf & _ & Hc & _).
  rewrite Hf, Hc. apply kept_cases_rows in Hks. fold present in Hks.
  rewrite <-Hks, <-!list_fmap_compose. done.
Qed.

(** Once the item-presence table is read, the scenario yields rows
    0, 2 and 3. *)
Example fever_rows_when_loaded :
  load_target_present_rows fever_table "fever" = Ok ["A"; "C"; "D"] ∧
  samples_full_fold_type <$>
    index_cases ["A"; "B"; "C"; "D"; "E"] ["E"; "D"; "C"; "B"; "A"] ["A"; "C"; "D"]
  = Ok ["0"; "2"; "3"].
Proof. split; vm_compute; reflexivity. Qed.

(** Were [parmas] bound to the parameters, the driver would write the
    rows 0, 2 and 3 under "full". *)
Example fever_rows_when_name_bound :
  (λ fs, take 2 <$> fs !! "feature_samples_out.txt") <$>
    determine_feature_matrix_and_target_matrix_rows
      (<["parmas" := fever_params]> (script_globals fever_params))
      fever_params fever_files
  = Ok (Some [ feature_samples_header;
               "full_labeling_" +:+ tab +:+ "0" +:+ tab +:+ "fever" +:+ tab
               +:+ "full" +:+ tab +:+ "0" +:+ tab +:+ "2" +:+ tab +:+ "3"
               +:+ newline ]).
Proof. vm_compute. reflexivity. Qed.

(** No name [parmas] is bound when the module runs: the first target
    stops the driver. *)
Lemma determine_rows_unbound_name (globals : gmap string pydict)
    (params : pydict) (fs : files) (p : string) (f : list string) :
  globals !! "parmas" = None →
  params !! "target_feature_columns_file" = Some p →
  fs !! p = Some f →
  load_list f ≠ [] →
  ∃ e, determine_feature_matrix_and_target_matrix_rows globals params fs
       = Raise e.
Proof.
  intros Hg Hp Hf Hne.
  assert (getitem params "target_feature_columns_file" = Ok p) as Hgp.
  { unfold getitem. by rewrite Hp. }
  assert (open_read fs p = Ok f) as Hop.
  { unfold open_read. by rewrite Hf. }
  unfold determine_feature_matrix_and_target_matrix_rows.
  destruct (getitem params "case_order_rows_file") as [p1|e];
    cbn [mbind result_bind fmap result_fmap]; [|eauto].
  destruct (open_read fs p1) as [f1|e];
    cbn [mbind result_bind fmap result_fmap]; [|eauto].
  destruct (getitem params "target_case_rows_file") as [p2|e];
    cbn [mbind result_bind fmap result_fmap]; [|eauto].
  destruct (open_read fs p2) as [f2|e];
    cbn [mbind result_bind fmap result_fmap]; [|eauto].
  rewrite Hgp. cbn [mbind result_bind fmap result_fmap].
  rewrite Hop. cbn [mbind result_bind fmap result_fmap].
  destruct (getitem params "feature_samples_outfile") as [o1|e];
    cbn [mbind result_bind fmap result_fmap]; [|eauto].
  destruct (getitem params "target_samples_outfile") as [o2|e];
    cbn [mbind result_bind fmap result_fmap]; [|eauto].
  destruct (getitem params "feat_targ_samples_outfile") as [o3|e];
    cbn [mbind result_bind fmap result_fmap]; [|eauto].
  destruct (load_list f) as [|t ts]; [done|].
  unfold index_targets. cbn [for_enumerate].
  rewrite Hg. cbn [of_option mbind result_bind]. eauto.
Qed.

(** C1 at the scenario of the specification: run as the script runs it,
    the driver raises [NameError] at line 187 and writes no record. *)
Theorem determine_rows_fever_raises :
  determine_feature_matrix_and_target_matrix_rows
    (script_globals fever_params) fever_params fever_files
  = Raise NameError.
Proof. vm_compute. reflexivity. Qed.

Lemma scan_item_present_blank (target_name : string) (blank : string)
    (pre post : list string) (first_line : bool) (col : nat) (acc : list string) :
  Py.rstrip blank = "" →
  scan_item_present target_name first_line col acc (pre ++ blank :: post)
  = scan_item_present target_name first_line col acc pre.
Proof.
  intros Hblank. revert first_line col acc.
  induction pre as [|line pre IH]; intros first_line col acc; simpl.
  - by rewrite Hblank.
  - destruct (decide (Py.rstrip line = "")); [done|].
    destruct first_line.
    + destruct (Py.index _ _); simpl; [apply IH | reflexivity].
    + destruct (of_option IndexError (Py.split "," (Py.rstrip line) !! col))
        as [cell|e]; simpl; [|reflexivity].
      destruct (Py.int cell) as [flag|e]; simpl; [|reflexivity].
      destruct (decide (flag ≠ 0%Z)); [|apply IH].
      destruct (of_option IndexError (Py.split "," (Py.rstrip line) !! 1))
        as [case_id|e]; simpl; [apply IH | reflexivity].
Qed.

(** C10. Reading stops at the first line that is empty once trailing
    blanks are removed: whatever follows it, the cases found are those
    found in the lines before it. *)
Theorem load_target_present_rows_stops_at_blank
    (pre post : list string) (blank target_name : string) :
  Py.rstrip blank = "" →
  load_target_present_rows (pre ++ blank :: post) target_name
  = load_target_present_rows pre target_name.
Proof. intros Hblank. by apply scan_item_present_blank. Qed.

Lemma load_target_present_rows_stops_at_blank_witness :
  Py.rstrip newline = "" ∧
  load_target_present_rows
    (take 3 fever_table ++ newline :: drop 3 fever_table) "fever"
  = load_target_present_rows (take 3 fever_table) "fever".
Proof.
  split; [reflexivity|].
  apply (load_target_present_rows_stops_at_blank
           (take 3 fever_table) (drop 3 fever_table) newline "fever").
  reflexivity.
Defined.

(** Cases C and D sit after the blank line and are lost; skipping the
    line would have kept them. *)
Example blank_line_drops_later_cases :
  load_target_present_rows
    (take 3 fever_table ++ newline :: drop 3 fever_table) "fever" = Ok ["A"] ∧
  load_target_present_rows fever_table "fever" = Ok ["A"; "C"; "D"].
Proof. split; vm_compute; reflexivity. Qed.

(** ** Feature selection driver *)







(** Fold 0 holds rows 1 and 20: its inverse is the rest of the "full"
    list, in order. *)
Example inverse_samples_example :
  (λ inv, inv.1 !! "0_0") <$>
    inverse_samples example_samples example_samples example_keys
  = Ok (Some [4; 6; 9; 11]%Z).
Proof. vm_compute. reflexivity. Qed.

(** ** Model trainer: the feature-selection result files *)

Lemma string_app_cons (a : ascii) (s t : string) :
  String a s +:+ t = String a (s +:+ t).
Proof. reflexivity. Qed.

Lemma string_app_nil (t : string) : "" +:+ t = t.
Proof. reflexivity. Qed.




Section SelectionRows.
Variable suffix : string.


End SelectionRows.




(** The dictionary read from the example files. *)
Example load_feature_selection_files_example :
  (λ d, (d !! "lr-m", d !! "sv-m", d !! "sv-r", d !! "rf-r")) <$>
    load_feature_selection_files example_selection_files "fs/0_full"
  = Ok (Some [1; 2; 3]%Z, Some [0%Z], Some [4; 5]%Z, Some [0%Z]).
Proof. vm_compute. reflexivity. Qed.

(** ** Matrix Assembler *)

(** Asking the assembler for one existing column makes it raise
    [IndexError]. *)
Example assemble_match_raises :
  assemble_feature_matrix [example_labs] [] ["hb_day1"] = Raise IndexError.
Proof. vm_compute. reflexivity. Qed.

(** C2. Whatever has been assembled, a request list with at least one
    name makes the column-matching block raise [IndexError] while it
    looks at the first name: [np.where] on the one-dimensional name
    vector returns a 1-tuple, and line 117 reads its second component.
    No column order is built and nothing is selected. *)
Theorem match_columns_raises {A} (full_data : pyvalue A)
    (full_names : option (list string)) (name : string) (rest : list string) :
  match_columns full_data full_names (name :: rest) = Raise IndexError.
Proof.
  unfold match_columns. cbn [length]. rewrite decide_False by done.
  cbn [for_each]. destruct full_names; reflexivity.
Qed.

(** A loop whose body keeps an invariant runs to the end and keeps it. *)
Lemma for_enumerate_invariant {St X} (body : St → nat → X → result St)
    (P : nat → St → Prop) (Q : X → Prop) :
  (∀ i st x, P i st → Q x → ∃ st', body st i x = Ok st' ∧ P (S i) st') →
  ∀ l i st, P i st → Forall Q l →
    ∃ st', for_enumerate body i l st = Ok st' ∧ P (i + length l) st'.
Proof.
  intros Hbody l. induction l as [|x l IH]; intros i st HP HQ; simpl.
  - exists st. by rewrite Nat.add_0_r.
  - apply Forall_cons in HQ as [Hx HQ].
    destruct (Hbody i st x HP Hx) as (st1 & -> & HP1). simpl.
    destruct (IH (S i) st1 HP1 HQ) as (st' & -> & HP').
    exists st'. split; [done|]. by rewrite Nat.add_succ_r.
Qed.

(** Runs the loop in the goal under the invariant [P], for items
    satisfying [Q]. *)
Ltac loop_invariant P Q :=
  match goal with
  | |- context [for_enumerate ?body ?i ?l ?st] =>
      let H := fresh "Hloop" in
      assert (∃ st', for_enumerate body i l st = Ok st' ∧ P (i + length l) st')
        as H; [apply (for_enumerate_invariant body P Q) | ]
  end.

Section Assembler.
Context {A : Type}.
Variable cases : nat.

Lemma genfromtxt_matrix (cols : nat) (cells : table A) :
  2 ≤ cases → 2 ≤ cols → cells_shape cases cols cells →
  genfromtxt cells = Ok (Arr2 cols cells).
Proof.
  intros Hcases Hcols [Hlen Hrows]. unfold genfromtxt.
  destruct cells as [|r [|r' rest]]; simpl in Hlen; [lia..|].
  apply Forall_cons in Hrows as [Hr Hrows].
  assert (forallb (λ r0, length r0 =? length r) (r' :: rest) = true) as ->.
  { apply forallb_forall. intros y Hy%list_elem_of_In.
    apply Nat.eqb_eq. rewrite Hr.
    by apply (proj1 (Forall_forall _ _) Hrows). }
  destruct r as [|x [|y r]]; simpl in Hr; [lia..|]. by rewrite <-Hr.
Qed.

Lemma genfromtxt_column (cells : table A) :
  2 ≤ cases → cells_shape cases 1 cells →
  genfromtxt cells = Ok (Arr1 (concat cells)) ∧ length (concat cells) = cases.
Proof.
  intros Hcases [Hlen Hrows]. split.
  - unfold genfromtxt.
    destruct cells as [|r [|r' rest]]; simpl in Hlen; [lia..|].
    apply Forall_cons in Hrows as [Hr Hrows].
    assert (forallb (λ r0, length r0 =? length r) (r' :: rest) = true) as ->.
    { apply forallb_forall. intros y Hy%list_elem_of_In.
      apply Nat.eqb_eq. rewrite Hr.
      by apply (proj1 (Forall_forall _ _) Hrows). }
    destruct r as [|x [|y r]]; simpl in Hr; [lia| |lia]. done.
  - rewrite <-Hlen. clear Hlen.
    induction Hrows as [|r cells Hr _ IH]; simpl; [done|].
    rewrite length_app, IH, Hr. done.
Qed.

Lemma zip_with_app_shape (c k : nat) (rows cells : table A) :
  cells_shape cases c rows → cells_shape cases k cells →
  cells_shape cases (c + k) (zip_with app rows cells).
Proof.
  intros [Hl1 Hr1] [Hl2 Hr2]. split.
  - rewrite length_zip_with. lia.
  - clear Hl1 Hl2. revert cells Hr2.
    induction Hr1 as [|r rows Hr _ IH]; intros cells Hr2; simpl; [constructor|].
    destruct Hr2 as [|r2 cells Hr2 Hcells]; [constructor|].
    constructor; [by rewrite length_app, Hr, Hr2 | by apply IH].
Qed.

(** Appending a two-dimensional payload over the same cases. *)
Lemma concat_arrays_loaded (c_idx : nat) (v : pyvalue A * option (list string))
    (cols : nat) (cells : table A) (l_names : list string) :
  c_idx = 0 ∨ loaded cases v →
  cells_shape cases cols cells → length l_names = cols →
  ∃ d n, concat_arrays c_idx v.1 v.2 (Arr2 cols cells) l_names = Ok (d, n) ∧
         loaded cases (Array d, Some n).
Proof.
  intros Hv Hcells Hnames. unfold concat_arrays.
  destruct (decide (c_idx = 0)) as [->|Hne].
  - eexists _, _. split; [done|]. by exists cols, cells, l_names.
  - destruct Hv as [?|(c & rows & names & -> & Hrows & Hn)]; [done|].
    rewrite decide_True by done. simpl.
    rewrite decide_True by (destruct Hrows, Hcells; congruence). simpl.
    eexists _, _. split; [done|].
    exists (c + cols), (zip_with app rows cells), (names ++ l_names).
    split; [done|]. split; [by apply zip_with_app_shape|].
    rewrite length_app. lia.
Qed.

Lemma load_dir_loaded (ty : feature_type A) :
  2 ≤ cases → matrix_type cases ty →
  ∃ v, load_dir ty = Ok v ∧ loaded cases v.
Proof.
  intros Hcases (Hfiles & Hcols & Hshape). unfold load_dir.
  loop_invariant
    (λ (i : nat) (st : pyvalue A * option (list string)),
       i = 0 ∨ loaded cases st)
    (λ f : string * table A,
       cells_shape cases (length (feature_columns ty)) f.2).
  - intros i [all_data all_names] [filename cells] Hst Hcells. simpl in Hcells.
    rewrite (genfromtxt_matrix _ _ Hcases Hcols Hcells). cbn [mbind result_bind].
    destruct (concat_arrays_loaded i (all_data, all_names) _ cells
                ((λ x, x +:+ "_" +:+ Py.drop_end 4 filename)
                   <$> feature_columns ty) Hst Hcells)
      as (d & n & Hcat & Hloaded); [by rewrite length_fmap|].
    simpl in Hcat. rewrite Hcat. simpl. eauto.
  - by left.
  - exact Hshape.
  - destruct Hloop as (v & Hrun & Hv). exists v. split; [exact Hrun|].
    destruct Hv as [Hz|Hv]; [|done].
    destruct (feature_files ty); simpl in Hz; [done | lia].
Qed.

Lemma reshape_column_loaded (cells : table A) :
  2 ≤ cases → cells_shape cases 1 cells →
  ∃ rows, (genfromtxt cells ≫= reshape_column) = Ok (Arr2 1 rows) ∧
          cells_shape cases 1 rows.
Proof.
  intros Hcases Hcells. destruct (genfromtxt_column _ Hcases Hcells) as [-> Hlen].
  exists ((λ x, [x]) <$> concat cells). split; [done|]. split.
  - by rewrite length_fmap.
  - apply Forall_fmap, Forall_forall. done.
Qed.

End Assembler.

(** C3, as the code has it.  Take feature types whose files all hold
    the same [cases] rows (two or more) and, within a type, as many
    fields per row as the type has column names (two or more), and
    additional features holding one value per case under one name.
    Without column matching the assembler then returns a matrix with
    [cases] rows and a name vector with one name per matrix column. *)
Theorem assemble_matrix_shape {A} (cases : nat)
    (feature_types_to_include : list (feature_type A))
    (additional_features : list (additional_feature A)) :
  2 ≤ cases →
  feature_types_to_include ≠ [] →
  Forall (matrix_type cases) feature_types_to_include →
  Forall (column_feature cases) additional_features →
  ∃ out,
    assemble_feature_matrix feature_types_to_include additional_features []
      = Ok out ∧
    assembled_for cases out.
Proof.
  intros Hcases Hne Htypes Hadd. unfold assemble_feature_matrix.
  loop_invariant
    (λ (i : nat) (st : pyvalue A * option (list string)),
       i = 0 ∨ loaded cases st)
    (@matrix_type A cases).
  - intros i [full_data full_names] ty Hst Hty.
    destruct (load_dir_loaded cases ty Hcases Hty)
      as (v & -> & c & rows & names & -> & Hrows & Hnames).
    cbn [mbind result_bind the_array of_option].
    destruct (concat_arrays_loaded cases i (full_data, full_names) c rows names
                Hst Hrows Hnames) as (d & n & Hcat & Hloaded).
    simpl in Hcat. rewrite Hcat. simpl. eauto.
  - by left.
  - exact Htypes.
  - destruct Hloop as (v1 & Hrun1 & Hv1).
    rewrite Hrun1. cbn [mbind result_bind].
    assert (loaded cases v1) as Hl1.
    { destruct Hv1 as [Hz|Hv1]; [|done].
      destruct feature_types_to_include; simpl in Hz; [done | lia]. }
    clear Hv1 Hrun1. destruct v1 as [full_data full_names].
    loop_invariant
      (λ (_ : nat) (st : pyvalue A * option (list string)), loaded cases st)
      (@column_feature A cases).
    + intros i [fd fn] af Hst [Hname Hcells].
      destruct (reshape_column_loaded cases _ Hcases Hcells) as (rows & Hre & Hrows).
      destruct (genfromtxt (additional_cells af)) as [g|e]; [|done].
      cbn [mbind result_bind] in Hre |- *. rewrite Hre. cbn [mbind result_bind].
      destruct (concat_arrays_loaded cases (i + 1) (fd, fn) 1 rows
                  ((λ x, x +:+ "_" +:+ additional_name af)
                     <$> additional_columns af) (or_intror Hst) Hrows)
        as (d & n & Hcat & Hloaded); [by rewrite length_fmap|].
      simpl in Hcat. rewrite Hcat. simpl. eauto.
    + exact Hl1.
    + exact Hadd.
    + destruct Hloop as (v2 & Hrun2 & Hv2).
      rewrite Hrun2. cbn [mbind result_bind].
      destruct Hv2 as (c & rows & names & -> & [Hlen Hrows] & Hnames).
      eexists. split; [reflexivity|].
      by exists c, rows, names.
Qed.

Lemma assemble_matrix_shape_witness :
  ∃ out,
    assemble_feature_matrix [example_labs] [example_additional] [] = Ok out ∧
    assembled_for 3 out.
Proof.
  apply (assemble_matrix_shape 3 [example_labs] [example_additional]).
  - lia.
  - discriminate.
  - repeat constructor; simpl; try lia; discriminate.
  - repeat constructor.
Defined.

(** The matrix assembled in the example: three rows, five columns, five
    names. *)
Example assemble_example :
  assemble_feature_matrix [example_labs] [example_additional] []
  = Ok (Arr2 5 [[1; 2; 7; 8; 0]; [3; 4; 9; 10; 1]; [5; 6; 11; 12; 0]]%Z,
        Arr2 1 [["hb_day1"]; ["wbc_day1"]; ["hb_day2"]; ["wbc_day2"];
                ["smoker_smoker_features"]]).
Proof. vm_compute. reflexivity. Qed.

(** C3, as stated, fails.  Feature type "demo" has two single-column
    files over three cases.  Each loads as a one-dimensional array, the
    second is appended below the first, and the assembler returns six
    values in one dimension with two names: no matrix of three rows. *)
Lemma single_column_files_are_stacked :
  ∃ out,
    assemble_feature_matrix [example_demo] [] [] = Ok out ∧
    out.1 = Arr1 [61; 47; 70; 0; 1; 1]%Z ∧
    shape out.1 = [6] ∧
    shape out.2 = [2; 1] ∧
    ¬ assembled_for 3 out.
Proof.
  eexists. split; [vm_compute; reflexivity|].
  split; [done|]. split; [done|]. split; [done|].
  intros (cols & rows & names & Hout & _). discriminate.
Qed.

(** A second feature type over the same cases cannot be put beside the
    stacked values: the assembler raises [ValueError]. *)
Example single_column_then_matrix_raises :
  assemble_feature_matrix [example_demo; example_labs] [] [] = Raise ValueError.
Proof. vm_compute. reflexivity. Qed.


(** * Further properties *)

(** ** Strings and integers *)

Lemma string_app_assoc (s t u : string) : (s +:+ t) +:+ u = s +:+ (t +:+ u).
Proof.
  induction s as [|a s IH]; [done|]. by rewrite !string_app_cons, IH.
Qed.

Lemma string_app_nil_r (s : string) : s +:+ "" = s.
Proof.
  induction s as [|a s IH]; [done|]. by rewrite string_app_cons, IH.
Qed.

Lemma string_forall_app (p : ascii → bool) (s t : string) :
  string_forall p (s +:+ t) = string_forall p s && string_forall p t.
Proof.
  induction s as [|a s IH]; [done|].
  rewrite string_app_cons. simpl. rewrite IH. by rewrite andb_assoc.
Qed.

Lemma string_forall_impl (p q : ascii → bool) (s : string) :
  (∀ c, p c = true → q c = true) →
  string_forall p s = true → string_forall q s = true.
Proof.
  intros Hpq. induction s as [|a s IH]; simpl; [done|].
  intros [Ha Hs]%andb_true_iff. by rewrite (Hpq a Ha), IH.
Qed.

Lemma rstrip_by_none (p : ascii → bool) (s : string) :
  string_forall (λ c, negb (p c)) s = true → Py.rstrip_by p s = s.
Proof.
  induction s as [|a s IH]; simpl; [done|].
  intros [Ha Hs]%andb_true_iff. rewrite IH by done.
  apply negb_true_iff in Ha. rewrite Ha. by destruct s.
Qed.

Lemma lstrip_by_none (p : ascii → bool) (s : string) :
  string_forall (λ c, negb (p c)) s = true → Py.lstrip_by p s = s.
Proof.
  destruct s as [|a s]; simpl; [done|].
  intros [Ha Hs]%andb_true_iff. apply negb_true_iff in Ha. by rewrite Ha.
Qed.

Lemma pretty_N_char_digit (y : N) :
  (y < 10)%N → Ascii.is_nat (pretty_N_char y) = Some (N.to_nat y).
Proof.
  intros Hy.
  assert (y = 0 ∨ y = 1 ∨ y = 2 ∨ y = 3 ∨ y = 4 ∨ y = 5 ∨ y = 6 ∨ y = 7
          ∨ y = 8 ∨ y = 9)%N as Hcases by lia.
  repeat (destruct Hcases as [->|Hcases]; [reflexivity|]). by subst.
Qed.

Lemma pretty_N_go_digits (x : N) (s : string) :
  string_forall is_digit s = true →
  string_forall is_digit (pretty_N_go x s) = true.
Proof.
  revert s. induction (N.lt_wf_0 x) as [x _ IH]; intros s Hs.
  assert (x = 0 ∨ 0 < x)%N as [->|Hx] by lia; [by rewrite pretty_N_go_0|].
  rewrite pretty_N_go_step by done. apply IH; [by apply N.div_lt|].
  simpl. rewrite Hs, andb_true_r. unfold is_digit.
  rewrite pretty_N_char_digit; [done|]. apply N.mod_lt. lia.
Qed.

Lemma pretty_N_go_int (x : N) (s : string) :
  Py.int_digits false 0 (pretty_N_go x s) = Py.int_digits false (Z.of_N x) s.
Proof.
  revert s. induction (N.lt_wf_0 x) as [x _ IH]; intros s.
  assert (x = 0 ∨ 0 < x)%N as [->|Hx] by lia; [by rewrite pretty_N_go_0|].
  rewrite pretty_N_go_step by done. rewrite IH by (by apply N.div_lt).
  simpl. rewrite pretty_N_char_digit by (apply N.mod_lt; lia).
  f_equal. rewrite (N.div_mod x 10) at 3 by lia. lia.
Qed.

Lemma pretty_N_go_nonempty (x : N) (s : string) :
  (0 < x)%N → pretty_N_go x s ≠ "".
Proof.
  intros Hx Hnil. apply (f_equal String.length) in Hnil. revert Hnil.
  assert (∀ y t, String.length t ≤ String.length (pretty_N_go y t)) as Hlen.
  { intros y. induction (N.lt_wf_0 y) as [y _ IH]; intros t.
    assert (y = 0 ∨ 0 < y)%N as [->|Hy] by lia; [by rewrite pretty_N_go_0|].
    rewrite pretty_N_go_step by done.
    etrans; [|apply IH; by apply N.div_lt]. simpl. lia. }
  rewrite pretty_N_go_step by done.
  pose proof (Hlen (x `div` 10)%N (String (pretty_N_char (x `mod` 10)) s)) as H.
  simpl in H |- *. lia.
Qed.

(** What [str] prints: a non-empty string of decimal digits. *)
Lemma str_digits (n : nat) :
  Py.str n ≠ "" ∧ string_forall is_digit (Py.str n) = true.
Proof.
  unfold Py.str, pretty, pretty_nat, pretty, pretty_N.
  destruct (decide (N.of_nat n = 0%N)) as [_|Hn]; [done|].
  split; [apply pretty_N_go_nonempty; lia | by apply pretty_N_go_digits].
Qed.

Lemma digit_not_int_space (c : ascii) :
  is_digit c = true → negb (Py.int_space c) = true.
Proof.
  destruct c as [[] [] [] [] [] [] [] []]; try discriminate; reflexivity.
Qed.

Lemma int_digit_string (s : string) :
  s ≠ "" → string_forall is_digit s = true →
  Py.int s = of_option ValueError (Py.int_digits false 0 s).
Proof.
  intros Hne Hdig. unfold Py.int. cbv zeta.
  assert (string_forall (λ c, negb (Py.int_space c)) s = true) as Hsp.
  { eapply string_forall_impl; [apply digit_not_int_space | done]. }
  rewrite (lstrip_by_none _ _ Hsp), (rstrip_by_none _ _ Hsp).
  destruct s as [|a r]; [done|]. simpl in Hdig.
  apply andb_true_iff in Hdig as [Ha Hr].
  f_equal.
  transitivity (Py.int_unsigned (String a r)).
  - unfold is_digit in Ha.
    destruct a as [[] [] [] [] [] [] [] []]; try discriminate; reflexivity.
  - unfold is_digit in Ha. simpl.
    destruct (Ascii.is_nat a); [done | discriminate].
Qed.

(** Reading back what [str] printed. *)
Lemma int_str (n : nat) : Py.int (Py.str n) = Ok (Z.of_nat n).
Proof.
  destruct (str_digits n) as [Hne Hdig].
  rewrite (int_digit_string _ Hne Hdig).
  unfold Py.str, pretty, pretty_nat, pretty, pretty_N.
  destruct (decide (N.of_nat n = 0%N)) as [Hz|Hn].
  - assert (n = 0) as -> by lia. reflexivity.
  - rewrite pretty_N_go_int. simpl. f_equal. lia.
Qed.

Lemma split_no_sep (sep : ascii) (s : string) :
  no_char sep s = true → Py.split sep s = [s].
Proof.
  unfold no_char. induction s as [|a s IH]; simpl; [done|].
  intros [Ha Hs]%andb_true_iff. apply negb_true_iff in Ha.
  by rewrite Ha, IH.
Qed.

Lemma split_app_sep (sep : ascii) (s rest : string) :
  no_char sep s = true →
  Py.split sep (s +:+ String sep rest) = s :: Py.split sep rest.
Proof.
  unfold no_char. induction s as [|a s IH]; intros Hs.
  - rewrite string_app_nil. simpl. by rewrite Ascii.eqb_refl.
  - simpl in Hs. apply andb_true_iff in Hs as [Ha Hs].
    apply negb_true_iff in Ha.
    rewrite string_app_cons. simpl. by rewrite Ha, IH.
Qed.

(** Splitting what [join] put together gives the pieces back, provided
    there is at least one piece and none holds the separator. *)
Lemma split_join (sep : ascii) (l : list string) :
  l ≠ [] → Forall (λ x, no_char sep x = true) l →
  Py.split sep (Py.join (String sep "") l) = l.
Proof.
  intros Hne Hall. induction Hall as [|x l Hx Hall IH]; [done|].
  destruct l as [|y l].
  - simpl. by apply split_no_sep.
  - change (Py.join (String sep "") (x :: y :: l))
      with (x +:+ String sep "" +:+ Py.join (String sep "") (y :: l)).
    rewrite string_app_cons, string_app_nil.
    rewrite split_app_sep by done. f_equal. by apply IH.
Qed.

Lemma rstrip_by_app_blank (p : ascii → bool) (s t : string) :
  Py.rstrip_by p t = "" → Py.rstrip_by p (s +:+ t) = Py.rstrip_by p s.
Proof.
  intros Ht. induction s as [|a s IH]; [done|].
  rewrite string_app_cons. simpl. by rewrite IH.
Qed.

Lemma rstrip_by_app_kept (p : ascii → bool) (s t : string) :
  Py.rstrip_by p t ≠ "" →
  Py.rstrip_by p (s +:+ t) = s +:+ Py.rstrip_by p t.
Proof.
  intros Ht. induction s as [|a s IH]; [done|].
  rewrite !string_app_cons. simpl. rewrite IH.
  destruct (s +:+ Py.rstrip_by p t) as [|b u] eqn:Heq; [|done].
  destruct s; [|by rewrite string_app_cons in Heq].
  by rewrite string_app_nil in Heq.
Qed.

(** ** Reading the sample-index files back *)

Lemma digit_no_tab (c : ascii) : is_digit c = true → negb (Ascii.eqb c "009") = true.
Proof. destruct c as [[] [] [] [] [] [] [] []]; try discriminate; reflexivity. Qed.

Lemma digit_no_space (c : ascii) : is_digit c = true → negb (Py.isspace c) = true.
Proof. destruct c as [[] [] [] [] [] [] [] []]; try discriminate; reflexivity. Qed.

Lemma space_tab (c : ascii) :
  negb (Py.isspace c) = true → negb (Ascii.eqb c "009") = true.
Proof. destruct c as [[] [] [] [] [] [] [] []]; try discriminate; reflexivity. Qed.

Lemma str_no_tab (n : nat) : no_char "009" (Py.str n) = true.
Proof.
  eapply string_forall_impl; [apply digit_no_tab | apply str_digits].
Qed.

Lemma str_rstrip (n : nat) :
  Py.rstrip_by Py.isspace (Py.str n) = Py.str n.
Proof.
  apply rstrip_by_none.
  eapply string_forall_impl; [apply digit_no_space | apply str_digits].
Qed.

Lemma map_int_str (ns : list nat) :
  map_result Py.int (Py.str <$> ns) = Ok (Z.of_nat <$> ns).
Proof.
  induction ns as [|n ns IH]; [done|].
  cbn [fmap list_fmap map_result]. rewrite int_str. cbn [mbind result_bind].
  fold (fmap (M:=list) Py.str ns). rewrite IH. reflexivity.
Qed.

Lemma rstrip_join_str (ns : list nat) :
  ns ≠ [] →
  Py.rstrip_by Py.isspace (Py.join tab (Py.str <$> ns)) = Py.join tab (Py.str <$> ns) ∧
  Py.join tab (Py.str <$> ns) ≠ "".
Proof.
  induction ns as [|n ns IH]; [done|]. intros _.
  destruct ns as [|m ns].
  - simpl. split; [apply str_rstrip | apply str_digits].
  - destruct IH as [IH1 IH2]; [done|].
    change (Py.join tab (Py.str <$> n :: m :: ns))
      with (Py.str n +:+ tab +:+ Py.join tab (Py.str <$> m :: ns)).
    rewrite <-string_app_assoc.
    rewrite rstrip_by_app_kept by (by rewrite IH1).
    rewrite IH1. split; [done|].
    destruct (str_digits n) as [Hn _]. destruct (Py.str n); [done|].
    by rewrite !string_app_cons.
Qed.

(** What a written record becomes once its line break is stripped. *)
Lemma rstrip_render (r : sample_record) (ns : list nat) :
  fold_type r ≠ "" →
  string_forall (λ c, negb (Py.isspace c)) (fold_type r) = true →
  row_indices r = Py.str <$> ns →
  Py.rstrip (render r) =
    matrix_name r +:+ String "009" (Py.str (target_id r) +:+
      String "009" (target_name r +:+ String "009" (fold_type r +:+
        match ns with
        | [] => ""
        | _ => String "009" (Py.join tab (Py.str <$> ns))
        end))).
Proof.
  intros Hne Hfold Hrows. unfold render, Py.rstrip. rewrite Hrows.
  set (J := Py.join tab (Py.str <$> ns)).
  assert (Py.rstrip_by Py.isspace (fold_type r) = fold_type r) as Hft
    by (by apply rstrip_by_none).
  assert (Py.rstrip_by Py.isspace (fold_type r +:+ tab +:+ J +:+ newline)
          = fold_type r +:+ match ns with [] => "" | _ => String "009" J end
          ∧ Py.rstrip_by Py.isspace (fold_type r +:+ tab +:+ J +:+ newline) ≠ "")
    as [Hsuf Hsufne].
  { destruct ns as [|n ns].
    - subst J. simpl Py.join. rewrite string_app_nil.
      rewrite rstrip_by_app_blank by reflexivity.
      rewrite Hft. split; [|done]. by rewrite string_app_nil_r.
    - destruct (rstrip_join_str (n :: ns)) as [HJ HJne]; [done|]. fold J in HJ, HJne.
      assert (Py.rstrip_by Py.isspace (J +:+ newline) = J) as HJn.
      { by rewrite rstrip_by_app_blank. }
      assert (Py.rstrip_by Py.isspace (tab +:+ J +:+ newline) = String "009" J)
        as Htab.
      { change (tab +:+ J +:+ newline) with (tab +:+ (J +:+ newline)).
        rewrite rstrip_by_app_kept by (by rewrite HJn). by rewrite HJn. }
      rewrite rstrip_by_app_kept by (by rewrite Htab).
      rewrite Htab. split; [done|].
      destruct (fold_type r); [done|]. by rewrite string_app_cons. }
  set (suf := fold_type r +:+ tab +:+ J +:+ newline) in *.
  transitivity
    (Py.rstrip_by Py.isspace
       ((matrix_name r +:+ tab +:+ Py.str (target_id r) +:+ tab +:+
         target_name r +:+ tab) +:+ suf)).
  { f_equal. by rewrite !string_app_assoc. }
  rewrite rstrip_by_app_kept by done. rewrite Hsuf.
  by rewrite !string_app_assoc.
Qed.

Lemma split_render (r : sample_record) (ns : list nat) :
  readable r ns →
  Py.split "009" (Py.rstrip (render r)) =
    matrix_name r :: Py.str (target_id r) :: target_name r :: fold_type r
    :: (Py.str <$> ns).
Proof.
  intros (_ & Hm & Ht & Hne & Hfold & Hrows & _).
  rewrite (rstrip_render r ns Hne Hfold Hrows).
  assert (no_char "009" (fold_type r) = true) as Hft.
  { eapply string_forall_impl; [apply space_tab | done]. }
  rewrite !split_app_sep by (done || apply str_no_tab).
  do 3 f_equal. destruct ns as [|n ns].
  - rewrite string_app_nil_r. by apply split_no_sep.
  - rewrite split_app_sep by done. f_equal.
    apply (split_join "009" (Py.str <$> n :: ns)); [done|].
    apply Forall_fmap, Forall_forall. intros k _. apply str_no_tab.
Qed.

Lemma render_not_comment (r : sample_record) (ns : list nat) :
  readable r ns →
  ∃ c rest, Py.rstrip (render r) = String c rest ∧ Ascii.eqb c "#" = false.
Proof.
  intros (Hhash & _ & _ & Hne & Hfold & Hrows & _).
  rewrite (rstrip_render r ns Hne Hfold Hrows).
  destruct (matrix_name r) as [|a m].
  - rewrite string_app_nil. eexists _, _. split; [done|]. reflexivity.
  - rewrite string_app_cons. eexists _, _. split; [done|].
    simpl in Hhash. destruct (ascii_dec "#" a) as [<-|Hna].
    + by destruct m.
    + apply Ascii.eqb_neq. congruence.
Qed.

(** Reading back one written record. *)
Lemma load_samples_line_render (samples : samples_dict) (r : sample_record)
    (ns : list nat) :
  readable r ns →
  load_samples_line samples (render r)
  = Ok (<[sample_key (target_id r) (fold_type r) := Z.of_nat <$> ns]> samples).
Proof.
  intros Hr. unfold load_samples_line. cbv zeta.
  destruct (render_not_comment r ns Hr) as (c & rest & Hline & Hc).
  pose proof (split_render r ns Hr) as Hsplit.
  rewrite Hline in Hsplit |- *. rewrite Hc, Hsplit.
  cbn [drop lookup list_lookup of_option]. rewrite drop_0.
  rewrite map_int_str. reflexivity.
Qed.

Lemma sample_key_inj (t : nat) : Inj (=) (=) (sample_key t).
Proof.
  intros f1 f2 Heq. unfold sample_key in Heq.
  by apply (inj (String.app _)), (inj (String.app _)) in Heq.
Qed.

Lemma load_samples_records (recs : list (sample_record * list nat))
    (samples : samples_dict) :
  Forall (λ p, readable p.1 p.2) recs →
  NoDup ((λ p, sample_key (target_id p.1) (fold_type p.1)) <$> recs) →
  ∃ d,
    for_each load_samples_line ((λ p, render p.1) <$> recs) samples = Ok d ∧
    (∀ r ns, (r, ns) ∈ recs →
       d !! sample_key (target_id r) (fold_type r) = Some (Z.of_nat <$> ns)) ∧
    (∀ key, key ∉ (λ p, sample_key (target_id p.1) (fold_type p.1)) <$> recs →
       d !! key = samples !! key).
Proof.
  revert samples. induction recs as [|[r ns] recs IH]; intros samples Hall Hnd.
  - exists samples. split; [done|]. split; [|done].
    intros r ns Hin. by apply elem_of_nil in Hin.
  - apply Forall_cons in Hall as [Hr Hall]. simpl in Hr.
    apply NoDup_cons in Hnd as [Hfresh Hnd].
    destruct (IH (<[sample_key (target_id r) (fold_type r) := Z.of_nat <$> ns]> samples)
                Hall Hnd) as (d & Hrun & Hin & Hout).
    exists d. split; [|split].
    + cbn [fmap list_fmap for_each fst].
      rewrite (load_samples_line_render samples r ns Hr). exact Hrun.
    + intros r' ns' [[= -> ->]|Hin']%elem_of_cons; [|by apply Hin].
      rewrite Hout by done. apply lookup_insert_eq.
    + intros key [Hne Hkey]%not_elem_of_cons.
      rewrite Hout by done. by apply lookup_insert_ne.
Qed.

Lemma load_samples_header_skipped (samples : samples_dict) :
  load_samples_line samples feature_samples_header = Ok samples ∧
  load_samples_line samples target_samples_header = Ok samples.
Proof. split; reflexivity. Qed.

(** The six records of one target, paired with the numbers they print. *)
Lemma records_of_readable (name : string) (t_idx : nat) (target : string)
    (full : list nat) (folds : list (list nat)) :
  String.prefix "#" name = false → field_name name → field_name target →
  length folds = 5 →
  ∃ recs : list (sample_record * list nat),
    fst <$> recs
      = records_of name t_idx target (Py.str <$> full)
          (fmap (M:=list) Py.str <$> folds) ∧
    Forall (λ p, readable p.1 p.2 ∧ target_id p.1 = t_idx) recs ∧
    NoDup ((λ p, sample_key (target_id p.1) (fold_type p.1)) <$> recs).
Proof.
  intros Hhash (Hn1 & Hn2 & _) (Ht1 & Ht2 & _) Hlen.
  destruct folds as [|f0 [|f1 [|f2 [|f3 [|f4 [|]]]]]]; try discriminate.
  exists [ (SampleRecord name t_idx target "full" (Py.str <$> full), full);
           (SampleRecord name t_idx target (Py.str 0) (Py.str <$> f0), f0);
           (SampleRecord name t_idx target (Py.str 1) (Py.str <$> f1), f1);
           (SampleRecord name t_idx target (Py.str 2) (Py.str <$> f2), f2);
           (SampleRecord name t_idx target (Py.str 3) (Py.str <$> f3), f3);
           (SampleRecord name t_idx target (Py.str 4) (Py.str <$> f4), f4) ].
  split; [reflexivity|]. split.
  - repeat constructor; simpl; done.
  - cbn [fmap list_fmap fst target_id fold_type].
    change [sample_key t_idx "full"; sample_key t_idx (Py.str 0);
            sample_key t_idx (Py.str 1); sample_key t_idx (Py.str 2);
            sample_key t_idx (Py.str 3); sample_key t_idx (Py.str 4)]
      with (sample_key t_idx <$> ["full"; "0"; "1"; "2"; "3"; "4"]).
    apply (NoDup_fmap_2 (sample_key t_idx)).
    apply (bool_decide_unpack _). vm_compute. exact I.
Qed.

Lemma deal_fmap_entries (f : kept_case → nat) (ks : list kept_case) :
  fmap (M:=list) (λ k, Py.str (f k)) <$> deal 0 (replicate 5 []) ks
  = fmap (M:=list) Py.str <$> (fmap (M:=list) f <$> deal 0 (replicate 5 []) ks).
Proof.
  rewrite <-list_fmap_compose. apply list_fmap_ext. intros _ l _. simpl.
  by rewrite <-list_fmap_compose.
Qed.

(** The records one walk adds to the feature-row file and to the
    target-row file can be read back. *)
Lemma target_records_readable
    (case_order_rows target_case_rows present : list string)
    (st : index_state) (fm tm : string) (t_idx : nat) (name : string) :
  index_cases case_order_rows target_case_rows present = Ok st →
  String.prefix "#" fm = false → field_name fm →
  String.prefix "#" tm = false → field_name tm →
  field_name name →
  ∃ recs_f recs_t : list (sample_record * list nat),
    fst <$> recs_f = feature_samples (target_records fm tm t_idx name st) ∧
    fst <$> recs_t = target_samples (target_records fm tm t_idx name st) ∧
    Forall (λ p, readable p.1 p.2 ∧ target_id p.1 = t_idx) recs_f ∧
    Forall (λ p, readable p.1 p.2 ∧ target_id p.1 = t_idx) recs_t ∧
    NoDup ((λ p, sample_key (target_id p.1) (fold_type p.1)) <$> recs_f) ∧
    NoDup ((λ p, sample_key (target_id p.1) (fold_type p.1)) <$> recs_t).
Proof.
  intros (ks & Hks & ->)%index_cases_walked Hfm1 Hfm2 Htm1 Htm2 Hname.
  destruct (walked_init_fields ks) as (Hf & Ht & _ & Hff & Htf & _).
  unfold target_records. cbn [feature_samples target_samples].
  rewrite Hf, Ht, Hff, Htf.
  unfold feature_entry, target_entry.
  rewrite (deal_fmap_entries feature_row), (deal_fmap_entries target_row).
  change (λ k : kept_case, Py.str (feature_row k)) with (Py.str ∘ feature_row).
  change (λ k : kept_case, Py.str (target_row k)) with (Py.str ∘ target_row).
  rewrite !(list_fmap_compose _ Py.str).
  pose proof (deal_length 0 (replicate 5 []) ks) as Hlen.
  destruct (records_of_readable fm t_idx name (feature_row <$> ks)
              (fmap (M:=list) feature_row <$> deal 0 (replicate 5 []) ks))
    as (rf & Hrf & Hallf & Hnf); [done..|by rewrite length_fmap|].
  destruct (records_of_readable tm t_idx name (target_row <$> ks)
              (fmap (M:=list) target_row <$> deal 0 (replicate 5 []) ks))
    as (rt & Hrt & Hallt & Hnt); [done..|by rewrite length_fmap|].
  by exists rf, rt.
Qed.

Lemma digit_no_underscore (c : ascii) :
  is_digit c = true → negb (Ascii.eqb c "_") = true.
Proof. destruct c as [[] [] [] [] [] [] [] []]; try discriminate; reflexivity. Qed.

Lemma sample_key_cons (t_idx : nat) (fold : string) :
  sample_key t_idx fold = Py.str t_idx +:+ String "_" fold.
Proof. unfold sample_key. by rewrite string_app_cons, string_app_nil. Qed.

Lemma split_sample_key (t_idx : nat) (fold : string) :
  hd "" (Py.split "_" (sample_key t_idx fold)) = Py.str t_idx.
Proof.
  rewrite sample_key_cons, split_app_sep; [done|].
  eapply string_forall_impl; [apply digit_no_underscore | apply str_digits].
Qed.

Lemma sample_key_target (t1 t2 : nat) (f1 f2 : string) :
  sample_key t1 f1 = sample_key t2 f2 → t1 = t2.
Proof.
  intros Heq. apply (f_equal (λ key, hd "" (Py.split "_" key))) in Heq.
  rewrite !split_sample_key in Heq. by apply (inj Py.str).
Qed.

(** The records of a whole run: target after target, six by six. *)
Lemma index_targets_readable (fm tm : string)
    (case_order_rows target_case_rows : list string)
    (l : list (string * index_state)) (i : nat) :
  String.prefix "#" fm = false → field_name fm →
  String.prefix "#" tm = false → field_name tm →
  Forall (λ p, field_name p.1 ∧
               ∃ present, index_cases case_order_rows target_case_rows present
                          = Ok p.2) l →
  ∃ recs_f recs_t : list (sample_record * list nat),
    fst <$> recs_f
      = concat (imap (λ j p, feature_samples
                               (target_records fm tm (i + j) p.1 p.2)) l) ∧
    fst <$> recs_t
      = concat (imap (λ j p, target_samples
                               (target_records fm tm (i + j) p.1 p.2)) l) ∧
    Forall (λ p, readable p.1 p.2 ∧ i ≤ target_id p.1) recs_f ∧
    Forall (λ p, readable p.1 p.2 ∧ i ≤ target_id p.1) recs_t ∧
    NoDup ((λ p, sample_key (target_id p.1) (fold_type p.1)) <$> recs_f) ∧
    NoDup ((λ p, sample_key (target_id p.1) (fold_type p.1)) <$> recs_t).
Proof.
  intros Hfm1 Hfm2 Htm1 Htm2 Hall. revert i.
  induction Hall as [|[name st] l [Hname [present Hst]] _ IH]; intros i.
  - exists [], []. repeat split; try done; constructor.
  - destruct (target_records_readable _ _ _ _ fm tm i name Hst
                Hfm1 Hfm2 Htm1 Htm2 Hname)
      as (hf & ht & Ehf & Eht & Ahf & Aht & Nhf & Nht).
    destruct (IH (S i)) as (rf & rt & Erf & Ert & Arf & Art & Nrf & Nrt).
    assert (∀ (h r : list (sample_record * list nat)),
              Forall (λ p, readable p.1 p.2 ∧ target_id p.1 = i) h →
              Forall (λ p, readable p.1 p.2 ∧ S i ≤ target_id p.1) r →
              NoDup ((λ p, sample_key (target_id p.1) (fold_type p.1)) <$> h) →
              NoDup ((λ p, sample_key (target_id p.1) (fold_type p.1)) <$> r) →
              Forall (λ p, readable p.1 p.2 ∧ i ≤ target_id p.1) (h ++ r) ∧
              NoDup ((λ p, sample_key (target_id p.1) (fold_type p.1))
                       <$> (h ++ r))) as Hjoin.
    { intros h r Ah Ar Nh Nr. split.
      - apply Forall_app. split.
        + eapply Forall_impl; [exact Ah|]. intros p [? ->]. by split.
        + eapply Forall_impl; [exact Ar|]. intros p [? ?]. split; [done|lia].
      - rewrite fmap_app. apply NoDup_app. split; [done|]. split; [|done].
        intros key [p [-> Hp]]%list_elem_of_fmap [q [Hq Hq']]%list_elem_of_fmap.
        eapply Forall_forall in Ah; [|exact Hp].
        eapply Forall_forall in Ar; [|exact Hq'].
        apply sample_key_target in Hq. destruct Ah as [_ ?], Ar as [_ ?]. lia. }
    destruct (Hjoin hf rf Ahf Arf Nhf Nrf) as [Af Nf].
    destruct (Hjoin ht rt Aht Art Nht Nrt) as [At Nt].
    exists (hf ++ rf), (ht ++ rt).
    cbn [imap concat fst snd]. rewrite !fmap_app, Ehf, Eht, Erf, Ert, Nat.add_0_r.
    split.
    { f_equal. f_equal. apply imap_ext. intros j p _. simpl.
      by rewrite Nat.add_succ_r. }
    split.
    { f_equal. f_equal. apply imap_ext. intros j p _. simpl.
      by rewrite Nat.add_succ_r. }
    rewrite fmap_app in Nf, Nt. by repeat split.
Qed.

Lemma readlines_line (line rest : string) :
  no_char "010" line = true →
  readlines (line +:+ String "010" rest) = (line +:+ newline) :: readlines rest.
Proof.
  unfold no_char. induction line as [|a line IH]; intros Hline.
  - by rewrite !string_app_nil.
  - simpl in Hline. apply andb_true_iff in Hline as [Ha Hline].
    apply negb_true_iff in Ha.
    rewrite !string_app_cons. cbn [readlines]. by rewrite Ha, IH.
Qed.

(** A text written line by line reads as the lines written. *)
Lemma readlines_written (lines : list string) :
  Forall (λ line, ∃ body, line = body +:+ newline ∧ no_char "010" body = true)
    lines →
  readlines (written lines) = lines.
Proof.
  induction 1 as [|line lines (body & -> & Hbody) _ IH]; [done|].
  cbn [written foldr]. fold (written lines).
  rewrite string_app_assoc. unfold newline at 1.
  rewrite string_app_cons, string_app_nil.
  by rewrite readlines_line, IH.
Qed.

Lemma digit_no_newline (c : ascii) :
  is_digit c = true → negb (Ascii.eqb c "010") = true.
Proof. destruct c as [[] [] [] [] [] [] [] []]; try discriminate; reflexivity. Qed.

Lemma space_newline (c : ascii) :
  negb (Py.isspace c) = true → negb (Ascii.eqb c "010") = true.
Proof. destruct c as [[] [] [] [] [] [] [] []]; try discriminate; reflexivity. Qed.

Lemma join_str_one_line (ns : list nat) :
  no_char "010" (Py.join tab (Py.str <$> ns)) = true.
Proof.
  assert (∀ n, no_char "010" (Py.str n) = true) as Hstr.
  { intros n. eapply string_forall_impl; [apply digit_no_newline|apply str_digits]. }
  induction ns as [|n ns IH]; [done|].
  destruct ns as [|m ns]; [apply Hstr|].
  change (Py.join tab (Py.str <$> n :: m :: ns))
    with (Py.str n +:+ tab +:+ Py.join tab (Py.str <$> m :: ns)).
  unfold no_char in *. rewrite !string_forall_app, Hstr, IH. done.
Qed.

(** A written record is one line of the file. *)
Lemma render_one_line (r : sample_record) (ns : list nat) :
  readable r ns →
  ∃ body, render r = body +:+ newline ∧ no_char "010" body = true.
Proof.
  intros (_ & _ & _ & _ & Hfold & Hrows & Hm & Ht).
  exists (matrix_name r +:+ tab +:+ Py.str (target_id r) +:+ tab +:+ target_name r
          +:+ tab +:+ fold_type r +:+ tab +:+ Py.join tab (row_indices r)).
  split; [unfold render; by rewrite !string_app_assoc|].
  pose proof (join_str_one_line ns) as HJ.
  pose proof (string_forall_impl _ _ _ digit_no_newline
                (proj2 (str_digits (target_id r)))) as Hd.
  pose proof (string_forall_impl _ _ _ space_newline Hfold) as Hf.
  rewrite Hrows. unfold no_char in *.
  rewrite !string_forall_app, Hm, Ht, HJ, Hd, Hf. done.
Qed.

Lemma load_samples_read_back (header : string)
    (recs : list (sample_record * list nat)) :
  load_samples_line ∅ header = Ok ∅ →
  (∃ body, header = body +:+ newline ∧ no_char "010" body = true) →
  Forall (λ p, readable p.1 p.2) recs →
  NoDup ((λ p, sample_key (target_id p.1) (fold_type p.1)) <$> recs) →
  ∃ d, load_samples (readlines (written (header :: (render <$> (fst <$> recs)))))
       = Ok d ∧
       read_back (fst <$> recs) d.
Proof.
  intros Hheader Hline Hall Hnd.
  destruct (load_samples_records recs ∅ Hall Hnd) as (d & Hrun & Hin & Hout).
  exists d. split; [|split].
  - rewrite readlines_written.
    + unfold load_samples. cbn [for_each]. rewrite Hheader.
      cbn [mbind result_bind]. by rewrite <-list_fmap_compose.
    + constructor; [done|]. rewrite <-list_fmap_compose.
      apply Forall_fmap. eapply Forall_impl; [exact Hall|].
      intros [r ns] Hr. by apply (render_one_line r ns).
  - intros r [[r' ns] [-> Hr]]%list_elem_of_fmap. simpl.
    exists ns. split; [|by apply Hin].
    eapply Forall_forall in Hall; [|exact Hr]. apply Hall.
  - intros key Hkey.
    destruct (decide (key ∈ (λ p, sample_key (target_id p.1) (fold_type p.1)) <$> recs))
      as [Hk|Hk].
    + apply list_elem_of_fmap in Hk as ([r ns] & -> & Hr).
      exists r. split; [|done]. apply list_elem_of_fmap. by exists (r, ns).
    + rewrite (Hout key Hk), lookup_empty in Hkey. by destruct Hkey.
Qed.

(** Reading back what the indexer writes.  Take a run of the loop over
    the targets that ends, whatever the module's globals are, with
    matrix names that do not start with [#] and, like the target names,
    hold no tab and no line break.  The text written to the feature-row
    file, and the text written to the target-row file, each a header
    line followed by the records, is then read by [load_samples] without
    error; every record written is found under the key made of its
    target number and fold type, as the integers that were printed, and
    the dictionary holds no other key. *)
Theorem load_samples_reads_index
    (globals : gmap string pydict) (params : pydict) (fs : files)
    (case_order_rows target_case_rows targets : list string)
    (out : index_output) :
  index_targets globals params fs case_order_rows target_case_rows targets
    = Ok out →
  (∀ fm, params !! "feature_matrix_name" = Some fm →
         String.prefix "#" fm = false ∧ field_name fm) →
  (∀ tm, params !! "target_matrix_name" = Some tm →
         String.prefix "#" tm = false ∧ field_name tm) →
  Forall field_name targets →
  ∃ d_f d_t,
    load_samples
      (readlines (written (feature_samples_header
                           :: (render <$> feature_samples out)))) = Ok d_f ∧
    read_back (feature_samples out) d_f ∧
    load_samples
      (readlines (written (target_samples_header
                           :: (render <$> target_samples out)))) = Ok d_t ∧
    read_back (target_samples out) d_t.
Proof.
  intros Hrun Hfm Htm Htargets.
  destruct (index_targets_per_target _ _ _ _ _ _ _ Hrun)
    as (sts & Hwalks & Ef & Et & _).
  assert (Forall (λ st, ∃ present,
                    index_cases case_order_rows target_case_rows present = Ok st)
            sts) as Hsts.
  { clear -Hwalks.
    induction Hwalks as [|name st ts sts Hwalk _ IH]; [constructor|].
    constructor; [|exact IH].
    destruct Hwalk as (? & ? & ? & present & _ & _ & _ & _ & Hst). eauto. }
  set (fm := default "" (params !! "feature_matrix_name")) in *.
  set (tm := default "" (params !! "target_matrix_name")) in *.
  assert (String.prefix "#" fm = false ∧ field_name fm) as [Hfm1 Hfm2].
  { unfold fm. destruct (params !! "feature_matrix_name") as [x|]; [by apply Hfm|].
    by repeat split. }
  assert (String.prefix "#" tm = false ∧ field_name tm) as [Htm1 Htm2].
  { unfold tm. destruct (params !! "target_matrix_name") as [x|]; [by apply Htm|].
    by repeat split. }
  destruct (index_targets_readable fm tm case_order_rows target_case_rows
              (zip targets sts) 0 Hfm1 Hfm2 Htm1 Htm2)
    as (rf & rt & Erf & Ert & Arf & Art & Nrf & Nrt).
  { apply Forall_forall. intros [name st] Hin.
    apply elem_of_zip_l in Hin as Hl. apply elem_of_zip_r in Hin as Hr.
    simpl in *. split.
    - by eapply Forall_forall in Htargets.
    - by eapply Forall_forall in Hsts. }
  cbn [Nat.add] in Erf, Ert. rewrite <-Ef in Erf. rewrite <-Et in Ert.
  destruct (load_samples_read_back feature_samples_header rf eq_refl)
    as (d_f & Hdf & Hbf); [by eexists| |done|].
  { eapply Forall_impl; [exact Arf|]. by intros p [? _]. }
  destruct (load_samples_read_back target_samples_header rt eq_refl)
    as (d_t & Hdt & Hbt); [by eexists| |done|].
  { eapply Forall_impl; [exact Art|]. by intros p [? _]. }
  rewrite Erf in Hdf, Hbf. rewrite Ert in Hdt, Hbt.
  by exists d_f, d_t.
Qed.

Lemma load_samples_reads_index_witness :
  ∃ d_f d_t,
    load_samples
      (readlines (written (feature_samples_header
                           :: (render <$> feature_samples fever_output))))
      = Ok d_f ∧
    read_back (feature_samples fever_output) d_f ∧
    load_samples
      (readlines (written (target_samples_header
                           :: (render <$> target_samples fever_output))))
      = Ok d_t ∧
    read_back (target_samples fever_output) d_t.
Proof.
  apply (load_samples_reads_index
           (<["parmas" := fever_params]> (script_globals fever_params))
           fever_params fever_files
           ["A"; "B"; "C"; "D"; "E"] ["E"; "D"; "C"; "B"; "A"] ["fever"]).
  - vm_compute. reflexivity.
  - intros fm Hfm. vm_compute in Hfm. injection Hfm as <-.
    repeat split; reflexivity.
  - intros tm Htm. vm_compute in Htm. injection Htm as <-.
    repeat split; reflexivity.
  - repeat constructor.
Defined.

(** ** Model keys *)

Lemma for_each_app {St X} (body : St → X → result St) (l1 l2 : list X) (st : St) :
  for_each body (l1 ++ l2) st = for_each body l1 st ≫= for_each body l2.
Proof.
  revert st. induction l1 as [|x l1 IH]; intros st; simpl; [done|].
  destruct (body st x) as [st'|e]; simpl; [apply IH | done].
Qed.

Lemma target_col_indices_from (model_keys : list string) (col : string → Z)
    (indices : gmap string Z) :
  Forall (λ key, Py.int (hd "" (Py.split "_" key)) = Ok (col key)) model_keys →
  ∃ d,
    for_each
      (λ (indices : gmap string Z) key,
         match indices !! key with
         | Some _ => Ok indices
         | None =>
             i ← Py.int (hd "" (Py.split "_" key));
             Ok (<[key := i]> indices)
         end)
      model_keys indices = Ok d ∧
    ∀ key, d !! key =
           match indices !! key with
           | Some i => Some i
           | None => if decide (key ∈ model_keys) then Some (col key) else None
           end.
Proof.
  intros Hall. revert indices.
  induction Hall as [|k keys Hk Hall IH]; intros indices; cbn [for_each].
  - exists indices. split; [done|]. intros key.
    destruct (indices !! key); [done|]. by rewrite decide_False by apply not_elem_of_nil.
  - destruct (indices !! k) as [i|] eqn:Hik.
    + cbn [mbind result_bind]. destruct (IH indices) as (d & -> & Hd).
      exists d. split; [done|]. intros key. rewrite Hd.
      destruct (indices !! key) eqn:Hkey; [done|].
      destruct (decide (key ∈ keys)) as [Hin|Hout].
      * rewrite decide_True; [done|]. by apply elem_of_cons; right.
      * rewrite decide_False; [done|].
        intros [->|?]%elem_of_cons; [congruence | done].
    + rewrite Hk. cbn [mbind result_bind].
      destruct (IH (<[k := col k]> indices)) as (d & -> & Hd).
      exists d. split; [done|]. intros key. rewrite Hd.
      destruct (decide (key = k)) as [->|Hne].
      * rewrite lookup_insert_eq, Hik.
        rewrite decide_True; [done|]. by apply elem_of_cons; left.
      * rewrite lookup_insert_ne by done.
        destruct (indices !! key); [done|].
        destruct (decide (key ∈ keys)) as [Hin|Hout].
        -- rewrite decide_True; [done|]. by apply elem_of_cons; right.
        -- rewrite decide_False; [done|].
           intros [->|?]%elem_of_cons; done.
Qed.

(** The keys under which the sample files are loaded give the target
    column back: whatever the fold parts are, [target_col_indices] ends
    without error, maps the key made of target number [t] and any fold
    to [t], and holds no other key. *)
Theorem target_col_indices_sample_keys (pairs : list (nat * string)) :
  ∃ d,
    target_col_indices ((λ p, sample_key p.1 p.2) <$> pairs) = Ok d ∧
    (∀ t fold, (t, fold) ∈@{list (nat * string)} pairs →
       d !! sample_key t fold = Some (Z.of_nat t)) ∧
    (∀ key, is_Some (d !! key) →
       ∃ t fold, (t, fold) ∈@{list (nat * string)} pairs ∧ key = sample_key t fold).
Proof.
  destruct (target_col_indices_from ((λ p, sample_key p.1 p.2) <$> pairs)
              (λ key, default 0%Z
                 (match Py.int (hd "" (Py.split "_" key)) with
                  | Ok i => Some i | Raise _ => None end)) ∅)
    as (d & Hrun & Hd).
  { apply Forall_fmap, Forall_forall. intros [t fold] _. simpl.
    by rewrite split_sample_key, int_str. }
  exists d. split; [exact Hrun|]. split.
  - intros t fold Hin. rewrite Hd, lookup_empty.
    rewrite decide_True.
    + by rewrite split_sample_key, int_str.
    + apply list_elem_of_fmap. by exists (t, fold).
  - intros key Hkey. rewrite Hd, lookup_empty in Hkey.
    destruct (decide (key ∈ (λ p, sample_key p.1 p.2) <$> pairs)) as [Hin|Hout].
    + apply list_elem_of_fmap in Hin as ([t fold] & -> & Hin). eauto.
    + by destruct Hkey.
Qed.

Lemma rstrip_chars_full_key (t_idx : nat) :
  rstrip_chars "_full" (sample_key t_idx "full") = Py.str t_idx.
Proof.
  unfold rstrip_chars. rewrite sample_key_cons.
  rewrite rstrip_by_app_blank by reflexivity.
  apply rstrip_by_none.
  eapply string_forall_impl; [|apply str_digits].
  intros c. destruct c as [[] [] [] [] [] [] [] []]; try discriminate; reflexivity.
Qed.

(** The trainer names a model after the target of its "full" key:
    stripping the characters [_], [f], [u], [l] from the end of the key
    leaves the target number, and the name is the entry of the target
    list at that position, or [IndexError] if the list is shorter. *)
Theorem model_name_full_key (target_feature_columns : list string) (t_idx : nat) :
  model_name target_feature_columns (sample_key t_idx "full")
  = of_option IndexError (target_feature_columns !! t_idx).
Proof.
  unfold model_name. rewrite rstrip_chars_full_key, int_str.
  cbn [mbind result_bind]. unfold list_getitem.
  rewrite (proj2 (Z.leb_le 0 (Z.of_nat t_idx))) by lia.
  by rewrite Nat2Z.id.
Qed.

Lemma contains_full_needs_f (s : string) :
  no_char "f" s = true → Py.contains "_full" s = false.
Proof.
  unfold no_char. induction s as [|a s IH]; [done|].
  intros [Ha Hs]%andb_true_iff. cbn [Py.contains].
  rewrite (IH Hs), orb_false_r.
  destruct s as [|b s]; cbn [String.prefix].
  - by destruct (ascii_dec "_" a).
  - destruct (ascii_dec "_" a) as [_|_]; [|done].
    destruct (ascii_dec "f" b) as [<-|_]; [|done].
    simpl in Hs. discriminate.
Qed.

Lemma prefix_app (sub rest : string) : String.prefix sub (sub +:+ rest) = true.
Proof.
  induction sub as [|a sub IH]; [by destruct rest|].
  rewrite string_app_cons. cbn [String.prefix].
  by destruct (ascii_dec a a).
Qed.

Lemma contains_app (sub s rest : string) :
  Py.contains sub (s +:+ sub +:+ rest) = true.
Proof.
  induction s as [|a s IH].
  - rewrite string_app_nil. destruct (sub +:+ rest) eqn:Heq.
    + cbn [Py.contains]. rewrite <-Heq, prefix_app. done.
    + cbn [Py.contains]. rewrite <-Heq, prefix_app. done.
  - rewrite string_app_cons. cbn [Py.contains]. rewrite IH. apply orb_true_r.
Qed.

Lemma digit_not_f (c : ascii) : is_digit c = true → negb (Ascii.eqb c "f") = true.
Proof. destruct c as [[] [] [] [] [] [] [] []]; try discriminate; reflexivity. Qed.

Lemma contains_full_sample_key (t_idx : nat) :
  Py.contains "_full" (sample_key t_idx "full") = true ∧
  ∀ f_idx, Py.contains "_full" (sample_key t_idx (Py.str f_idx)) = false.
Proof.
  split.
  - rewrite sample_key_cons.
    change (String "_" "full") with ("_full" +:+ ""). apply contains_app.
  - intros f_idx. apply contains_full_needs_f.
    unfold sample_key, no_char. rewrite !string_forall_app.
    pose proof (λ n, string_forall_impl _ _ (Py.str n) digit_not_f
                       (proj2 (str_digits n))) as Hd.
    by rewrite !Hd.
Qed.

(** Keeping the "full" keys: among any keys, the key of a target's
    "full" record is kept whenever it is there, and the key of a
    numbered fold never is. *)
Theorem full_keys_sample_keys (model_keys : list string) (t_idx : nat) :
  (sample_key t_idx "full" ∈ full_keys model_keys
   ↔ sample_key t_idx "full" ∈ model_keys) ∧
  ∀ f_idx, sample_key t_idx (Py.str f_idx) ∉ full_keys model_keys.
Proof.
  destruct (contains_full_sample_key t_idx) as [Hfull Hfold].
  unfold full_keys. split.
  - rewrite list_elem_of_filter. split; [by intros [_ Hin] | by intros Hin].
  - intros f_idx Hin. apply list_elem_of_filter in Hin as [Hc Hin].
    rewrite Hfold in Hc. discriminate.
Qed.

Lemma full_key_of_sample_key (t_idx : nat) (fold : string) :
  full_key_of (sample_key t_idx fold) = sample_key t_idx "full".
Proof.
  unfold full_key_of. rewrite split_sample_key, sample_key_cons. done.
Qed.

(** ** Loading lists and sample files *)

Lemma load_list_from (f loaded_list : list string) :
  foldl (λ loaded_list full_line,
           let line := Py.rstrip full_line in
           if decide (line = "") then loaded_list
           else loaded_list ++ [line])
        loaded_list f
  = loaded_list ++ filter (λ line, line ≠ "") (Py.rstrip <$> f).
Proof.
  revert loaded_list. induction f as [|l f IH]; intros acc; cbn [foldl].
  - by rewrite app_nil_r.
  - rewrite IH, fmap_cons, filter_cons. cbv zeta.
    destruct (decide (Py.rstrip l = "")) as [Hl|Hl].
    + by rewrite decide_False by (by intros H; apply H).
    + rewrite decide_True by done. by rewrite <-app_assoc.
Qed.

Lemma load_list_filter (f : list string) :
  load_list f = filter (λ line, line ≠ "") (Py.rstrip <$> f).
Proof. unfold load_list. by rewrite load_list_from. Qed.

Lemma rstrip_by_idemp (p : ascii → bool) (s : string) :
  Py.rstrip_by p (Py.rstrip_by p s) = Py.rstrip_by p s.
Proof.
  induction s as [|a s IH]; [done|]. cbn [Py.rstrip_by].
  destruct (Py.rstrip_by p s) as [|b r] eqn:Hr.
  - destruct (p a) eqn:Hp; [done|]. simpl. by rewrite Hp.
  - cbn [Py.rstrip_by]. cbn [Py.rstrip_by] in IH. by rewrite IH.
Qed.

(** What [load_list] hands on: the lines of the file with their
    trailing blanks removed, those that are then empty left out, in the
    order of the file.  So none of them is empty, none has blanks at its
    end, there are no more of them than the file has lines, and loading
    such a list again changes nothing. *)
Theorem load_list_clean (f : list string) :
  load_list f = filter (λ line, line ≠ "") (Py.rstrip <$> f) ∧
  Forall (λ line, line ≠ "" ∧ Py.rstrip line = line) (load_list f) ∧
  length (load_list f) ≤ length f ∧
  load_list (load_list f) = load_list f.
Proof.
  split; [apply load_list_filter|].
  assert (Forall (λ line, line ≠ "" ∧ Py.rstrip line = line) (load_list f)) as Hclean.
  { rewrite load_list_filter. apply Forall_forall.
    intros line [Hne Hin]%list_elem_of_filter.
    apply list_elem_of_fmap in Hin as (l & -> & _).
    split; [done | apply rstrip_by_idemp]. }
  split; [exact Hclean|]. split.
  - rewrite load_list_filter.
    etrans; [apply length_filter|]. by rewrite length_fmap.
  - rewrite (load_list_filter (load_list f)).
    induction Hclean as [|l ls [Hne Hl] _ IH]; [done|].
    rewrite fmap_cons, filter_cons, Hl, decide_True by done. by rewrite IH.
Qed.

Lemma load_samples_line_skip (samples : samples_dict) (full_line : string) :
  ¬ data_line full_line → load_samples_line samples full_line = Ok samples.
Proof.
  unfold data_line, load_samples_line. intros Hskip.
  destruct (Py.rstrip full_line) as [|c r]; [done|].
  destruct (Ascii.eqb c "#") eqn:Hc; [done|].
  destruct Hskip. split; [done|]. cbn [String.prefix].
  destruct (ascii_dec "#" c) as [<-|_]; [|done]. discriminate.
Qed.

(** Lines that are blank, or start with [#], once their trailing blanks
    are gone have no effect on what [load_samples] returns: the file
    reads as if they had been removed. *)
Theorem load_samples_skips (f : list string) :
  load_samples f = load_samples (filter data_line f).
Proof.
  unfold load_samples. generalize (∅ : samples_dict) as samples.
  induction f as [|l f IH]; intros samples; [done|].
  rewrite filter_cons. destruct (decide (data_line l)) as [Hl|Hl].
  - cbn [for_each]. destruct (load_samples_line samples l); simpl; [apply IH|done].
  - cbn [for_each]. rewrite (load_samples_line_skip _ _ Hl). apply IH.
Qed.

(** A data line with fewer than four tab-separated fields makes
    [load_samples] raise [IndexError], whatever follows it. *)
Theorem load_samples_short_line (pre post : list string) (full_line : string)
    (samples : samples_dict) :
  load_samples pre = Ok samples →
  data_line full_line →
  length (Py.split "009" (Py.rstrip full_line)) < 4 →
  load_samples (pre ++ full_line :: post) = Raise IndexError.
Proof.
  intros Hpre [Hne Hhash] Hlen. unfold load_samples in *.
  rewrite for_each_app, Hpre. cbn [mbind result_bind for_each].
  assert (load_samples_line samples full_line = Raise IndexError) as ->; [|done].
  unfold load_samples_line.
  destruct (Py.rstrip full_line) as [|c r] eqn:Hline; [done|].
  assert (Ascii.eqb c "#" = false) as ->.
  { cbn [String.prefix] in Hhash. destruct (ascii_dec "#" c) as [<-|Hc].
    - by destruct r.
    - apply Ascii.eqb_neq. congruence. }
  destruct (Py.split "009" (String c r)) as [|x0 [|x1 [|x2 [|x3 xs]]]];
    simpl in Hlen; try lia; reflexivity.
Qed.

Lemma load_samples_short_line_witness :
  load_samples (["#header" +:+ newline]
                ++ ("m" +:+ tab +:+ "0" +:+ tab +:+ "fever" +:+ newline) :: [])
  = Raise IndexError.
Proof.
  apply (load_samples_short_line ["#header" +:+ newline] []
           ("m" +:+ tab +:+ "0" +:+ tab +:+ "fever" +:+ newline) ∅).
  - reflexivity.
  - split; [discriminate | reflexivity].
  - vm_compute. lia.
Defined.

(** ** The item-presence table *)

(** A target that is not a column of the header makes
    [load_target_present_rows] raise [ValueError], whatever the rows. *)
Theorem load_target_present_rows_unknown_target (header : string)
    (rows : list string) (target_name : string) :
  Py.rstrip header ≠ "" →
  target_name ∉ Py.split "," (Py.rstrip header) →
  load_target_present_rows (header :: rows) target_name = Raise ValueError.
Proof.
  intros Hne Hout. unfold load_target_present_rows. cbn [scan_item_present].
  rewrite decide_False by done.
  assert (Py.index target_name (Py.split "," (Py.rstrip header)) = Raise ValueError)
    as ->; [|done].
  by apply index_Raise.
Qed.

Lemma load_target_present_rows_unknown_target_witness :
  load_target_present_rows fever_table "cough" = Raise ValueError.
Proof.
  apply (load_target_present_rows_unknown_target
           ("row,case_id,fever" +:+ newline) (tail fever_table) "cough").
  - discriminate.
  - vm_compute. intros H. repeat (apply elem_of_cons in H as [H|H]; [discriminate|]).
    by apply elem_of_nil in H.
Defined.

Lemma scan_item_present_rows (target_name : string) (col : nat)
    (rows : list string) (cells : list (string * Z)) (acc : list string) :
  Forall2 (λ line c, table_row col line c.1 c.2) rows cells →
  scan_item_present target_name false col acc rows
  = Ok (acc ++ (fst <$> filter (λ c, c.2 ≠ 0%Z) cells)).
Proof.
  intros Hrows. revert acc.
  induction Hrows as [|line [case_id flag] rows cells Hrow _ IH]; intros acc.
  - simpl. by rewrite app_nil_r.
  - destruct Hrow as (Hne & (cell & Hcell & Hflag) & Hid). simpl in *.
    rewrite decide_False by done. rewrite Hcell. cbn [of_option mbind result_bind].
    rewrite Hflag. cbn [mbind result_bind]. rewrite filter_cons. simpl.
    destruct (decide (flag ≠ 0%Z)) as [Hnz|Hz].
    + rewrite (Hid Hnz). cbn [of_option mbind result_bind].
      rewrite IH, fmap_cons, <-app_assoc. done.
    + apply IH.
Qed.

(** On a table whose header holds the target (first in column [col])
    and whose rows, none of them blank, each carry an integer flag in
    that column, [load_target_present_rows] returns the second field of
    exactly the rows whose flag is not zero, in the order of the file. *)
Theorem load_target_present_rows_table (header : string) (rows : list string)
    (target_name : string) (col : nat) (cells : list (string * Z)) :
  Py.rstrip header ≠ "" →
  Py.index target_name (Py.split "," (Py.rstrip header)) = Ok col →
  Forall2 (λ line c, table_row col line c.1 c.2) rows cells →
  load_target_present_rows (header :: rows) target_name
  = Ok (fst <$> filter (λ c, c.2 ≠ 0%Z) cells).
Proof.
  intros Hne Hcol Hrows. unfold load_target_present_rows. cbn [scan_item_present].
  rewrite decide_False by done. rewrite Hcol. cbn [mbind result_bind].
  by rewrite (scan_item_present_rows _ _ _ cells).
Qed.

Lemma load_target_present_rows_table_witness :
  load_target_present_rows fever_table "fever"
  = Ok (fst <$> filter (λ c : string * Z, c.2 ≠ 0%Z)
                  [("A", 1%Z); ("B", 0%Z); ("C", 1%Z); ("D", 1%Z); ("E", 0%Z)]).
Proof.
  apply (load_target_present_rows_table
           ("row,case_id,fever" +:+ newline) (tail fever_table) "fever" 2).
  - discriminate.
  - reflexivity.
  - repeat constructor; try discriminate; simpl; try (by eexists; split; reflexivity);
      try reflexivity; try done.
Defined.

(** ** The indexer run as a script *)

Lemma script_globals_unbound (params : pydict) :
  script_globals params !! "parmas" = None.
Proof. unfold script_globals. by apply lookup_singleton_ne. Qed.

Lemma index_targets_unbound (globals : gmap string pydict) (params : pydict)
    (fs : files) (co tc targets : list string) :
  globals !! "parmas" = None →
  index_targets globals params fs co tc targets
  = if decide (targets = []) then Ok (IndexOutput [] [] []) else Raise NameError.
Proof.
  intros Hg. destruct targets as [|t ts]; [done|].
  unfold index_targets. cbn [for_enumerate]. rewrite Hg. done.
Qed.

Lemma determine_rows_without_parmas (params : pydict) (fs fs' : files) :
  determine_feature_matrix_and_target_matrix_rows (script_globals params) params fs
    = Ok fs' →
  ∃ o1 o2 o3,
    params !! "feature_samples_outfile" = Some o1 ∧
    params !! "target_samples_outfile" = Some o2 ∧
    params !! "feat_targ_samples_outfile" = Some o3 ∧
    fs' = <[o3 := [feat_targ_samples_header]]>
            (<[o2 := [target_samples_header]]>
               (<[o1 := [feature_samples_header]]> fs)).
Proof.
  unfold determine_feature_matrix_and_target_matrix_rows.
  destruct (getitem params "case_order_rows_file") as [p1|e];
    cbn [mbind result_bind fmap result_fmap]; [|done].
  destruct (open_read fs p1) as [f1|e];
    cbn [mbind result_bind fmap result_fmap]; [|done].
  destruct (getitem params "target_case_rows_file") as [p2|e];
    cbn [mbind result_bind fmap result_fmap]; [|done].
  destruct (open_read fs p2) as [f2|e];
    cbn [mbind result_bind fmap result_fmap]; [|done].
  destruct (getitem params "target_feature_columns_file") as [p3|e];
    cbn [mbind result_bind fmap result_fmap]; [|done].
  destruct (open_read fs p3) as [f3|e];
    cbn [mbind result_bind fmap result_fmap]; [|done].
  unfold getitem.
  destruct (params !! "feature_samples_outfile") as [o1|];
    cbn [of_option mbind result_bind]; [|done].
  destruct (params !! "target_samples_outfile") as [o2|];
    cbn [of_option mbind result_bind]; [|done].
  destruct (params !! "feat_targ_samples_outfile") as [o3|];
    cbn [of_option mbind result_bind]; [|done].
  rewrite (index_targets_unbound _ _ _ _ _ _ (script_globals_unbound params)).
  destruct (decide (load_list f3 = [])) as [_|_];
    cbn [mbind result_bind]; [|done].
  intros [= <-]. by exists o1, o2, o3.
Qed.

(** Run with the globals of the script, the indexer never writes a
    record: whenever it returns, each of the three output files holds
    its header line and nothing else, and no other file has changed. *)
Theorem determine_rows_script_headers_only (params : pydict) (fs fs' : files) :
  determine_feature_matrix_and_target_matrix_rows (script_globals params) params fs
    = Ok fs' →
  ∃ o1 o2 o3,
    params !! "feature_samples_outfile" = Some o1 ∧
    params !! "target_samples_outfile" = Some o2 ∧
    params !! "feat_targ_samples_outfile" = Some o3 ∧
    fs' = <[o3 := [feat_targ_samples_header]]>
            (<[o2 := [target_samples_header]]>
               (<[o1 := [feature_samples_header]]> fs)).
Proof. apply determine_rows_without_parmas. Qed.

Lemma determine_rows_script_headers_only_witness :
  ∃ o1 o2 o3,
    fever_params !! "feature_samples_outfile" = Some o1 ∧
    fever_params !! "target_samples_outfile" = Some o2 ∧
    fever_params !! "feat_targ_samples_outfile" = Some o3 ∧
    <["feat_targ_samples_out.txt" := [feat_targ_samples_header]]>
      (<["target_samples_out.txt" := [target_samples_header]]>
         (<["feature_samples_out.txt" := [feature_samples_header]]> no_target_files))
    = <[o3 := [feat_targ_samples_header]]>
        (<[o2 := [target_samples_header]]>
           (<[o1 := [feature_samples_header]]> no_target_files)).
Proof.
  apply (determine_rows_script_headers_only fever_params no_target_files).
  vm_compute. reflexivity.
Defined.

Lemma string_app_inj_l (s t1 t2 : string) : s +:+ t1 = s +:+ t2 → t1 = t2.
Proof.
  induction s as [|a s IH]; [by rewrite !string_app_nil|].
  rewrite !string_app_cons. intros [= H]. by apply IH.
Qed.

(** The seven files of [populate_sample_rows_params]: four inputs, then
    the three outputs. *)
Lemma populated_paths (base_dir : string) :
  let params := populate_sample_rows_params base_dir in
  let case_dir := "complete_feature_files_labeling_cases/" in
  let out_dir := "feature_matrix_storage_labeling_cases/" in
  params !! "case_order_rows_file"
    = Some (base_dir +:+ case_dir +:+ "case_order_rows.txt") ∧
  params !! "target_case_rows_file"
    = Some (base_dir +:+ case_dir +:+ "target_case_rows.txt") ∧
  params !! "target_feature_columns_file"
    = Some (base_dir +:+ case_dir +:+ "target_feature_columns.txt") ∧
  params !! "item_present_file"
    = Some (base_dir +:+ case_dir +:+ "items_present-labeling.txt") ∧
  params !! "feature_samples_outfile"
    = Some (base_dir +:+ out_dir +:+ "feature_samples_out.txt") ∧
  params !! "target_samples_outfile"
    = Some (base_dir +:+ out_dir +:+ "target_samples_out.txt") ∧
  params !! "feat_targ_samples_outfile"
    = Some (base_dir +:+ out_dir +:+ "feat_targ_samples_out.txt").
Proof.
  cbv zeta. unfold populate_sample_rows_params. cbv zeta.
  rewrite !string_app_assoc.
  repeat split;
    repeat (rewrite lookup_insert_ne by discriminate); by rewrite lookup_insert_eq.
Qed.

(** With the parameters the script builds, for any base directory, the
    indexer asks for no parameter that is missing: it can only fail on a
    file that is not there or on the unbound name of line 187.  The
    seven paths it uses are different files, so that when it returns,
    the three outputs hold their header lines and every other file,
    the four inputs among them, is as it was. *)
Theorem script_run_populated (base_dir : string) (fs : files) :
  let params := populate_sample_rows_params base_dir in
  let out_dir := base_dir +:+ "feature_matrix_storage_labeling_cases/" in
  match determine_feature_matrix_and_target_matrix_rows
          (script_globals params) params fs with
  | Ok fs' =>
      fs' !! (out_dir +:+ "feature_samples_out.txt") = Some [feature_samples_header] ∧
      fs' !! (out_dir +:+ "target_samples_out.txt") = Some [target_samples_header] ∧
      fs' !! (out_dir +:+ "feat_targ_samples_out.txt")
        = Some [feat_targ_samples_header] ∧
      ∀ path,
        path ∉@{list string}
          [out_dir +:+ "feature_samples_out.txt";
           out_dir +:+ "target_samples_out.txt";
           out_dir +:+ "feat_targ_samples_out.txt"] →
        fs' !! path = fs !! path
  | Raise e => e = FileNotFoundError ∨ e = NameError
  end.
Proof.
  cbv zeta.
  destruct (populated_paths base_dir) as (H1 & H2 & H3 & _ & H5 & H6 & H7).
  cbv zeta in *. rewrite <-!string_app_assoc in *.
  set (params := populate_sample_rows_params base_dir) in *.
  destruct (determine_feature_matrix_and_target_matrix_rows
              (script_globals params) params fs) as [fs'|e] eqn:Hrun.
  - apply determine_rows_without_parmas in Hrun
      as (o1 & o2 & o3 & Ho1 & Ho2 & Ho3 & ->).
    rewrite H5 in Ho1. rewrite H6 in Ho2. rewrite H7 in Ho3.
    injection Ho1 as <-. injection Ho2 as <-. injection Ho3 as <-.
    set (out_dir := base_dir +:+ "feature_matrix_storage_labeling_cases/").
    assert (out_dir +:+ "feature_samples_out.txt"
            ≠ out_dir +:+ "target_samples_out.txt") as N12
      by (by intros ?%string_app_inj_l).
    assert (out_dir +:+ "feature_samples_out.txt"
            ≠ out_dir +:+ "feat_targ_samples_out.txt") as N13
      by (by intros ?%string_app_inj_l).
    assert (out_dir +:+ "target_samples_out.txt"
            ≠ out_dir +:+ "feat_targ_samples_out.txt") as N23
      by (by intros ?%string_app_inj_l).
    split; [|split; [|split]].
    + by rewrite !lookup_insert_ne, lookup_insert_eq by done.
    + by rewrite lookup_insert_ne, lookup_insert_eq by done.
    + by rewrite lookup_insert_eq.
    + intros path Hpath.
      apply not_elem_of_cons in Hpath as [P1 Hpath].
      apply not_elem_of_cons in Hpath as [P2 Hpath].
      apply not_elem_of_cons in Hpath as [P3 _].
      by rewrite !lookup_insert_ne by done.
  - revert Hrun. unfold determine_feature_matrix_and_target_matrix_rows, getitem.
    rewrite H1, H2, H3, H5, H6, H7. cbn [of_option mbind result_bind].
    unfold open_read.
    set (case_dir := base_dir +:+ "complete_feature_files_labeling_cases/").
    destruct (fs !! (case_dir +:+ "case_order_rows.txt")) as [f1|];
      cbn [of_option mbind result_bind fmap result_fmap];
      [|intros [= <-]; by left].
    destruct (fs !! (case_dir +:+ "target_case_rows.txt")) as [f2|];
      cbn [of_option mbind result_bind fmap result_fmap];
      [|intros [= <-]; by left].
    destruct (fs !! (case_dir +:+ "target_feature_columns.txt")) as [f3|];
      cbn [of_option mbind result_bind fmap result_fmap];
      [|intros [= <-]; by left].
    rewrite (index_targets_unbound _ _ _ _ _ _ (script_globals_unbound params)).
    destruct (decide (load_list f3 = [])) as [_|_]; cbn [mbind result_bind]; [done|].
    intros [= <-]. by right.
Qed.

(** The later stages read the files the indexer writes, and the same
    target list and target matrix: for every base directory the two
    parameter dictionaries agree on these four entries. *)
Theorem selection_params_follow_indexer (base_dir : string) :
  let rows := populate_sample_rows_params base_dir in
  let selection := populate_feature_selection_params base_dir in
  Forall (λ key, ∃ path, rows !! key = Some path ∧
                         selection !! key = Some (Path path))
    ["feature_samples_outfile"; "target_samples_outfile";
     "target_feature_columns_file"; "target_matrix_name"].
Proof.
  cbv zeta. unfold populate_sample_rows_params, populate_feature_selection_params.
  cbv zeta.
  repeat constructor; eexists;
    (split;
     [repeat (rewrite lookup_insert_ne by discriminate); by rewrite lookup_insert_eq|
      repeat (rewrite lookup_insert_ne by discriminate); by rewrite lookup_insert_eq]).
Qed.

(** ** Matrix Assembler: names, cells and failures *)

Lemma for_enumerate_app {St X} (body : St → nat → X → result St)
    (l1 l2 : list X) (i : nat) (st : St) :
  for_enumerate body i (l1 ++ l2) st
  = for_enumerate body i l1 st ≫= for_enumerate body (i + length l1) l2.
Proof.
  revert i st. induction l1 as [|x l1 IH]; intros i st; simpl.
  - by rewrite Nat.add_0_r.
  - destruct (body st i x) as [st'|e]; simpl; [|done].
    rewrite IH. by rewrite Nat.add_succ_r.
Qed.

(** A loop that ends keeps what each of its steps keeps; the invariant
    may speak of the items already seen. *)
Lemma for_enumerate_prefix_Ok {St X} (body : St → nat → X → result St)
    (P : list X → St → Prop) :
  (∀ pre x st st',
     P pre st → body st (length pre) x = Ok st' → P (pre ++ [x]) st') →
  ∀ l pre st st',
    P pre st → for_enumerate body (length pre) l st = Ok st' → P (pre ++ l) st'.
Proof.
  intros Hbody l. induction l as [|x l IH]; intros pre st st' HP; simpl.
  - intros [= <-]. by rewrite app_nil_r.
  - destruct (body st (length pre) x) as [st1|e] eqn:Hstep; simpl; [|done].
    intros Hrun. rewrite (cons_middle x pre l), app_assoc.
    apply (IH (pre ++ [x]) st1); [by eapply Hbody|].
    by rewrite length_app, Nat.add_1_r.
Qed.

Section AssemblerNames.
Context {A : Type}.

Lemma concat_arrays_names (c_idx : nat) (f_data : pyvalue A)
    (f_names : option (list string)) (l_data : ndarray A) (l_names : list string)
    (d : ndarray A) (n : list string) :
  concat_arrays c_idx f_data f_names l_data l_names = Ok (d, n) →
  if decide (c_idx = 0) then n = l_names
  else ∃ b, f_names = Some b ∧ n = b ++ l_names.
Proof.
  unfold concat_arrays. destruct (decide (c_idx = 0)); [by intros [= _ <-]|].
  destruct (decide (ndim l_data = 2)).
  - destruct (concatenate f_data l_data 1); cbn [mbind result_bind]; [|done].
    destruct f_names as [b|]; cbn [concatenate_names mbind result_bind]; [|done].
    intros [= _ <-]. eauto.
  - destruct (concatenate f_data l_data 0); cbn [mbind result_bind]; [|done].
    destruct f_names as [b|]; cbn [concatenate_names mbind result_bind]; [|done].
    intros [= _ <-]. eauto.
Qed.

Lemma load_dir_names (ty : feature_type A) (v : pyvalue A)
    (names : option (list string)) :
  load_dir ty = Ok (v, names) →
  (feature_files ty = [] ∧ v = NotArray ∧ names = None) ∨
  ((∃ a, v = Array a) ∧ names = Some (type_names ty)).
Proof.
  unfold load_dir. intros Hrun.
  match type of Hrun with for_enumerate ?b _ _ _ = _ => set (body := b) in Hrun end.
  set (P := λ (pre : list (string * table A))
              (st : pyvalue A * option (list string)),
              (pre = [] ∧ st = (NotArray, None)) ∨
              ((∃ a, st.1 = Array a) ∧
               st.2 = Some (concat (file_names ty <$> pre)))).
  assert (∀ pre x st st',
            P pre st → body st (length pre) x = Ok st' → P (pre ++ [x]) st')
    as Hstep.
  { intros pre [filename cells] [all_data all_names] st' HP. unfold body.
    destruct (genfromtxt cells) as [curr|e]; cbn [mbind result_bind]; [|done].
    destruct (concat_arrays (length pre) all_data all_names curr _) as [[d n]|e]
      eqn:Hcat; cbn [mbind result_bind]; [|done].
    intros [= <-]. right. split; [by eexists|]. cbn [snd].
    apply concat_arrays_names in Hcat.
    rewrite fmap_app, concat_app. cbn [fmap list_fmap concat]. rewrite app_nil_r.
    destruct HP as [[-> _]|[_ Hn]].
    - cbn [length] in Hcat. rewrite decide_True in Hcat by done. by subst n.
    - destruct (decide (length pre = 0)) as [Hz|Hnz].
      + apply nil_length_inv in Hz. subst pre n. done.
      + destruct Hcat as (b & -> & ->). simpl in Hn. by injection Hn as <-. }
  pose proof (for_enumerate_prefix_Ok body P Hstep (feature_files ty) []
                (NotArray, None) (v, names)
                (or_introl (conj eq_refl eq_refl)) Hrun) as Hinv.
  destruct Hinv as [[Hnil [= -> ->]]|[Hv Hn]]; [by left | by right].
Qed.

Lemma assemble_types_names (types : list (feature_type A))
    (v : pyvalue A) (names : option (list string)) :
  for_enumerate
    (λ '(full_data, full_names) idx curr_type,
       '(loaded_data, loaded_names) ← load_dir curr_type;
       loaded_data ← the_array loaded_data;
       loaded_names ← of_option AttributeError loaded_names;
       '(d, n) ← concat_arrays idx full_data full_names loaded_data loaded_names;
       Ok (Array d, Some n))
    0 types (NotArray, None) = Ok (v, names) →
  (types = [] ∧ v = NotArray ∧ names = None) ∨
  ((∃ a, v = Array a) ∧ names = Some (concat (type_names <$> types))).
Proof.
  intros Hrun.
  match type of Hrun with for_enumerate ?b _ _ _ = _ => set (body := b) in Hrun end.
  set (P := λ (pre : list (feature_type A))
              (st : pyvalue A * option (list string)),
              (pre = [] ∧ st = (NotArray, None)) ∨
              ((∃ a, st.1 = Array a) ∧
               st.2 = Some (concat (type_names <$> pre)))).
  assert (∀ pre x st st',
            P pre st → body st (length pre) x = Ok st' → P (pre ++ [x]) st')
    as Hstep.
  { intros pre ty [full_data full_names] st' HP. unfold body.
    destruct (load_dir ty) as [[ld ln]|e] eqn:Hload; cbn [mbind result_bind];
      [|done].
    apply load_dir_names in Hload as [(_ & -> & ->)|[[a ->] ->]]; [done|].
    cbn [the_array of_option mbind result_bind].
    destruct (concat_arrays (length pre) full_data full_names a _) as [[d n]|e]
      eqn:Hcat; cbn [mbind result_bind]; [|done].
    intros [= <-]. right. split; [by eexists|]. cbn [snd].
    apply concat_arrays_names in Hcat.
    rewrite fmap_app, concat_app. cbn [fmap list_fmap concat]. rewrite app_nil_r.
    destruct HP as [[-> _]|[_ Hn]].
    - cbn [length] in Hcat. rewrite decide_True in Hcat by done. by subst n.
    - destruct (decide (length pre = 0)) as [Hz|Hnz].
      + apply nil_length_inv in Hz. subst pre n. done.
      + destruct Hcat as (b & -> & ->). simpl in Hn. by injection Hn as <-. }
  pose proof (for_enumerate_prefix_Ok body P Hstep types []
                (NotArray, None) (v, names)
                (or_introl (conj eq_refl eq_refl)) Hrun) as Hinv.
  destruct Hinv as [[Hnil [= -> ->]]|[Hv Hn]]; [by left | by right].
Qed.

Lemma assemble_additional_names (adds : list (additional_feature A))
    (v0 v : pyvalue A) (n0 names : option (list string)) :
  for_enumerate
    (λ '(full_data, full_names) idx curr_file,
       curr_data ← genfromtxt (additional_cells curr_file);
       curr_data ← reshape_column curr_data;
       let curr_names :=
         (λ x, x +:+ "_" +:+ additional_name curr_file)
           <$> additional_columns curr_file in
       '(d, n) ← concat_arrays (idx + 1) full_data full_names curr_data curr_names;
       Ok (Array d, Some n))
    0 adds (v0, n0) = Ok (v, names) →
  (adds = [] ∧ v = v0 ∧ names = n0) ∨
  ((∃ a, v = Array a) ∧
   ∃ b, n0 = Some b ∧ names = Some (b ++ concat (additional_names <$> adds))).
Proof.
  intros Hrun.
  match type of Hrun with for_enumerate ?b _ _ _ = _ => set (body := b) in Hrun end.
  set (P := λ (pre : list (additional_feature A))
              (st : pyvalue A * option (list string)),
              (pre = [] ∧ st = (v0, n0)) ∨
              ((∃ a, st.1 = Array a) ∧
               ∃ b, n0 = Some b ∧
                    st.2 = Some (b ++ concat (additional_names <$> pre)))).
  assert (∀ pre x st st',
            P pre st → body st (length pre) x = Ok st' → P (pre ++ [x]) st')
    as Hstep.
  { intros pre af [full_data full_names] st' HP. unfold body.
    destruct (genfromtxt (additional_cells af)) as [g|e];
      cbn [mbind result_bind]; [|done].
    destruct (reshape_column g) as [curr|e]; cbn [mbind result_bind]; [|done].
    cbv zeta.
    destruct (concat_arrays (length pre + 1) full_data full_names curr _)
      as [[d n]|e] eqn:Hcat; cbn [mbind result_bind]; [|done].
    intros [= <-]. right. split; [by eexists|]. cbn [snd].
    apply concat_arrays_names in Hcat.
    rewrite decide_False in Hcat by lia. destruct Hcat as (b & -> & ->).
    rewrite fmap_app, concat_app. cbn [fmap list_fmap concat]. rewrite app_nil_r.
    destruct HP as [[-> [= _ <-]]|[_ (b0 & -> & Hb)]].
    - by exists b.
    - simpl in Hb. injection Hb as ->. exists b0. by rewrite <-app_assoc. }
  pose proof (for_enumerate_prefix_Ok body P Hstep adds []
                (v0, n0) (v, names)
                (or_introl (conj eq_refl eq_refl)) Hrun) as Hinv.
  destruct Hinv as [[Hnil [= -> ->]]|[Hv Hn]]; [by left | by right].
Qed.

End AssemblerNames.

(** Whenever the assembler returns, the name vector it saves is the
    column of these names, in this order: for every feature type in the
    order given, for every file of the type, every column name of the
    type followed by [_] and the file name without its last four
    characters; then, for every additional feature, its column names
    followed by [_] and its name. *)
Theorem assemble_names {A} (feature_types_to_include : list (feature_type A))
    (additional_features : list (additional_feature A))
    (feature_columns_to_match : list string)
    (full_data : ndarray A) (full_names : ndarray string) :
  assemble_feature_matrix feature_types_to_include additional_features
    feature_columns_to_match = Ok (full_data, full_names) →
  full_names
  = Arr2 1 ((λ x, [x])
              <$> assembled_names feature_types_to_include additional_features).
Proof.
  unfold assemble_feature_matrix.
  match goal with
  | |- context [for_enumerate ?b 0 feature_types_to_include ?init] =>
      destruct (for_enumerate b 0 feature_types_to_include init)
        as [[v1 n1]|e] eqn:Hrun1; cbn [mbind result_bind]; [|done]
  end.
  match goal with
  | |- context [for_enumerate ?b 0 additional_features ?init] =>
      destruct (for_enumerate b 0 additional_features init)
        as [[v2 n2]|e] eqn:Hrun2; cbn [mbind result_bind]; [|done]
  end.
  apply assemble_types_names in Hrun1. apply assemble_additional_names in Hrun2.
  destruct feature_columns_to_match as [|name rest].
  - unfold match_columns. cbn [length]. rewrite decide_True by done.
    cbn [mbind result_bind].
    destruct v2 as [|a2]; cbn [the_array mbind result_bind]; [done|].
    destruct n2 as [names|]; cbn [of_option mbind result_bind]; [|done].
    intros [= _ <-]. do 2 f_equal. unfold assembled_names.
    destruct Hrun1 as [(-> & -> & ->)|[_ ->]].
    + destruct Hrun2 as [(_ & ? & _)|[_ (b & ? & _)]]; done.
    + destruct Hrun2 as [(-> & _ & [= ->])|[_ (b & [= <-] & [= ->])]]; [|done].
      by rewrite app_nil_r.
  - unfold match_columns. cbn [length]. rewrite decide_False by done.
    cbn [for_each]. destruct n2; done.
Qed.

Lemma assemble_names_witness :
  Arr2 1 [["hb_day1"]; ["wbc_day1"]; ["hb_day2"]; ["wbc_day2"];
          ["smoker_smoker_features"]]
  = Arr2 1 ((λ x, [x])
              <$> assembled_names [example_labs] [example_additional]).
Proof.
  apply (assemble_names [example_labs] [example_additional] []
           (Arr2 5 [[1; 2; 7; 8; 0]; [3; 4; 9; 10; 1]; [5; 6; 11; 12; 0]]%Z)).
  vm_compute. reflexivity.
Defined.

(** A loop whose steps all succeed on the items at hand and keep an
    invariant of the items already seen runs to the end and keeps it. *)
Lemma for_enumerate_prefix_invariant {St X} (body : St → nat → X → result St)
    (P : list X → St → Prop) (Q : X → Prop) :
  (∀ pre x st, P pre st → Q x →
     ∃ st', body st (length pre) x = Ok st' ∧ P (pre ++ [x]) st') →
  ∀ l pre st, P pre st → Forall Q l →
    ∃ st', for_enumerate body (length pre) l st = Ok st' ∧ P (pre ++ l) st'.
Proof.
  intros Hbody l. induction l as [|x l IH]; intros pre st HP HQ; simpl.
  - exists st. by rewrite app_nil_r.
  - apply Forall_cons in HQ as [Hx HQ].
    destruct (Hbody pre x st HP Hx) as (st1 & -> & HP1). simpl.
    destruct (IH (pre ++ [x]) st1 HP1 HQ) as (st' & Hrun & HP').
    rewrite length_app, Nat.add_1_r in Hrun.
    exists st'. split; [done|]. by rewrite (cons_middle x pre l), app_assoc.
Qed.

Section AssemblerCells.
Context {A : Type}.
Variable cases : nat.

Lemma side_by_side_app (t1 t2 : list (table A)) (i : nat) :
  side_by_side (t1 ++ t2) i = side_by_side t1 i ++ side_by_side t2 i.
Proof. unfold side_by_side. by rewrite fmap_app, concat_app. Qed.

Lemma table_rows_seq (cells : table A) :
  length cells = cases → side_by_side [cells] <$> seq 0 cases = cells.
Proof.
  intros <-. apply list_eq. intros i. rewrite list_lookup_fmap.
  destruct (decide (i < length cells)) as [Hlt|Hge].
  - rewrite lookup_seq_lt by done. simpl.
    destruct (lookup_lt_is_Some_2 cells i Hlt) as [r Hr].
    rewrite Hr. unfold side_by_side. simpl. by rewrite Hr, app_nil_r.
  - rewrite lookup_seq_ge by lia. simpl. symmetry. apply lookup_ge_None. lia.
Qed.

Lemma zip_with_app_fmap {B} (f g : B → list A) (l : list B) :
  zip_with app (f <$> l) (g <$> l) = (λ i, f i ++ g i) <$> l.
Proof. induction l as [|x l IH]; csimpl; [done|]. by rewrite IH. Qed.

Lemma singleton_rows (cells : table A) :
  Forall (λ r, length r = 1) cells → (λ x, [x]) <$> concat cells = cells.
Proof.
  induction 1 as [|r cells Hr _ IH]; [done|].
  destruct r as [|x [|y r]]; simpl in Hr; try lia.
  csimpl. by rewrite IH.
Qed.

(** Putting a payload beside what is held: the rows are joined case by
    case and the names are appended. *)
Lemma concat_arrays_side_by_side (c_idx : nat) (f_data : pyvalue A)
    (f_names : option (list string)) (held : list (table A))
    (names : list string) (payload : list (table A)) (l_names : list string) :
  (c_idx = 0 → held = [] ∧ names = []) →
  (c_idx ≠ 0 →
   f_data = Array (Arr2 (length names) (side_by_side held <$> seq 0 cases)) ∧
   f_names = Some names) →
  concat_arrays c_idx f_data f_names
    (Arr2 (length l_names) (side_by_side payload <$> seq 0 cases)) l_names
  = Ok (Arr2 (length (names ++ l_names))
          (side_by_side (held ++ payload) <$> seq 0 cases),
        names ++ l_names).
Proof.
  intros Hz Hnz. unfold concat_arrays.
  destruct (decide (c_idx = 0)) as [Hi|Hi].
  - destruct (Hz Hi) as [-> ->]. done.
  - destruct (Hnz Hi) as [-> ->]. rewrite decide_True by done.
    cbn [concatenate]. rewrite decide_True by (by rewrite !length_fmap).
    cbn [mbind result_bind concatenate_names].
    rewrite zip_with_app_fmap, length_app. do 3 f_equal.
    apply list_fmap_ext. intros _ i _. by rewrite side_by_side_app.
Qed.

Lemma load_dir_cells (ty : feature_type A) :
  2 ≤ cases → matrix_type cases ty →
  load_dir ty
  = Ok (Array (Arr2 (length (type_names ty))
                 (side_by_side (snd <$> feature_files ty) <$> seq 0 cases)),
        Some (type_names ty)).
Proof.
  intros Hcases (Hfiles & Hcols & Hshape). unfold load_dir.
  match goal with |- for_enumerate ?b _ _ _ = _ => set (body := b) end.
  set (P := λ (pre : list (string * table A))
              (st : pyvalue A * option (list string)),
              pre ≠ [] →
              st = (Array (Arr2 (length (concat (file_names ty <$> pre)))
                             (side_by_side (snd <$> pre) <$> seq 0 cases)),
                    Some (concat (file_names ty <$> pre)))).
  destruct (for_enumerate_prefix_invariant body P
              (λ f, cells_shape cases (length (feature_columns ty)) f.2))
    with (l := feature_files ty) (pre := @nil (string * table A))
         (st := (@NotArray A, @None (list string)))
    as (st' & Hrun & HP); [|by unfold P|exact Hshape|].
  - intros pre [filename cells] [all_data all_names] HP Hcells. unfold body.
    simpl in Hcells.
    rewrite (genfromtxt_matrix cases _ _ Hcases Hcols Hcells).
    cbn [mbind result_bind].
    assert (Arr2 (length (feature_columns ty)) cells
            = Arr2 (length ((λ x, x +:+ "_" +:+ Py.drop_end 4 filename)
                              <$> feature_columns ty))
                (side_by_side [cells] <$> seq 0 cases)) as ->.
    { by rewrite length_fmap, table_rows_seq by apply Hcells. }
    rewrite (concat_arrays_side_by_side (length pre) all_data all_names
               (snd <$> pre) (concat (file_names ty <$> pre))).
    + cbn [mbind result_bind]. eexists. split; [reflexivity|].
      intros _. rewrite !fmap_app, concat_app. cbn [fmap list_fmap concat snd].
      by rewrite app_nil_r.
    + intros Hz%nil_length_inv. by subst pre.
    + intros Hnz. assert (pre ≠ []) as Hne by (by intros ->).
      specialize (HP Hne). by injection HP as -> ->.
  - simpl in Hrun. rewrite Hrun. by rewrite (HP Hfiles).
Qed.

Lemma types_loop_cells (types : list (feature_type A)) :
  2 ≤ cases → types ≠ [] → Forall (matrix_type cases) types →
  for_enumerate
    (λ '(full_data, full_names) idx curr_type,
       '(loaded_data, loaded_names) ← load_dir curr_type;
       loaded_data ← the_array loaded_data;
       loaded_names ← of_option AttributeError loaded_names;
       '(d, n) ← concat_arrays idx full_data full_names loaded_data loaded_names;
       Ok (Array d, Some n))
    0 types (NotArray, None)
  = Ok (Array (Arr2 (length (assembled_names types []))
                 (side_by_side (assembled_tables types []) <$> seq 0 cases)),
        Some (assembled_names types [])).
Proof.
  intros Hcases Hne Htypes.
  match goal with |- for_enumerate ?b _ _ _ = _ => set (body := b) end.
  set (P := λ (pre : list (feature_type A))
              (st : pyvalue A * option (list string)),
              pre ≠ [] →
              st = (Array (Arr2 (length (assembled_names pre []))
                             (side_by_side (assembled_tables pre []) <$> seq 0 cases)),
                    Some (assembled_names pre []))).
  destruct (for_enumerate_prefix_invariant body P (matrix_type cases))
    with (l := types) (pre := @nil (feature_type A))
         (st := (@NotArray A, @None (list string)))
    as (st' & Hrun & HP); [|by unfold P|exact Htypes|].
  - intros pre ty [full_data full_names] HP Hty. unfold body.
    rewrite (load_dir_cells ty Hcases Hty).
    cbn [mbind result_bind the_array of_option].
    rewrite (concat_arrays_side_by_side (length pre) full_data full_names
               (assembled_tables pre []) (assembled_names pre [])).
    + cbn [mbind result_bind]. eexists. split; [reflexivity|].
      intros _. unfold assembled_names, assembled_tables.
      rewrite !fmap_app, !concat_app. cbn [fmap list_fmap concat].
      by rewrite !app_nil_r.
    + intros Hz%nil_length_inv. by subst pre.
    + intros Hnz. assert (pre ≠ []) as Hpre by (by intros ->).
      specialize (HP Hpre). by injection HP as -> ->.
  - simpl in Hrun. rewrite Hrun. by rewrite (HP Hne).
Qed.

Lemma additional_loop_cells (adds : list (additional_feature A))
    (held : list (table A)) (names : list string) :
  2 ≤ cases → Forall (column_feature cases) adds →
  for_enumerate
    (λ '(full_data, full_names) idx curr_file,
       curr_data ← genfromtxt (additional_cells curr_file);
       curr_data ← reshape_column curr_data;
       let curr_names :=
         (λ x, x +:+ "_" +:+ additional_name curr_file)
           <$> additional_columns curr_file in
       '(d, n) ← concat_arrays (idx + 1) full_data full_names curr_data curr_names;
       Ok (Array d, Some n))
    0 adds
    (Array (Arr2 (length names) (side_by_side held <$> seq 0 cases)), Some names)
  = Ok (Array (Arr2 (length (names ++ concat (additional_names <$> adds)))
                 (side_by_side (held ++ (additional_cells <$> adds))
                    <$> seq 0 cases)),
        Some (names ++ concat (additional_names <$> adds))).
Proof.
  intros Hcases Hadds.
  match goal with |- for_enumerate ?b _ _ _ = _ => set (body := b) end.
  set (P := λ (pre : list (additional_feature A))
              (st : pyvalue A * option (list string)),
              st = (Array (Arr2 (length (names ++ concat (additional_names <$> pre)))
                             (side_by_side (held ++ (additional_cells <$> pre))
                                <$> seq 0 cases)),
                    Some (names ++ concat (additional_names <$> pre)))).
  destruct (for_enumerate_prefix_invariant body P (column_feature cases))
    with (l := adds) (pre := @nil (additional_feature A))
         (st := (Array (Arr2 (length names) (side_by_side held <$> seq 0 cases)),
                 Some names))
    as (st' & Hrun & HP); [| |exact Hadds|].
  - intros pre af [full_data full_names] HP [Hname Hcells]. unfold body.
    destruct (genfromtxt_column cases _ Hcases Hcells) as [-> _].
    cbn [mbind result_bind reshape_column]. cbv zeta.
    assert (Arr2 1 ((λ x, [x]) <$> concat (additional_cells af))
            = Arr2 (length ((λ x, x +:+ "_" +:+ additional_name af)
                              <$> additional_columns af))
                (side_by_side [additional_cells af] <$> seq 0 cases)) as ->.
    { by rewrite length_fmap, Hname, table_rows_seq, singleton_rows
        by apply Hcells. }
    injection HP as -> ->.
    rewrite (concat_arrays_side_by_side (length pre + 1) _ _
               (held ++ (additional_cells <$> pre))
               (names ++ concat (additional_names <$> pre))); [|lia|done].
    cbn [mbind result_bind]. eexists. split; [reflexivity|].
    unfold P. rewrite !fmap_app, !concat_app. cbn [fmap list_fmap concat].
    by rewrite !app_nil_r, <-!app_assoc.
  - unfold P. cbn [fmap list_fmap concat]. by rewrite !app_nil_r.
  - simpl in Hrun. rewrite Hrun. unfold P in HP. simpl in HP. by rewrite HP.
Qed.

End AssemblerCells.

(** What the assembled matrix holds.  Under the conditions in which the
    assembler builds a matrix over [cases] cases (no column matching,
    every file with [cases] rows of as many fields as its type has
    column names, at least two of each, every additional feature one
    value per case under one name), row [i] of the saved matrix is row
    [i] of every file, in the order of the feature types and their
    files, followed by value [i] of every additional feature; the saved
    names are those of [assembled_names], one per column. *)
Theorem assemble_matrix_cells {A} (cases : nat)
    (feature_types_to_include : list (feature_type A))
    (additional_features : list (additional_feature A)) :
  2 ≤ cases →
  feature_types_to_include ≠ [] →
  Forall (matrix_type cases) feature_types_to_include →
  Forall (column_feature cases) additional_features →
  let names := assembled_names feature_types_to_include additional_features in
  let tables := assembled_tables feature_types_to_include additional_features in
  assemble_feature_matrix feature_types_to_include additional_features []
  = Ok (Arr2 (length names) (side_by_side tables <$> seq 0 cases),
        Arr2 1 ((λ x, [x]) <$> names)).
Proof.
  intros Hcases Hne Htypes Hadds. cbv zeta. unfold assemble_feature_matrix.
  rewrite (types_loop_cells cases _ Hcases Hne Htypes).
  cbn [mbind result_bind].
  rewrite (additional_loop_cells cases _ _ _ Hcases Hadds).
  cbn [mbind result_bind]. unfold assembled_names, assembled_tables.
  cbn [fmap list_fmap concat]. by rewrite !app_nil_r.
Qed.

Lemma assemble_matrix_cells_witness :
  assemble_feature_matrix [example_labs] [example_additional] []
  = Ok (Arr2 (length (assembled_names [example_labs] [example_additional]))
          (side_by_side (assembled_tables [example_labs] [example_additional])
             <$> seq 0 3),
        Arr2 1 ((λ x, [x])
                  <$> assembled_names [example_labs] [example_additional])).
Proof.
  apply (assemble_matrix_cells 3 [example_labs] [example_additional]).
  - lia.
  - discriminate.
  - repeat constructor; simpl; try lia; discriminate.
  - repeat constructor.
Defined.

Section AssemblerFailures.
Context {A : Type}.

Lemma load_dir_no_files (ty : feature_type A) :
  feature_files ty = [] → load_dir ty = Ok (NotArray, None).
Proof. unfold load_dir. by intros ->. Qed.

Lemma types_loop_files (types : list (feature_type A))
    (st : pyvalue A * option (list string)) :
  for_enumerate
    (λ '(full_data, full_names) idx curr_type,
       '(loaded_data, loaded_names) ← load_dir curr_type;
       loaded_data ← the_array loaded_data;
       loaded_names ← of_option AttributeError loaded_names;
       '(d, n) ← concat_arrays idx full_data full_names loaded_data loaded_names;
       Ok (Array d, Some n))
    0 types (NotArray, None) = Ok st →
  Forall (λ ty, feature_files ty ≠ []) types.
Proof.
  intros Hrun.
  match type of Hrun with for_enumerate ?b _ _ _ = _ => set (body := b) in Hrun end.
  set (P := λ (pre : list (feature_type A))
              (_ : pyvalue A * option (list string)),
              Forall (λ ty, feature_files ty ≠ []) pre).
  assert (∀ pre x st st',
            P pre st → body st (length pre) x = Ok st' → P (pre ++ [x]) st')
    as Hstep.
  { intros pre ty [full_data full_names] st' HP. unfold body, P.
    intros Hty. apply Forall_app. split; [exact HP|]. constructor; [|constructor].
    intros Hnil. rewrite (load_dir_no_files ty Hnil) in Hty. discriminate. }
  exact (for_enumerate_prefix_Ok body P Hstep types [] (NotArray, None) st
           (List.Forall_nil _) Hrun).
Qed.

End AssemblerFailures.

(** When the assembler returns.  It returns only if at least one feature
    type is included, every included feature type has at least one data
    file, and no column matching is asked for: without a feature type
    there is nothing to put the additional features beside, a feature
    type without files loads as [None], and a request for columns makes
    the matching block raise. *)
Theorem assemble_returns_only_if {A}
    (feature_types_to_include : list (feature_type A))
    (additional_features : list (additional_feature A))
    (feature_columns_to_match : list string)
    (out : ndarray A * ndarray string) :
  assemble_feature_matrix feature_types_to_include additional_features
    feature_columns_to_match = Ok out →
  feature_types_to_include ≠ [] ∧
  Forall (λ ty, feature_files ty ≠ []) feature_types_to_include ∧
  feature_columns_to_match = [].
Proof.
  unfold assemble_feature_matrix.
  match goal with
  | |- context [for_enumerate ?b 0 feature_types_to_include ?init] =>
      destruct (for_enumerate b 0 feature_types_to_include init)
        as [[v1 n1]|e] eqn:Hrun1; cbn [mbind result_bind]; [|done]
  end.
  match goal with
  | |- context [for_enumerate ?b 0 additional_features ?init] =>
      destruct (for_enumerate b 0 additional_features init)
        as [[v2 n2]|e] eqn:Hrun2; cbn [mbind result_bind]; [|done]
  end.
  pose proof (types_loop_files _ _ Hrun1) as Hfiles.
  apply assemble_additional_names in Hrun2.
  destruct feature_columns_to_match as [|name rest].
  - unfold match_columns. cbn [length]. rewrite decide_True by done.
    cbn [mbind result_bind].
    destruct v2 as [|a2]; cbn [the_array mbind result_bind]; [done|].
    destruct n2 as [names|]; cbn [of_option mbind result_bind]; [|done].
    intros _. split; [|done].
    intros ->. cbn [for_enumerate] in Hrun1. injection Hrun1 as <- <-.
    destruct Hrun2 as [(_ & ? & _)|[_ (b & ? & _)]]; done.
  - unfold match_columns. cbn [length]. rewrite decide_False by done.
    cbn [for_each]. destruct n2; done.
Qed.

Lemma assemble_returns_only_if_witness :
  [example_labs] ≠ [] ∧
  Forall (λ ty : feature_type Z, feature_files ty ≠ []) [example_labs] ∧
  ([] : list string) = [].
Proof.
  apply (assemble_returns_only_if [example_labs] [example_additional] []
           (Arr2 5 [[1; 2; 7; 8; 0]; [3; 4; 9; 10; 1]; [5; 6; 11; 12; 0]]%Z,
            Arr2 1 [["hb_day1"]; ["wbc_day1"]; ["hb_day2"]; ["wbc_day2"];
                    ["smoker_smoker_features"]])).
  vm_compute. reflexivity.
Defined.

(** Feature types over different numbers of cases are not put side by
    side: when the files of the first feature types hold [cases] rows
    and those of the next one [cases'] rows, [np.concatenate] raises
    [ValueError] and nothing is saved. *)
Theorem assemble_rows_mismatch {A} (cases cases' : nat)
    (before : list (feature_type A)) (ty : feature_type A)
    (after : list (feature_type A))
    (additional_features : list (additional_feature A))
    (feature_columns_to_match : list string) :
  2 ≤ cases → 2 ≤ cases' → cases ≠ cases' →
  before ≠ [] →
  Forall (matrix_type cases) before →
  matrix_type cases' ty →
  assemble_feature_matrix (before ++ ty :: after) additional_features
    feature_columns_to_match = Raise ValueError.
Proof.
  intros Hcases Hcases' Hne Hbefore Htypes Hty. unfold assemble_feature_matrix.
  rewrite for_enumerate_app.
  rewrite (types_loop_cells cases _ Hcases Hbefore Htypes).
  cbn [mbind result_bind for_enumerate].
  rewrite (load_dir_cells cases' ty Hcases' Hty).
  cbn [mbind result_bind the_array of_option].
  unfold concat_arrays.
  rewrite decide_False by (destruct before; [done|simpl; lia]).
  rewrite decide_True by done.
  cbn [concatenate]. rewrite decide_False; [done|].
  by rewrite !length_fmap, !length_seq.
Qed.

Lemma assemble_rows_mismatch_witness :
  assemble_feature_matrix
    ([example_labs]
     ++ FeatureType [("day3.csv", [[1; 2]; [3; 4]]%Z)] ["hb"; "wbc"] :: [])
    [] []
  = Raise ValueError.
Proof.
  apply (assemble_rows_mismatch 3 2 [example_labs]
           (FeatureType [("day3.csv", [[1; 2]; [3; 4]]%Z)] ["hb"; "wbc"]) [] [] []).
  - lia.
  - lia.
  - lia.
  - discriminate.
  - repeat constructor; simpl; try lia; discriminate.
  - repeat constructor; simpl; try lia; discriminate.
Defined.

(** ** Model trainer: rows that do not unpack *)

Lemma int_raises (s : string) (e : exn) : Py.int s = Raise e → e = ValueError.
Proof.
  unfold Py.int. cbv zeta.
  match goal with |- of_option _ ?o = _ → _ => destruct o end; simpl; [done|].
  by intros [= <-].
Qed.

Lemma map_int_raises (l : list string) (e : exn) :
  map_result Py.int l = Raise e → e = ValueError.
Proof.
  induction l as [|s l IH]; [done|]. cbn [map_result].
  destruct (Py.int s) as [z|e'] eqn:Hs; cbn [mbind result_bind].
  - destruct (map_result Py.int l) as [zs|e'']; cbn [mbind result_bind]; [done|].
    intros [= <-]. by apply IH.
  - intros [= <-]. by eapply int_raises.
Qed.

Lemma selection_entry_unpacks (row : string) :
  (unpacks row → ∃ entry, selection_entry row = Ok entry) ∧
  (¬ unpacks row → selection_entry row = Raise ValueError).
Proof.
  unfold unpacks, selection_entry. split.
  - intros (model_type & str_indices & -> & Hints).
    destruct (decide (String.length str_indices ≠ 0)) as [Hlen|Hlen]; [|eauto].
    destruct Hints as [l ->]; [by intros ->|]. cbn [mbind result_bind]. eauto.
  - intros Hnot.
    destruct (Py.split ":" row) as [|model_type [|str_indices [|??]]]; try done.
    destruct (decide (String.length str_indices ≠ 0)) as [Hlen|Hlen].
    + destruct (map_result Py.int (Py.split "," str_indices)) as [l|e] eqn:Hl;
        cbn [mbind result_bind].
      * destruct Hnot. exists model_type, str_indices. eauto.
      * by rewrite (map_int_raises _ _ Hl).
    + destruct Hnot. exists model_type, str_indices. split; [done|].
      intros Hne. destruct str_indices; [done|]. simpl in Hlen. lia.
Qed.

Lemma load_selection_rows_raises (suffix : string) (good rest : list string)
    (bad : string) (feature_dir : gmap string (list Z)) :
  Forall unpacks good → ¬ unpacks bad →
  load_selection_rows suffix (good ++ bad :: rest) feature_dir = Raise ValueError.
Proof.
  intros Hgood Hbad. unfold load_selection_rows. revert feature_dir.
  induction Hgood as [|row good Hrow _ IH]; intros feature_dir; cbn [app for_each].
  - rewrite (proj2 (selection_entry_unpacks bad) Hbad). done.
  - destruct (proj1 (selection_entry_unpacks row) Hrow) as [[model_type l] ->].
    cbn [mbind result_bind]. apply IH.
Qed.

Lemma load_selection_rows_unpack (suffix : string) (rows : list string)
    (feature_dir : gmap string (list Z)) :
  Forall unpacks rows →
  ∃ d, load_selection_rows suffix rows feature_dir = Ok d.
Proof.
  intros Hrows. unfold load_selection_rows. revert feature_dir.
  induction Hrows as [|row rows Hrow _ IH]; intros feature_dir; cbn [for_each].
  - eauto.
  - destruct (proj1 (selection_entry_unpacks row) Hrow) as [[model_type l] ->].
    cbn [mbind result_bind]. apply IH.
Qed.

(** A row that does not unpack stops the loader.  With both result
    files in place, the first row (of the median file, or, when all of
    its rows unpack, of the regression file) that has no colon or more
    than one, or whose index part holds something that is not an
    integer, makes [load_feature_selection_files] raise [ValueError];
    the rows after it are not looked at. *)
Theorem load_feature_selection_files_bad_row
    (fs : files) (prefilename : string) (m_file r_file : list string)
    (good rest : list string) (bad : string) :
  fs !! (prefilename +:+ "-mImp.txt") = Some m_file →
  fs !! (prefilename +:+ "-rImp.txt") = Some r_file →
  load_list m_file = good ++ bad :: rest ∨
  (Forall unpacks (load_list m_file) ∧ load_list r_file = good ++ bad :: rest) →
  Forall unpacks good →
  ¬ unpacks bad →
  load_feature_selection_files fs prefilename = Raise ValueError.
Proof.
  intros Hm Hr Hwhere Hgood Hbad.
  unfold load_feature_selection_files, open_read.
  rewrite Hm. cbn [of_option fmap result_fmap mbind result_bind].
  destruct Hwhere as [->|[Hall Hrows]].
  - by rewrite load_selection_rows_raises.
  - destruct (load_selection_rows_unpack "-m" _ ∅ Hall) as [d ->].
    cbn [mbind result_bind].
    rewrite Hr. cbn [of_option fmap result_fmap mbind result_bind].
    rewrite Hrows. by rewrite load_selection_rows_raises.
Qed.

Lemma load_feature_selection_files_bad_row_witness :
  load_feature_selection_files
    (<["fs/0_full-rImp.txt" := ["lr:0" +:+ newline; "sv 4,5" +:+ newline]]>
       example_selection_files)
    "fs/0_full"
  = Raise ValueError.
Proof.
  apply (load_feature_selection_files_bad_row _ "fs/0_full"
           example_m_file ["lr:0" +:+ newline; "sv 4,5" +:+ newline]
           ["lr:0"] [] "sv 4,5").
  - vm_compute. reflexivity.
  - vm_compute. reflexivity.
  - right. split; [|reflexivity].
    repeat constructor.
    + exists "lr", "1,2,3". split; [reflexivity|]. intros _. by eexists.
    + exists "sv", "". split; [reflexivity|]. done.
    + exists "rf", "7". split; [reflexivity|]. intros _. by eexists.
  - repeat constructor.
    exists "lr", "0". split; [reflexivity|]. intros _. by eexists.
  - intros (model_type & str_indices & Hsplit & _). discriminate.
Defined.
